(** * TGSKit: checking Bodymovin documents against the Telegram sticker rules

    A shallow embedding of the [TGSKit] class (TypeScript) and the properties
    of its [load], [validate], [checkLayer], [checkItems] and [generate]
    methods.

    The repository holds two variants of the class:
    - the one whose diagnostics are [IValidationError] records (a message and
      optional nested details), embedded in [Module TGSKit];
    - the one of [src/TGSKit.ts], whose diagnostics are plain strings,
      embedded in [Module TGSKitFlat].

    The class walks an untyped value, so the embedding starts with the part
    of JavaScript the methods rely on: values, property access, the [in]
    operator, the coercions behind [==], [-], [/] and [>], and exceptions. *)

From Stdlib Require Import List String Ascii ZArith Bool Lia Floats.
Import ListNotations.
Local Open Scope string_scope.

Set Warnings "-register-all,-abstract-large-number".

(** ** JavaScript values *)

(** A JavaScript Number is an IEEE 754 binary64 float. *)
Abbreviation number := float (only parsing).

(** The values a document is made of: what [JSON.parse] builds, and
    [undefined], which reading an absent property yields.  An object is the
    list of its own properties in insertion order; reading a key takes its
    first binding. *)
Inductive value :=
| VUndefined
| VNull
| VBoolean (b : bool)
| VNumber (n : number)
| VString (s : string)
| VArray (items : list value)
| VObject (props : list (string * value)).

(** What a [throw] carries. *)
Inductive exn :=
| TypeError
| SyntaxError
| RangeError
| Error (msg : string).

(** The completion of an evaluation: a value, or an exception on its way to
    the caller. *)
Inductive completion (A : Type) :=
| Return (a : A)
| Throw (e : exn).
Arguments Return {A} a.
Arguments Throw {A} e.

Definition bind {A B} (c : completion A) (k : A -> completion B) : completion B :=
  match c with
  | Return a => k a
  | Throw e => Throw e
  end.

Notation "x <- c ;; k" := (bind c (fun x => k))
  (at level 61, c at next level, right associativity).

(** The host's part: the functions of the JavaScript runtime, of the browser
    and of the [pako] library that the class calls and that are no code of
    the repository. *)
Class Runtime := {
  (** [StringToNumber]: the Number a string converts to ([NaN] when it is no
      numeric literal). *)
  StringToNumber : string -> number;
  (** [Number::toString]. *)
  NumberToString : number -> string;
  (** [JSON.parse]; [None] when it throws a [SyntaxError]. *)
  JSON_parse : string -> option value;
  (** [JSON.stringify] of a value without cycles.  It throws when the value
      is nested deeper than the stack of the engine allows (a
      [RangeError]). *)
  JSON_stringify : value -> completion string;
  (** [new URL(s).toString()]; [None] when the constructor throws. *)
  new_URL : string -> option string;
  (** [pako.gzip] of a string.  It throws when its stream ends in an
      error. *)
  pako_gzip : string -> completion (list Byte.byte);
  (** [pako.inflate(bytes, {to: 'string'})]. *)
  pako_inflate : list Byte.byte -> completion string;
  (** The body of the response to [GET path], once the request is done with
      status 200; [None] when that never happens. *)
  XMLHttpRequest_GET : string -> option (list Byte.byte)
}.

(** ** The operations of the language *)

Module JS.

Fixpoint assoc (key : string) (props : list (string * value)) : option value :=
  match props with
  | [] => None
  | (k, v) :: rest => if String.eqb k key then Some v else assoc key rest
  end.

(** [o.key = v] on the properties of an object: an existing key keeps its
    place, a new one goes last. *)
Fixpoint put (key : string) (v : value) (props : list (string * value))
  : list (string * value) :=
  match props with
  | [] => [(key, v)]
  | (k, x) :: rest =>
      if String.eqb k key then (k, v) :: rest else (k, x) :: put key v rest
  end.

(** [delete o.key]. *)
Definition remove (key : string) (props : list (string * value))
  : list (string * value) :=
  filter (fun kv => negb (String.eqb (fst kv) key)) props.

(** [o.key], for the keys the class reads: none of them is a property of
    [Object.prototype], [Array.prototype] or of the wrappers of the
    primitives, so only an object's own properties can answer. *)
Definition Get (o : value) (key : string) : completion value :=
  match o with
  | VUndefined | VNull => Throw TypeError
  | VObject props =>
      Return (match assoc key props with Some v => v | None => VUndefined end)
  | _ => Return VUndefined
  end.

(** [key in o], for the keys the class tests. *)
Definition HasProperty (key : string) (o : value) : completion bool :=
  match o with
  | VObject props =>
      Return (match assoc key props with Some _ => true | None => false end)
  | VArray _ => Return false
  | _ => Throw TypeError
  end.

Definition isArray (v : value) : bool :=
  match v with VArray _ => true | _ => false end.

(** [typeof v]. *)
Definition typeof (v : value) : string :=
  match v with
  | VUndefined => "undefined"
  | VBoolean _ => "boolean"
  | VNumber _ => "number"
  | VString _ => "string"
  | VNull | VArray _ | VObject _ => "object"
  end.

(** [v == null]. *)
Definition nullish (v : value) : bool :=
  match v with VUndefined | VNull => true | _ => false end.

(** [v === n] for a Number [n]. *)
Definition strict_eq_number (v : value) (n : number) : bool :=
  match v with VNumber m => PrimFloat.eqb m n | _ => false end.

(** [v === true]. *)
Definition strict_eq_true (v : value) : bool :=
  match v with VBoolean true => true | _ => false end.

(** [v === false]. *)
Definition strict_eq_false (v : value) : bool :=
  match v with VBoolean false => true | _ => false end.

Definition has_own (key : string) (props : list (string * value)) : bool :=
  match assoc key props with Some _ => true | None => false end.

Definition number_of_bool (b : bool) : number := if b then 1%float else 0%float.

Definition number_of_nat (i : nat) : number :=
  PrimFloat.of_uint63 (Uint63.of_Z (Z.of_nat i)).

Section Coercions.
Context {rt : Runtime}.

(** [ToString].  An array joins the strings of its items with commas, an
    [undefined] or [null] item giving the empty string.  A plain object
    answers through [Object.prototype.toString], unless a property of its own
    named [toString] hides it: that property is no function, and neither
    [valueOf] yields a primitive, so the conversion throws. *)
Fixpoint ToString (v : value) : completion string :=
  match v with
  | VUndefined => Return "undefined"
  | VNull => Return "null"
  | VBoolean b => Return (if b then "true" else "false")
  | VNumber n => Return (NumberToString n)
  | VString s => Return s
  | VArray items =>
      parts <- (fix each (l : list value) : completion (list string) :=
                  match l with
                  | [] => Return []
                  | x :: rest =>
                      s <- (if nullish x then Return "" else ToString x) ;;
                      ss <- each rest ;;
                      Return (s :: ss)
                  end) items ;;
      Return (String.concat "," parts)
  | VObject props =>
      if has_own "toString" props then Throw TypeError
      else Return "[object Object]"
  end.

(** [ToNumber]; an array or object goes through its string. *)
Definition ToNumber (v : value) : completion number :=
  match v with
  | VUndefined => Return nan
  | VNull => Return 0%float
  | VBoolean b => Return (number_of_bool b)
  | VNumber n => Return n
  | VString s => Return (StringToNumber s)
  | VArray _ | VObject _ => s <- ToString v ;; Return (StringToNumber s)
  end.

(** [ToBoolean]. *)
Definition ToBoolean (v : value) : bool :=
  match v with
  | VUndefined | VNull => false
  | VBoolean b => b
  | VNumber n => negb (PrimFloat.eqb n 0 || PrimFloat.is_nan n)
  | VString s => negb (String.eqb s "")
  | VArray _ | VObject _ => true
  end.

(** [v == n] for a Number [n]. *)
Definition loose_eq_number (v : value) (n : number) : completion bool :=
  match v with
  | VUndefined | VNull => Return false
  | _ => m <- ToNumber v ;; Return (PrimFloat.eqb m n)
  end.

(** [v == s] for a String [s]. *)
Definition loose_eq_string (v : value) (s : string) : completion bool :=
  match v with
  | VUndefined | VNull => Return false
  | VBoolean b => Return (PrimFloat.eqb (number_of_bool b) (StringToNumber s))
  | VNumber n => Return (PrimFloat.eqb n (StringToNumber s))
  | VString t => Return (String.eqb t s)
  | VArray _ | VObject _ => t <- ToString v ;; Return (String.eqb t s)
  end.

(** [a - b], [a / b] and [a > b] on values ([>] is only met with Numbers on
    both sides). *)
Definition minus (a b : value) : completion number :=
  x <- ToNumber a ;; y <- ToNumber b ;; Return (PrimFloat.sub x y).

Definition divide (a : number) (b : value) : completion number :=
  y <- ToNumber b ;; Return (PrimFloat.div a y).

Definition greater (a b : number) : bool := PrimFloat.ltb b a.

(** [a && b] and [a || b] on conditions that may throw: [b] is evaluated only
    when [a] does not decide. *)
Definition and_then (a : completion bool) (b : completion bool) : completion bool :=
  x <- a ;; if x then b else Return false.

Definition or_else (a : completion bool) (b : completion bool) : completion bool :=
  x <- a ;; if x then Return true else b.

(** [v != n]. *)
Definition loose_neq_number (v : value) (n : number) : completion bool :=
  b <- loose_eq_number v n ;; Return (negb b).

(** [key in data && Array.isArray(data.key)]. *)
Definition has_array (key : string) (data : value) : completion bool :=
  and_then (HasProperty key data) (v <- Get data key ;; Return (isArray v)).

(** [key in data && Array.isArray(data.key) && data.key.length > 0]. *)
Definition has_items (key : string) (data : value) : completion bool :=
  and_then (has_array key data)
    (v <- Get data key ;;
     Return (match v with VArray (_ :: _) => true | _ => false end)).

End Coercions.

(** [arr.forEach(callback)], the callback updating what it captured (here
    the array of errors it pushes to).  Only an array has a [forEach] to
    call. *)
Fixpoint forEach_from {S : Type} (i : nat) (l : list value)
    (callback : value -> nat -> S -> completion S) (s : S) : completion S :=
  match l with
  | [] => Return s
  | x :: rest => s' <- callback x i s ;; forEach_from (Datatypes.S i) rest callback s'
  end.

Definition forEach {S : Type} (arr : value)
    (callback : value -> nat -> S -> completion S) (s : S) : completion S :=
  match arr with
  | VArray l => forEach_from 0 l callback s
  | _ => Throw TypeError
  end.

End JS.
Import JS.

(** ** The class state *)

(** A method runs on the instance's [_data] and leaves it, possibly changed,
    with its completion. *)
Definition method (A : Type) := value -> completion A * value.

Definition mbind {A B} (m : method A) (k : A -> method B) : method B :=
  fun data =>
    match m data with
    | (Return a, data') => k a data'
    | (Throw e, data') => (Throw e, data')
    end.

Definition mret {A} (a : A) : method A := fun data => (Return a, data).

(** A computation that only reads. *)
Definition pure {A} (f : value -> completion A) : method A :=
  fun data => (f data, data).

Notation "x <~ m ;; k" := (mbind m (fun x => k))
  (at level 61, m at next level, right associativity).

(** The initial [_data] of an instance: [{}]. *)
Definition empty_object : value := VObject [].

(** ** The class with nested diagnostics *)

Module TGSKit.

(** [interface IValidationError { message: string; details?: IValidationError[] }] *)
Inductive IValidationError := {
  message : string;
  details : option (list IValidationError)
}.

(** [{ message: m }] and [{ message: m, details: d }]. *)
Definition diagnostic (m : string) : IValidationError :=
  {| message := m; details := None |}.

Definition diagnostic_with (m : string) (d : list IValidationError) : IValidationError :=
  {| message := m; details := Some d |}.

(** [errors.push(e)]. *)
Definition push (errors : list IValidationError) (e : IValidationError)
  : list IValidationError := (errors ++ [e])%list.

(** [errors.length !== 0]. *)
Definition nonempty {A} (l : list A) : bool :=
  match l with [] => false | _ => true end.

(** A [Blob] built from one byte array. *)
Record Blob := {
  bytes : list Byte.byte;
  type : string
}.

Definition size (b : Blob) : Z := Z.of_nat (List.length (bytes b)).

(** What a promise comes to: fulfilled, rejected, or never settled. *)
Inductive settled (A : Type) :=
| Fulfilled (a : A)
| Rejected (e : exn)
| Pending.
Arguments Fulfilled {A} a.
Arguments Rejected {A} e.
Arguments Pending {A}.

(** What [load] did: the URLs it requested, what its promise came to, and the
    [_data] it left. *)
Record loaded := {
  requests : list string;
  outcome : settled value;
  data_after : value
}.

Section WithRuntime.
Context {rt : Runtime}.

(** [parseJSON]: the parsed value, or [false] when [JSON.parse] throws. *)
Definition parseJSON (src : string) : value :=
  match JSON_parse src with
  | Some json => json
  | None => VBoolean false
  end.

(** [parseURL]: the URL, or [false] ([None]) when the constructor throws.  The
    constructor converts its argument to a string first, and that may throw
    as well. *)
Definition parseURL (src : value) : option string :=
  match ToString src with
  | Return s => new_URL s
  | Throw _ => None
  end.

(** [fetchPath]: the response parsed as JSON as it is, or after inflating
    it. *)
Definition fetchPath (path : string) : settled value :=
  match XMLHttpRequest_GET path with
  | None => Pending
  | Some response =>
      match JSON_parse (string_of_list_byte response) with
      | Some json => Fulfilled json
      | None =>
          match pako_inflate response with
          | Return data =>
              match JSON_parse data with
              | Some json => Fulfilled json
              | None => Rejected SyntaxError
              end
          | Throw err => Rejected err
          end
      end
  end.

(** The end of [load], from the check of [typeof src] on. *)
Definition store (reqs : list string) (src : value) (data : value) : loaded :=
  if String.eqb (typeof src) "object"
  then {| requests := reqs; outcome := Fulfilled src; data_after := src |}
  else {| requests := reqs;
          outcome := Rejected (Error "Given resource could not be loaded or is invalid.");
          data_after := data |}.

(** [load]. *)
Definition load (src : value) (data : value) : loaded :=
  match src with
  | VString text =>
      let json := parseJSON text in
      let src := if negb (strict_eq_false json) then json else src in
      match parseURL src with
      | Some url =>
          match fetchPath url with
          | Fulfilled fetched => store [url] fetched data
          | Rejected _ =>
              {| requests := [url];
                 outcome := Rejected (Error "Error loading remote resource.");
                 data_after := data |}
          | Pending => {| requests := [url]; outcome := Pending; data_after := data |}
          end
      | None => store [] src data
      end
  | _ => store [] src data
  end.

(** [generate]: marks the document, strips [markers], [fonts] and [chars]
    from it, and returns the compressed JSON text as a blob.  The class body
    is strict code: setting a property of a primitive throws.  A property set
    on (or deleted from) an array is none of its items and no part of its
    JSON text, and no method reads it, so an array is left as it was.

    The document is written to before it is serialized and compressed, and
    nothing catches what [JSON.stringify] or [pako.gzip] throw: when one of
    them throws, [generate] throws with the document already stripped. *)
Definition generate : method Blob := fun data =>
  match data with
  | VObject props =>
      let props := put "tgs" (VNumber 1%float) props in
      let props := remove "markers" props in
      let props := remove "fonts" props in
      let props := remove "chars" props in
      match (text <- JSON_stringify (VObject props) ;; pako_gzip text) with
      | Return gzByteArray =>
          (Return {| bytes := gzByteArray; type := "application/gzip" |}, VObject props)
      | Throw e => (Throw e, VObject props)
      end
  | VArray _ =>
      match (text <- JSON_stringify data ;; pako_gzip text) with
      | Return gzByteArray =>
          (Return {| bytes := gzByteArray; type := "application/gzip" |}, data)
      | Throw e => (Throw e, data)
      end
  | _ => (Throw TypeError, data)
  end.

(** The body of [checkItems], its recursive call being [self]. *)
Definition checkItems_body
    (self : value -> value -> completion (list IValidationError))
    (items shapes : value) : completion (list IValidationError) :=
  let errors := [] in
  if negb (nullish items) then
    forEach items (fun item _ errors =>
      ty <- Get item "ty" ;;
      c <- loose_eq_string ty "rp" ;;
      let errors :=
        if c then push errors (diagnostic "Composition should not include any Repeaters")
        else errors in
      ty <- Get item "ty" ;;
      c <- loose_eq_string ty "sr" ;;
      let errors :=
        if c then push errors (diagnostic "Composition should not include any Star Shapes")
        else errors in
      ty <- Get item "ty" ;;
      c <- loose_eq_string ty "mm" ;;
      let errors :=
        if c then push errors (diagnostic "Composition should not include any Merge Paths")
        else errors in
      ty <- Get item "ty" ;;
      c <- loose_eq_string ty "gs" ;;
      let errors :=
        if c then push errors (diagnostic "Composition should not include any Gradient Strokes")
        else errors in
      if strict_eq_true shapes then
        it <- Get item "it" ;;
        itemErrors <- self it (VBoolean false) ;;
        Return (if nonempty itemErrors
                then push errors
                       (diagnostic_with "Composition items should not have errors" itemErrors)
                else errors)
      else Return errors) errors
  else Return errors.

(** [checkItems].  The method calls itself only when [shapes === true], and
    then with [false]: two unfoldings of the body reach every call, and the
    function below them is never called ([checkItems_unfold]). *)
Definition checkItems (items shapes : value) : completion (list IValidationError) :=
  checkItems_body (checkItems_body (fun _ _ => Return [])) items shapes.

(** [checkLayer]. *)
Definition checkLayer (layer : value) : completion (list IValidationError) :=
  let errors := [] in
  c <- and_then (ddd <- Get layer "ddd" ;; Return (negb (nullish ddd)))
                (ddd <- Get layer "ddd" ;; loose_neq_number ddd 0%float) ;;
  let errors :=
    if c then push errors (diagnostic "Composition should not include any 3D Layers")
    else errors in
  c <- and_then (sr <- Get layer "sr" ;; Return (negb (nullish sr)))
                (sr <- Get layer "sr" ;; loose_neq_number sr 1%float) ;;
  let errors :=
    if c then push errors (diagnostic "Composition should not include any Time Stretching")
    else errors in
  tm <- Get layer "tm" ;;
  let errors :=
    if negb (nullish tm)
    then push errors (diagnostic "Composition should not include any Time Remapping")
    else errors in
  ty <- Get layer "ty" ;;
  let errors :=
    if strict_eq_number ty 1%float
    then push errors (diagnostic "Composition should not include any Solids")
    else errors in
  ty <- Get layer "ty" ;;
  let errors :=
    if strict_eq_number ty 2%float
    then push errors (diagnostic "Composition should not include any Images")
    else errors in
  ty <- Get layer "ty" ;;
  let errors :=
    if strict_eq_number ty 5%float
    then push errors (diagnostic "Composition should not include any Texts")
    else errors in
  c <- or_else (hasMask <- Get layer "hasMask" ;; Return (strict_eq_true hasMask))
               (masksProperties <- Get layer "masksProperties" ;;
                Return (negb (nullish masksProperties))) ;;
  let errors :=
    if c then push errors (diagnostic "Composition should not include any Masks")
    else errors in
  tt <- Get layer "tt" ;;
  let errors :=
    if negb (nullish tt)
    then push errors (diagnostic "Composition should not include any Mattes")
    else errors in
  ao <- Get layer "ao" ;;
  let errors :=
    if strict_eq_number ao 1%float
    then push errors (diagnostic "Composition should not include any Auto-Oriented Layers")
    else errors in
  ef <- Get layer "ef" ;;
  let errors :=
    if negb (nullish ef)
    then push errors (diagnostic "Composition should not include any Layer Effects")
    else errors in
  c <- has_array "shapes" layer ;;
  if c then
    shapes <- Get layer "shapes" ;;
    shapesErrors <- checkItems shapes (VBoolean true) ;;
    Return (if nonempty shapesErrors
            then push errors
                   (diagnostic_with "Composition shapes should not have errors" shapesErrors)
            else errors)
  else Return errors.

(** The checks of [validate] that only read [_data]: all but the size of the
    generated blob.

    In the loop over the layers, every object pushed to [errors] holds the
    one array [layersErrors] as its [details], not a copy of it: once the loop
    is over, each of these objects shows all that was pushed to
    [layersErrors].  The loop therefore counts the pushes to [errors], and the
    objects are built from the final [layersErrors]. *)
Definition validate_checks (data : value) : completion (list IValidationError) :=
  let errors := [] in
  c <- and_then (fr <- Get data "fr" ;; loose_neq_number fr 30%float)
                (fr <- Get data "fr" ;; loose_neq_number fr 60%float) ;;
  let errors :=
    if c then push errors (diagnostic "Frame rate must be exactly 30 or 60") else errors in
  op <- Get data "op" ;;
  ip <- Get data "ip" ;;
  d <- minus op ip ;;
  fr <- Get data "fr" ;;
  q <- divide d fr ;;
  let errors :=
    if greater q 3.0%float
    then push errors (diagnostic "Should not be longer than 3 seconds") else errors in
  c <- or_else (w <- Get data "w" ;; loose_neq_number w 512%float)
               (h <- Get data "h" ;; loose_neq_number h 512%float) ;;
  let errors :=
    if c then push errors (diagnostic "Dimensions should be exactly 512pxx512px")
    else errors in
  c <- and_then (ddd <- Get data "ddd" ;; Return (negb (nullish ddd)))
                (ddd <- Get data "ddd" ;; loose_neq_number ddd 0%float) ;;
  let errors :=
    if c then push errors (diagnostic "Should not have 3D layers") else errors in
  _ <- HasProperty "markers" data ;;
  c <- has_array "assets" data ;;
  errors <-
    (if c then
       let assetsErrors := [] in
       assets <- Get data "assets" ;;
       assetsErrors <-
         forEach assets (fun asset i assetsErrors =>
           c <- has_array "layers" asset ;;
           if c then
             layers <- Get asset "layers" ;;
             assetErrors <- checkLayer layers ;;
             if nonempty assetErrors then
               id <- Get asset "id" ;;
               name <- ToString (if ToBoolean id then id else VNumber (number_of_nat i)) ;;
               Return (push assetsErrors
                         (diagnostic_with ("Asset " ++ name ++ " has errors") assetErrors))
             else Return assetsErrors
           else Return assetsErrors) assetsErrors ;;
       Return (if nonempty assetsErrors
               then push errors (diagnostic_with "Assets must not have errors" assetsErrors)
               else errors)
     else Return errors) ;;
  c <- has_array "layers" data ;;
  errors <-
    (if c then
       let layersErrors := [] in
       layers <- Get data "layers" ;;
       r <- forEach layers (fun layer _ '(layersErrors, pushes) =>
              layerErrors <- checkLayer layer ;;
              let layersErrors :=
                if nonempty layerErrors
                then push layersErrors (diagnostic_with "Layer " layerErrors)
                else layersErrors in
              Return (layersErrors,
                      if nonempty layersErrors then S pushes else pushes))
            (layersErrors, 0) ;;
       let '(layersErrors, pushes) := r in
       Return (errors ++ repeat (diagnostic_with "Layers have errors" layersErrors) pushes)%list
     else Return (push errors (diagnostic "Should have atleast 1 layer"))) ;;
  c <- has_items "fonts" data ;;
  let errors :=
    if c then push errors (diagnostic "Should not have fonts") else errors in
  c <- has_items "chars" data ;;
  let errors :=
    if c then push errors (diagnostic "Should not have glyph chars") else errors in
  Return errors.

(** [validate]. *)
Definition validate : method (list IValidationError) :=
  errors <~ pure validate_checks ;;
  blob <~ generate ;;
  mret (if (65536 <? size blob)%Z
        then push errors (diagnostic "Total sticker size should not exceed 64 KB")
        else errors).

End WithRuntime.

End TGSKit.

(** ** The class with flat diagnostics ([src/TGSKit.ts]) *)

Module TGSKitFlat.

(** [errors.push(e)] on a [string[]]. *)
Definition push (errors : list string) (e : string) : list string :=
  (errors ++ [e])%list.

(** [errors.concat(more)]: a new array; [errors] itself stays as it is. *)
Definition concat (errors more : list string) : list string :=
  (errors ++ more)%list.

(** The messages of the document-level checks. *)
Definition flat_document_messages : list string :=
  [ "Longer than 3 seconds";
    "Dimensions should be exactly 512pxx512px";
    "Must not have 3D layers";
    "Must not have markers";
    "Must have atleast 1 layer" ].

Section WithRuntime.
Context {rt : Runtime}.

(** The body of [checkItems], its recursive call being [self].  The result of
    the call is concatenated to [errors] in an expression statement: the new
    array is dropped. *)
Definition checkItems_body
    (self : value -> value -> completion (list string))
    (items shapes : value) : completion (list string) :=
  let errors := [] in
  if negb (nullish items) then
    forEach items (fun item _ errors =>
      ty <- Get item "ty" ;;
      c <- loose_eq_string ty "rp" ;;
      let errors :=
        if c then push errors "Composition should not include any Repeaters" else errors in
      ty <- Get item "ty" ;;
      c <- loose_eq_string ty "sr" ;;
      let errors :=
        if c then push errors "Composition should not include any Star Shapes" else errors in
      ty <- Get item "ty" ;;
      c <- loose_eq_string ty "mm" ;;
      let errors :=
        if c then push errors "Composition should not include any Merge Paths" else errors in
      ty <- Get item "ty" ;;
      c <- loose_eq_string ty "gs" ;;
      let errors :=
        if c then push errors "Composition should not include any Gradient Strokes"
        else errors in
      if strict_eq_true shapes then
        it <- Get item "it" ;;
        itemErrors <- self it (VBoolean false) ;;
        let _ := concat errors itemErrors in
        Return errors
      else Return errors) errors
  else Return errors.

(** [checkItems], tied as in [TGSKit.checkItems]. *)
Definition checkItems (items shapes : value) : completion (list string) :=
  checkItems_body (checkItems_body (fun _ _ => Return [])) items shapes.

(** [checkLayer]. *)
Definition checkLayer (layer : value) : completion (list string) :=
  let errors := [] in
  c <- and_then (ddd <- Get layer "ddd" ;; Return (negb (nullish ddd)))
                (ddd <- Get layer "ddd" ;; loose_neq_number ddd 0%float) ;;
  let errors :=
    if c then push errors "Composition should not include any 3D Layers" else errors in
  c <- and_then (sr <- Get layer "sr" ;; Return (negb (nullish sr)))
                (sr <- Get layer "sr" ;; loose_neq_number sr 1%float) ;;
  let errors :=
    if c then push errors "Composition should not include any Time Stretching"
    else errors in
  tm <- Get layer "tm" ;;
  let errors :=
    if negb (nullish tm)
    then push errors "Composition should not include any Time Remapping" else errors in
  ty <- Get layer "ty" ;;
  let errors :=
    if strict_eq_number ty 1%float
    then push errors "Composition should not include any Solids" else errors in
  ty <- Get layer "ty" ;;
  let errors :=
    if strict_eq_number ty 2%float
    then push errors "Composition should not include any Images" else errors in
  ty <- Get layer "ty" ;;
  let errors :=
    if strict_eq_number ty 5%float
    then push errors "Composition should not include any Texts" else errors in
  c <- or_else (hasMask <- Get layer "hasMask" ;; Return (strict_eq_true hasMask))
               (masksProperties <- Get layer "masksProperties" ;;
                Return (negb (nullish masksProperties))) ;;
  let errors :=
    if c then push errors "Composition should not include any Masks" else errors in
  tt <- Get layer "tt" ;;
  let errors :=
    if negb (nullish tt)
    then push errors "Composition should not include any Mattes" else errors in
  ao <- Get layer "ao" ;;
  let errors :=
    if strict_eq_number ao 1%float
    then push errors "Composition should not include any Auto-Oriented Layers"
    else errors in
  ef <- Get layer "ef" ;;
  let errors :=
    if negb (nullish ef)
    then push errors "Composition should not include any Layer Effects" else errors in
  shapes <- Get layer "shapes" ;;
  shapesErrors <- checkItems shapes (VBoolean true) ;;
  let _ := concat errors shapesErrors in
  Return errors.

(** [validate].  It reads [_data] and leaves it as it is. *)
Definition validate (data : value) : completion (list string) :=
  let errors := [] in
  op <- Get data "op" ;;
  ip <- Get data "ip" ;;
  d <- minus op ip ;;
  fr <- Get data "fr" ;;
  q <- divide d fr ;;
  let errors :=
    if greater q 3.0%float then push errors "Longer than 3 seconds" else errors in
  c <- or_else (w <- Get data "w" ;; loose_neq_number w 512%float)
                      (h <- Get data "h" ;; loose_neq_number h 512%float) ;;
  let errors :=
    if c then push errors "Dimensions should be exactly 512pxx512px" else errors in
  c <- and_then (ddd <- Get data "ddd" ;; Return (negb (nullish ddd)))
                       (ddd <- Get data "ddd" ;; loose_neq_number ddd 0%float) ;;
  let errors :=
    if c then push errors "Must not have 3D layers" else errors in
  c <- HasProperty "markers" data ;;
  let errors :=
    if c then push errors "Must not have markers" else errors in
  c <- has_array "assets" data ;;
  errors <-
    (if c then
       assets <- Get data "assets" ;;
       forEach assets (fun asset _ errors =>
         layers <- Get asset "layers" ;;
         assetErrors <- checkLayer layers ;;
         let _ := concat errors assetErrors in
         Return errors) errors
     else Return errors) ;;
  c <- has_array "layers" data ;;
  errors <-
    (if c then
       layers <- Get data "layers" ;;
       forEach layers (fun layer _ errors =>
         layerErrors <- checkLayer layer ;;
         let _ := concat errors layerErrors in
         Return errors) errors
     else Return (push errors "Must have atleast 1 layer")) ;;
  Return errors.

End WithRuntime.

End TGSKitFlat.

(** ** A host to run the class on concrete documents *)

Module Fixture.

(** The double quote, to write JSON texts. *)
Definition quote : string := String (ascii_of_nat 34) EmptyString.

(** The JSON text of the string [s] (for an [s] that needs no escape). *)
Definition json_string (s : string) : string := quote ++ s ++ quote.

Definition sticker_url : string := "https://example.com/sticker.json".

(** [JSON.parse] on the texts used below; any other text counts as no JSON. *)
Definition parse (text : string) : option value :=
  if String.eqb text "false" then Some (VBoolean false)
  else if String.eqb text "null" then Some VNull
  else if String.eqb text "{}" then Some (VObject [])
  else if String.eqb text (json_string sticker_url) then Some (VString sticker_url)
  else None.

(** The URL constructor on the strings used below: it takes what starts with
    [https://]. *)
Definition url (s : string) : option string :=
  if String.prefix "https://" s then Some s else None.

(** The one resource on the network: an empty document at [sticker_url]. *)
Definition get (path : string) : option (list Byte.byte) :=
  if String.eqb path sticker_url then Some (list_byte_of_string "{}") else None.

(** A host whose serializer writes nothing and whose compressor keeps its
    input: every blob is empty.  No string converts to a number. *)
Definition host : Runtime := {|
  StringToNumber := fun _ => nan;
  NumberToString := fun _ => "NaN";
  JSON_parse := parse;
  JSON_stringify := fun _ => Return "";
  new_URL := url;
  pako_gzip := fun s => Return (list_byte_of_string s);
  pako_inflate := fun _ => Throw (Error "incorrect header check");
  XMLHttpRequest_GET := get
|}.

(** The same host with a serializer that writes [n] bytes for every value:
    every blob is [n] bytes long. *)
Definition host_of_size (n : nat) : Runtime := {|
  StringToNumber := fun _ => nan;
  NumberToString := fun _ => "NaN";
  JSON_parse := parse;
  JSON_stringify := fun _ => Return (string_of_list_byte (repeat Byte.x00 n));
  new_URL := url;
  pako_gzip := fun s => Return (list_byte_of_string s);
  pako_inflate := fun _ => Throw (Error "incorrect header check");
  XMLHttpRequest_GET := get
|}.



(** [{fr: 30, ip: ip, op: op, w: 512, h: 512, layers: layers}] *)
Definition document (ip op : number) (layers : list value) : value :=
  VObject [("fr", VNumber 30); ("ip", VNumber ip); ("op", VNumber op);
           ("w", VNumber 512); ("h", VNumber 512); ("layers", VArray layers)].

(** A document that meets every rule: 3 seconds of one empty shape layer. *)
Definition sticker : value :=
  VObject [("fr", VNumber 30); ("ip", VNumber 0); ("op", VNumber 90);
           ("w", VNumber 512); ("h", VNumber 512); ("ddd", VNumber 0);
           ("layers", VArray [VObject [("ty", VNumber 4); ("shapes", VArray [])]])].

(** A document that meets every rule but has two markers. *)
Definition sticker_with_markers : value :=
  VObject [("fr", VNumber 30); ("ip", VNumber 0); ("op", VNumber 90);
           ("w", VNumber 512); ("h", VNumber 512);
           ("markers", VArray [VObject [("cm", VString "start"); ("tm", VNumber 0)];
                               VObject [("cm", VString "end"); ("tm", VNumber 90)]]);
           ("layers", VArray [VObject [("ty", VNumber 4); ("shapes", VArray [])]])].

(** A document that meets every rule but has a glyph char. *)
Definition sticker_with_chars : value :=
  VObject [("fr", VNumber 30); ("ip", VNumber 0); ("op", VNumber 90);
           ("w", VNumber 512); ("h", VNumber 512);
           ("chars", VArray [VObject [("ch", VString "a"); ("size", VNumber 12)]]);
           ("layers", VArray [VObject [("ty", VNumber 4); ("shapes", VArray [])]])].


(** A document with a solid layer inside a precomposition, and one empty shape
    layer. *)
Definition document_with_solid_asset : value :=
  VObject [("fr", VNumber 30); ("ip", VNumber 0); ("op", VNumber 90);
           ("w", VNumber 512); ("h", VNumber 512);
           ("assets",
            VArray [VObject [("id", VString "comp_0");
                             ("layers", VArray [VObject [("ty", VNumber 1)]])]]);
           ("layers", VArray [VObject [("ty", VNumber 4); ("shapes", VArray [])]])].

(** A document with one precomposition that holds [layers], and one empty
    shape layer. *)
Definition document_with_asset_layers (layers : list value) : value :=
  VObject [("fr", VNumber 30); ("ip", VNumber 0); ("op", VNumber 90);
           ("w", VNumber 512); ("h", VNumber 512);
           ("assets",
            VArray [VObject [("id", VString "comp_0"); ("layers", VArray layers)]]);
           ("layers", VArray [VObject [("ty", VNumber 4); ("shapes", VArray [])]])].

(** A solid layer: [{ty: 1}] *)
Definition solid_layer : value := VObject [("ty", VNumber 1)].

(** A shape layer: [{ty: 4, shapes: shapes}] *)
Definition shape_layer (shapes : list value) : value :=
  VObject [("ty", VNumber 4); ("shapes", VArray shapes)].

(** A group of shape items: [{ty: 'gr', it: items}] *)
Definition group (items : list value) : value :=
  VObject [("ty", VString "gr"); ("it", VArray items)].

(** A shape item of the type [ty]: [{ty: ty}] *)
Definition shape (ty : string) : value := VObject [("ty", VString ty)].


End Fixture.

(** ** What the properties are stated with *)

Module Diagnostics.
Import TGSKit.

(** The messages of the document-level checks. *)
Definition frame_rate_message : string := "Frame rate must be exactly 30 or 60".
Definition duration_message : string := "Should not be longer than 3 seconds".
Definition dimensions_message : string := "Dimensions should be exactly 512pxx512px".
Definition size_message : string := "Total sticker size should not exceed 64 KB".
Definition layers_message : string := "Should have atleast 1 layer".

(** The message of a prohibited shape type. *)
Definition shape_message (ty : string) : option string :=
  if String.eqb ty "rp" then Some "Composition should not include any Repeaters"
  else if String.eqb ty "sr" then Some "Composition should not include any Star Shapes"
  else if String.eqb ty "mm" then Some "Composition should not include any Merge Paths"
  else if String.eqb ty "gs" then Some "Composition should not include any Gradient Strokes"
  else None.

(** A sequence of diagnostics includes one with the message [m]. *)
Definition includes (m : string) (errors : list IValidationError) : bool :=
  existsb (fun e => String.eqb (message e) m) errors.

(** A diagnostic, or one nested in its details at any depth, has a message
    that satisfies [p]. *)
Fixpoint any_message (p : string -> bool) (e : IValidationError) : bool :=
  match e with
  | {| message := m; details := d |} =>
      p m ||
      match d with
      | Some l =>
          (fix any (l : list IValidationError) : bool :=
             match l with
             | [] => false
             | x :: rest => any_message p x || any rest
             end) l
      | None => false
      end
  end.

(** A sequence of diagnostics reports, at any depth, a message that
    satisfies [p]. *)
Definition reports (p : string -> bool) (errors : list IValidationError) : bool :=
  existsb (any_message p) errors.

(** [sub] occurs in [s]. *)
Fixpoint contains (sub s : string) : bool :=
  String.prefix sub s ||
  match s with
  | EmptyString => false
  | String _ rest => contains sub rest
  end.

(** A message about markers, however it is worded. *)
Definition about_markers (m : string) : bool :=
  contains "marker" m || contains "Marker" m.

(** The messages of the class, but for 'Asset ... has errors', which is made
    from the asset's identifier. *)
Definition vocabulary : list string :=
  [ "Frame rate must be exactly 30 or 60";
    "Should not be longer than 3 seconds";
    "Dimensions should be exactly 512pxx512px";
    "Should not have 3D layers";
    "Assets must not have errors";
    "Layers have errors";
    "Layer ";
    "Should have atleast 1 layer";
    "Should not have fonts";
    "Should not have glyph chars";
    "Total sticker size should not exceed 64 KB";
    "Composition should not include any 3D Layers";
    "Composition should not include any Time Stretching";
    "Composition should not include any Time Remapping";
    "Composition should not include any Solids";
    "Composition should not include any Images";
    "Composition should not include any Texts";
    "Composition should not include any Masks";
    "Composition should not include any Mattes";
    "Composition should not include any Auto-Oriented Layers";
    "Composition should not include any Layer Effects";
    "Composition shapes should not have errors";
    "Composition should not include any Repeaters";
    "Composition should not include any Star Shapes";
    "Composition should not include any Merge Paths";
    "Composition should not include any Gradient Strokes";
    "Composition items should not have errors" ].

End Diagnostics.

(** The documents [validate] is written for. *)
Module WellFormed.

(** An object or an array: what [in] and property assignment accept. *)
Definition is_object (v : value) : bool :=
  match v with VArray _ | VObject _ => true | _ => false end.

(** [v.key] for a [v] that is neither [null] nor [undefined]. *)
Definition prop (key : string) (v : value) : value :=
  match v with
  | VObject props =>
      match assoc key props with Some x => x | None => VUndefined end
  | _ => VUndefined
  end.

(** The items of a list; none for any other value. *)
Definition items_of (v : value) : list value :=
  match v with VArray l => l | _ => [] end.

(** A value that converts to a primitive: any but an object with a property
    of its own named [toString], or an array that holds one. *)
Fixpoint coercible (v : value) : bool :=
  match v with
  | VArray items =>
      (fix all (l : list value) : bool :=
         match l with
         | [] => true
         | x :: rest => coercible x && all rest
         end) items
  | VObject props => negb (has_own "toString" props)
  | _ => true
  end.

(** A shape item inside a group: a value with a type that converts. *)
Definition wf_child (c : value) : bool :=
  negb (nullish c) && coercible (prop "ty" c).

(** A shape item of a layer: its [it], when it has one, is a list of such
    items. *)
Definition wf_item (i : value) : bool :=
  negb (nullish i) && coercible (prop "ty" i) &&
  (nullish (prop "it" i) ||
   (isArray (prop "it" i) && forallb wf_child (items_of (prop "it" i)))).

(** A layer: an object whose [ddd] and [sr] convert and whose [shapes], when
    a list, holds shape items.  A [shapes] that is no list is not looked
    into. *)
Definition wf_layer (l : value) : bool :=
  is_object l && coercible (prop "ddd" l) && coercible (prop "sr" l) &&
  forallb wf_item (items_of (prop "shapes" l)).

(** A document: an object whose [fr], [op], [ip], [w], [h] and [ddd]
    convert, whose [assets], when a list, holds objects, and whose [layers],
    when a list, holds layers.  Any of these fields may be missing. *)
Definition wf_document (d : value) : bool :=
  is_object d &&
  coercible (prop "fr" d) && coercible (prop "op" d) && coercible (prop "ip" d) &&
  coercible (prop "w" d) && coercible (prop "h" d) && coercible (prop "ddd" d) &&
  forallb is_object (items_of (prop "assets" d)) &&
  forallb wf_layer (items_of (prop "layers" d)).

(** [f] applied to the property [key] of an object. *)
Definition update (key : string) (f : value -> value) (v : value) : value :=
  match v with
  | VObject props =>
      VObject (map (fun kv => if String.eqb (fst kv) key then (fst kv, f (snd kv)) else kv)
                   props)
  | _ => v
  end.

(** [f] applied to every item of a list. *)
Definition each (f : value -> value) (v : value) : value :=
  match v with
  | VArray l => VArray (map f l)
  | _ => v
  end.

(** A document whose shape items two levels below a layer's [shapes]
    ([layers[i].shapes[j].it[k]]) get [f] applied to their own [it]. *)
Definition regraft (f : value -> value) : value -> value :=
  update "layers" (each (update "shapes" (each (update "it" (each (update "it" f)))))).

(** A document whose assets get [f] applied to each of their layers
    ([assets[i].layers[j]]). *)
Definition relayer (f : value -> value) : value -> value :=
  update "assets" (each (update "layers" (each f))).

End WellFormed.

(** ** The parts of [validate], one by one *)

Module Checks.
Import TGSKit.

(** [[{ message: m }]] when [c] holds, nothing otherwise: what a check whose
    condition is [c] adds to [errors]. *)
Definition when (c : bool) (m : string) : list IValidationError :=
  if c then [diagnostic m] else [].

Section WithRuntime.
Context {rt : Runtime}.

(** [fr != 30 && fr != 60] *)
Definition frame_rate_off (data : value) : completion bool :=
  and_then (fr <- Get data "fr" ;; loose_neq_number fr 30%float)
           (fr <- Get data "fr" ;; loose_neq_number fr 60%float).

(** [(op - ip) / fr] *)
Definition duration (data : value) : completion number :=
  op <- Get data "op" ;;
  ip <- Get data "ip" ;;
  d <- minus op ip ;;
  fr <- Get data "fr" ;;
  divide d fr.

(** [w != 512 || h != 512] *)
Definition dimensions_off (data : value) : completion bool :=
  or_else (w <- Get data "w" ;; loose_neq_number w 512%float)
          (h <- Get data "h" ;; loose_neq_number h 512%float).

(** [ddd != null && ddd != 0] *)
Definition three_d (data : value) : completion bool :=
  and_then (ddd <- Get data "ddd" ;; Return (negb (nullish ddd)))
           (ddd <- Get data "ddd" ;; loose_neq_number ddd 0%float).

(** The loop over the assets: the final [assetsErrors]. *)
Definition assets_loop (assets : value) : completion (list IValidationError) :=
  forEach assets (fun asset i assetsErrors =>
    c <- has_array "layers" asset ;;
    if c then
      layers <- Get asset "layers" ;;
      assetErrors <- checkLayer layers ;;
      if nonempty assetErrors then
        id <- Get asset "id" ;;
        name <- ToString (if ToBoolean id then id else VNumber (number_of_nat i)) ;;
        Return (push assetsErrors
                  (diagnostic_with ("Asset " ++ name ++ " has errors") assetErrors))
      else Return assetsErrors
    else Return assetsErrors) [].

(** What the block on the assets adds to [errors]. *)
Definition assets_errors (data : value) : completion (list IValidationError) :=
  c <- has_array "assets" data ;;
  if c then
    assets <- Get data "assets" ;;
    assetsErrors <- assets_loop assets ;;
    Return (if nonempty assetsErrors
            then [diagnostic_with "Assets must not have errors" assetsErrors]
            else [])
  else Return [].

(** The loop over the layers: the final [layersErrors] and the number of
    pushes to [errors]. *)
Definition layers_loop (layers : value) : completion (list IValidationError * nat) :=
  forEach layers (fun layer _ '(layersErrors, pushes) =>
    layerErrors <- checkLayer layer ;;
    let layersErrors :=
      if nonempty layerErrors
      then push layersErrors (diagnostic_with "Layer " layerErrors)
      else layersErrors in
    Return (layersErrors, if nonempty layersErrors then S pushes else pushes))
  ([], 0).

(** What the block on the layers adds to [errors]. *)
Definition layers_errors (data : value) : completion (list IValidationError) :=
  c <- has_array "layers" data ;;
  if c then
    layers <- Get data "layers" ;;
    r <- layers_loop layers ;;
    Return (repeat (diagnostic_with "Layers have errors" (fst r)) (snd r))
  else Return [diagnostic "Should have atleast 1 layer"].

(** [validate_checks], part by part ([validate_checks_parts]). *)
Definition checks_by_parts (data : value) : completion (list IValidationError) :=
  c_fr <- frame_rate_off data ;;
  q <- duration data ;;
  c_dim <- dimensions_off data ;;
  c_ddd <- three_d data ;;
  _ <- HasProperty "markers" data ;;
  from_assets <- assets_errors data ;;
  from_layers <- layers_errors data ;;
  c_fonts <- has_items "fonts" data ;;
  c_chars <- has_items "chars" data ;;
  Return (when c_fr "Frame rate must be exactly 30 or 60" ++
          when (greater q 3.0%float) "Should not be longer than 3 seconds" ++
          when c_dim "Dimensions should be exactly 512pxx512px" ++
          when c_ddd "Should not have 3D layers" ++
          from_assets ++ from_layers ++
          when c_fonts "Should not have fonts" ++
          when c_chars "Should not have glyph chars")%list.

End WithRuntime.

(** [_data] as [generate] leaves it ([generate_canonical]). *)
Definition canonical (data : value) : value :=
  match data with
  | VObject props =>
      VObject (remove "chars" (remove "fonts" (remove "markers"
                 (put "tgs" (VNumber 1) props))))
  | _ => data
  end.

Section Encoding.
Context {rt : Runtime}.

(** [pako.gzip(JSON.stringify(v))]: the bytes that [generate] makes of the
    document it has stripped. *)
Definition encoded (v : value) : completion (list Byte.byte) :=
  text <- JSON_stringify v ;; pako_gzip text.

(** A document that [generate] can encode: [JSON.stringify] and [pako.gzip]
    return on what it leaves of the document. *)
Definition encodable (data : value) : Prop :=
  exists gzByteArray, encoded (canonical data) = Return gzByteArray.

End Encoding.

End Checks.

(** ** The encoder of [src/TGSKit.ts] *)

Module TGSKitFlatEncoder.

Section WithRuntime.
Context {rt : Runtime}.

(** [generate]: marks the document and returns the compressed JSON text.
    Nothing is stripped.  As in [TGSKit.generate], the class body is strict
    code, a property set on an array is no part of its JSON text, and what
    [JSON.stringify] or [pako.gzip] throw leaves the document marked. *)
Definition generate : method (list Byte.byte) := fun data =>
  match data with
  | VObject props =>
      let props := put "tgs" (VNumber 1) props in
      (text <- JSON_stringify (VObject props) ;; pako_gzip text, VObject props)
  | VArray _ => (text <- JSON_stringify data ;; pako_gzip text, data)
  | _ => (Throw TypeError, data)
  end.

End WithRuntime.

End TGSKitFlatEncoder.

(** ** What the further properties are stated with *)

Module Findings.
Import TGSKit.

(** An evaluation that throws nothing but a [TypeError]. *)
Definition only_TypeError {A} (c : completion A) : Prop :=
  forall e, c = Throw e -> e = TypeError.

(** What a group's item of the type [ty] is flagged with. *)
Definition flag (child : value) : list IValidationError :=
  match WellFormed.prop "ty" child with
  | VString ty =>
      match Diagnostics.shape_message ty with
      | Some m => [diagnostic m]
      | None => []
      end
  | _ => []
  end.

(** What an item of a layer's [shapes] is flagged with: its own flag, then
    the flags of the items of its [it], nested, when there are any. *)
Definition flag_item (item : value) : list IValidationError :=
  (flag item ++
   match flat_map flag (WellFormed.items_of (WellFormed.prop "it" item)) with
   | [] => []
   | found => [diagnostic_with "Composition items should not have errors" found]
   end)%list.

(** A shape item as the Bodymovin format has it: a value whose [ty] is a
    string. *)
Definition typed (item : value) : bool :=
  negb (nullish item) &&
  match WellFormed.prop "ty" item with VString _ => true | _ => false end.

(** An item of a layer's [shapes] as the format has it: its [it], when it has
    one, is a list of typed items. *)
Definition typed_item (item : value) : bool :=
  typed item &&
  (nullish (WellFormed.prop "it" item) ||
   (isArray (WellFormed.prop "it" item) &&
    forallb typed (WellFormed.items_of (WellFormed.prop "it" item)))).

(** [[m]] when [c] holds, nothing otherwise: what a check of [src/TGSKit.ts]
    whose condition is [c] adds to its [errors]. *)
Definition said (c : bool) (m : string) : list string := if c then [m] else [].

(** The findings on the layers, as the loop of [validate] nests them: one
    'Layer ' entry for each layer that has findings. *)
Definition collected (findings : list (list IValidationError)) : list IValidationError :=
  map (diagnostic_with "Layer ") (filter nonempty findings).

(** The layers from the first one with findings on. *)
Fixpoint from_first_finding (findings : list (list IValidationError))
  : list (list IValidationError) :=
  match findings with
  | [] => []
  | r :: rest => if nonempty r then findings else from_first_finding rest
  end.

Section WithRuntime.
Context {rt : Runtime}.

(** What [checkLayer] finds on each layer, in order. *)
Fixpoint check_all (layers : list value) : completion (list (list IValidationError)) :=
  match layers with
  | [] => Return []
  | layer :: rest =>
      r <- checkLayer layer ;;
      rs <- check_all rest ;;
      Return (r :: rs)
  end.

End WithRuntime.

End Findings.

(** A host that serves what [generate] makes of the sticker of the fixture. *)
Module Served.

(** The compressed sticker: the bytes a gzip member starts with stand for
    it. *)
Definition packed : list Byte.byte := [Byte.x1f; Byte.x8b; Byte.x08].

Definition text : string := "sticker".

Definition parse (s : string) : option value :=
  if String.eqb s text then Some (Checks.canonical Fixture.sticker) else None.

Definition get (path : string) : option (list Byte.byte) :=
  if String.eqb path Fixture.sticker_url then Some packed else None.

Definition host : Runtime := {|
  StringToNumber := fun _ => nan;
  NumberToString := fun _ => "NaN";
  JSON_parse := parse;
  JSON_stringify := fun _ => Return text;
  new_URL := Fixture.url;
  pako_gzip := fun _ => Return packed;
  pako_inflate := fun _ => Return text;
  XMLHttpRequest_GET := get
|}.

End Served.

(** * Properties *)

(** ** Completions and loops *)

Lemma bind_Return {A B} (c : completion A) (k : A -> completion B) (b : B) :
  bind c k = Return b -> exists a, c = Return a /\ k a = Return b.
Proof.
  destruct c as [a|e]; simpl; intros H; [eauto | discriminate].
Qed.

Lemma and_then_Return (a b : completion bool) (r : bool) :
  and_then a b = Return r ->
  exists x, a = Return x /\ (if x then b = Return r else r = false).
Proof.
  unfold and_then. intros H. apply bind_Return in H as (x & Ha & Hk).
  exists x. split; [assumption|]. destruct x; congruence.
Qed.

Lemma or_else_Return (a b : completion bool) (r : bool) :
  or_else a b = Return r ->
  exists x, a = Return x /\ (if x then r = true else b = Return r).
Proof.
  unfold or_else. intros H. apply bind_Return in H as (x & Ha & Hk).
  exists x. split; [assumption|]. destruct x; congruence.
Qed.

(** Breaks a hypothesis [bind c k = Return r] into [c = Return a] and
    [k a = Return r], as far as it goes. *)
Ltac unbind H :=
  let a := fresh "a" in
  let Ha := fresh "Ha" in
  apply bind_Return in H as (a & Ha & H); cbv beta in H.

(** Names the messages of the diagnostics in the goal and in the hypotheses,
    so that the steps of a proof do not carry the literals along. *)
Ltac hide_messages :=
  repeat match goal with
         | |- context [TGSKit.diagnostic (String ?a ?s)] =>
             let m := fresh "message" in set (m := String a s) in *
         | |- context [TGSKit.diagnostic_with (String ?a ?s)] =>
             let m := fresh "message" in set (m := String a s) in *
         | H : context [TGSKit.diagnostic (String ?a ?s)] |- _ =>
             let m := fresh "message" in set (m := String a s) in *
         | H : context [TGSKit.diagnostic_with (String ?a ?s)] |- _ =>
             let m := fresh "message" in set (m := String a s) in *
         end.

Lemma forEach_from_app {S} (callback : value -> nat -> S -> completion S)
    (l1 l2 : list value) (i : nat) (s : S) :
  forEach_from i (l1 ++ l2) callback s =
  (s' <- forEach_from i l1 callback s ;; forEach_from (List.length l1 + i) l2 callback s').
Proof.
  revert i s. induction l1 as [|x l1 IH]; intros i s; simpl; [reflexivity|].
  destruct (callback x i s) as [s'|e]; simpl; [|reflexivity].
  rewrite IH. replace (List.length l1 + Datatypes.S i) with (Datatypes.S (List.length l1 + i)) by lia.
  reflexivity.
Qed.

(** A loop whose callback returns on every item returns. *)
Lemma forEach_from_total {S} (callback : value -> nat -> S -> completion S)
    (l : list value) :
  (forall x, In x l -> forall i s, exists s', callback x i s = Return s') ->
  forall i s, exists s', forEach_from i l callback s = Return s'.
Proof.
  induction l as [|x l IH]; intros Hcb i s; simpl; [eauto|].
  destruct (Hcb x (or_introl eq_refl) i s) as (s1 & ->). simpl.
  apply IH. intros y Hy. apply Hcb. right; assumption.
Qed.

(** Two loops over lists of the same length whose callbacks agree item by
    item agree. *)
Lemma forEach_from_ext {S} (f g : value -> nat -> S -> completion S)
    (h : value -> value) (l : list value) :
  (forall x, In x l -> forall i s, f (h x) i s = g x i s) ->
  forall i s, forEach_from i (map h l) f s = forEach_from i l g s.
Proof.
  induction l as [|x l IH]; intros Hfg i s; simpl; [reflexivity|].
  rewrite (Hfg x (or_introl eq_refl)).
  destruct (g x i s) as [s'|e]; simpl; [|reflexivity].
  apply IH. intros y Hy. apply Hfg. right; assumption.
Qed.

(** A loop that keeps an invariant of its state keeps it to the end. *)
Lemma forEach_from_invariant {S} (P : S -> Prop)
    (callback : value -> nat -> S -> completion S) (l : list value) :
  (forall x i s s', In x l -> P s -> callback x i s = Return s' -> P s') ->
  forall i s s', P s -> forEach_from i l callback s = Return s' -> P s'.
Proof.
  induction l as [|x l IH]; intros Hcb i s s' Hs H; simpl in H.
  - injection H as <-. assumption.
  - unbind H. eapply IH; [| |exact H].
    + intros y j t t' Hy. apply Hcb. right; assumption.
    + eapply Hcb; [left; reflexivity|exact Hs|exact Ha].
Qed.

(** ** Loading *)

Section Loading.
Context {rt : Runtime}.
Import TGSKit.

Lemma parseURL_string (s : string) : parseURL (VString s) = new_URL s.
Proof. reflexivity. Qed.

(** When the text parses to a value other than [false], [load] goes on with
    that value: the URL constructor gets it, not the text. *)
Lemma load_parsed (text : string) (json data : value) :
  JSON_parse text = Some json ->
  strict_eq_false json = false ->
  load (VString text) data =
  match parseURL json with
  | Some url =>
      match fetchPath url with
      | Fulfilled fetched => store [url] fetched data
      | Rejected _ =>
          {| requests := [url];
             outcome := Rejected (Error "Error loading remote resource.");
             data_after := data |}
      | Pending => {| requests := [url]; outcome := Pending; data_after := data |}
      end
  | None => store [] json data
  end.
Proof.
  intros Hparse Hjson. unfold load, parseJSON. rewrite Hparse, Hjson. reflexivity.
Qed.

(** C10.  A text that [JSON.parse] reads as the boolean [false] is handled as
    a text that is no JSON: [parseJSON] returns for it what it returns for a
    text that does not parse, so [load] keeps the text, tries it as a URL
    and, when it is none, rejects with 'Given resource could not be loaded or
    is invalid.', requesting nothing and leaving [_data] as it was. *)
Theorem load_false_is_rejected (text : string) (data : value) :
  JSON_parse text = Some (VBoolean false) ->
  new_URL text = None ->
  (forall other, JSON_parse other = None -> parseJSON other = parseJSON text) /\
  load (VString text) data =
  {| requests := [];
     outcome := Rejected (Error "Given resource could not be loaded or is invalid.");
     data_after := data |}.
Proof.
  intros Hparse Hurl. unfold load, parseJSON. rewrite Hparse. simpl. split.
  - intros other ->. reflexivity.
  - unfold parseURL. simpl. rewrite Hurl. reflexivity.
Qed.

(** C9, as the code has it.  When the text parses to a value other than
    [false], the URL constructor is still tried, on the parsed value.  If the
    value is no URL, nothing is requested and the value is the source: it
    becomes [_data] when it is an object, an array or [null], and [load]
    rejects otherwise.  If the value is a URL, that URL is requested, once. *)
Theorem load_json_then_url (text : string) (json data : value) :
  JSON_parse text = Some json ->
  strict_eq_false json = false ->
  (parseURL json = None ->
   load (VString text) data = store [] json data /\
   (typeof json = "object" ->
    load (VString text) data =
    {| requests := []; outcome := Fulfilled json; data_after := json |})) /\
  (forall url, parseURL json = Some url ->
   requests (load (VString text) data) = [url]).
Proof.
  intros Hparse Hjson. rewrite (load_parsed _ _ _ Hparse Hjson). split.
  - intros ->. split; [reflexivity|].
    intros Hty. unfold store. rewrite Hty. reflexivity.
  - intros url ->. destruct (fetchPath url) as [fetched| |]; try reflexivity.
    unfold store. destruct (String.eqb (typeof fetched) "object"); reflexivity.
Qed.

End Loading.

(** The witness of [load_false_is_rejected]: the text [false]. *)
Lemma load_false_is_rejected_witness :
  JSON_parse (Runtime := Fixture.host) "false" = Some (VBoolean false) /\
  new_URL (Runtime := Fixture.host) "false" = None /\
  TGSKit.load (rt := Fixture.host) (VString "false") empty_object =
  {| TGSKit.requests := [];
     TGSKit.outcome :=
       TGSKit.Rejected (Error "Given resource could not be loaded or is invalid.");
     TGSKit.data_after := empty_object |}.
Proof.
  split; [reflexivity|]. split; [reflexivity|].
  apply (load_false_is_rejected (rt := Fixture.host) "false" empty_object);
    reflexivity.
Defined.

(** The counterexample to C9 as stated: the text is the JSON of a string, the
    string is a URL, and [load] requests it: what it stores is the document
    at that URL, not the parsed value. *)
Lemma load_fetches_parsed_url :
  JSON_parse (Runtime := Fixture.host) (Fixture.json_string Fixture.sticker_url) =
    Some (VString Fixture.sticker_url) /\
  TGSKit.load (rt := Fixture.host)
    (VString (Fixture.json_string Fixture.sticker_url)) empty_object =
  {| TGSKit.requests := [Fixture.sticker_url];
     TGSKit.outcome := TGSKit.Fulfilled (VObject []);
     TGSKit.data_after := VObject [] |}.
Proof. split; reflexivity. Qed.

(** The witness of [load_json_then_url]: the text of the empty object, which
    is no URL and becomes [_data]. *)
Lemma load_json_then_url_witness :
  JSON_parse (Runtime := Fixture.host) "{}" = Some (VObject []) /\
  TGSKit.parseURL (rt := Fixture.host) (VObject []) = None /\
  TGSKit.load (rt := Fixture.host) (VString "{}") VNull =
  {| TGSKit.requests := [];
     TGSKit.outcome := TGSKit.Fulfilled (VObject []);
     TGSKit.data_after := VObject [] |}.
Proof.
  split; [reflexivity|]. split; [reflexivity|].
  apply (proj1 (load_json_then_url (rt := Fixture.host) "{}" (VObject []) VNull
                  eq_refl eq_refl)); reflexivity.
Defined.

(** ** The checks of [validate] *)

Section Validation.
Context {rt : Runtime}.
Import TGSKit Checks Diagnostics WellFormed.

Lemma push_when (errors : list IValidationError) (c : bool) (m : string) :
  (if c then push errors (diagnostic m) else errors) = (errors ++ when c m)%list.
Proof.
  destruct c; simpl; [reflexivity|]. symmetry. apply app_nil_r.
Qed.

(** [validate_checks] is the sequence of its parts. *)
Lemma validate_checks_parts (data : value) :
  validate_checks data = checks_by_parts data.
Proof.
  unfold validate_checks, checks_by_parts.
  unfold frame_rate_off, duration, dimensions_off, three_d,
    assets_errors, layers_errors, assets_loop, layers_loop.
  set (on_asset := fun (asset : value) (i : nat) (assetsErrors : list IValidationError) => _).
  set (on_layer := fun (layer : value) (_ : nat) (st : list IValidationError * nat) => _).
  destruct (and_then _ _) as [c_fr|?]; simpl; [|reflexivity].
  destruct (Get data "op") as [op|?]; simpl; [|reflexivity].
  destruct (Get data "ip") as [ip|?]; simpl; [|reflexivity].
  destruct (minus op ip) as [d|?]; simpl; [|reflexivity].
  destruct (Get data "fr") as [fr|?]; simpl; [|reflexivity].
  destruct (divide d fr) as [q|?]; simpl; [|reflexivity].
  destruct (or_else _ _) as [c_dim|?]; simpl; [|reflexivity].
  destruct (and_then _ _) as [c_ddd|?]; simpl; [|reflexivity].
  destruct (HasProperty "markers" data) as [?|?]; simpl; [|reflexivity].
  rewrite !push_when. simpl.
  destruct (has_array "assets" data) as [[|]|?]; simpl; [| |reflexivity].
  - destruct (Get data "assets") as [assets|?]; simpl; [|reflexivity].
    destruct (forEach assets on_asset []) as [assetsErrors|?]; simpl; [|reflexivity].
    destruct (has_array "layers" data) as [[|]|?]; simpl; [| |reflexivity].
    + destruct (Get data "layers") as [layers|?]; simpl; [|reflexivity].
      destruct (forEach layers on_layer ([], 0)) as [[layersErrors pushes]|?];
        simpl; [|reflexivity].
      destruct (has_items "fonts" data) as [c_fonts|?]; simpl; [|reflexivity].
      destruct (has_items "chars" data) as [c_chars|?]; simpl; [|reflexivity].
      rewrite !push_when. destruct (nonempty assetsErrors); unfold push;
        rewrite <- ?app_assoc; reflexivity.
    + destruct (has_items "fonts" data) as [c_fonts|?]; simpl; [|reflexivity].
      destruct (has_items "chars" data) as [c_chars|?]; simpl; [|reflexivity].
      rewrite !push_when. destruct (nonempty assetsErrors); unfold push;
        rewrite <- ?app_assoc; reflexivity.
  - destruct (has_array "layers" data) as [[|]|?]; simpl; [| |reflexivity].
    + destruct (Get data "layers") as [layers|?]; simpl; [|reflexivity].
      destruct (forEach layers on_layer ([], 0)) as [[layersErrors pushes]|?];
        simpl; [|reflexivity].
      destruct (has_items "fonts" data) as [c_fonts|?]; simpl; [|reflexivity].
      destruct (has_items "chars" data) as [c_chars|?]; simpl; [|reflexivity].
      rewrite !push_when. unfold push; rewrite <- ?app_assoc; reflexivity.
    + destruct (has_items "fonts" data) as [c_fonts|?]; simpl; [|reflexivity].
      destruct (has_items "chars" data) as [c_chars|?]; simpl; [|reflexivity].
      rewrite !push_when. unfold push; rewrite <- ?app_assoc; reflexivity.
Qed.

(** [generate] on an object or an array: it leaves the canonical document,
    and returns or throws as the encoding of that document does. *)
Lemma generate_eq (data : value) :
  is_object data = true ->
  generate data =
  (match encoded (canonical data) with
   | Return gzByteArray => Return {| bytes := gzByteArray; type := "application/gzip" |}
   | Throw e => Throw e
   end,
   canonical data).
Proof.
  destruct data; try discriminate; intros _; cbv beta iota delta [generate canonical encoded];
    cbv zeta; match goal with |- context [bind ?c ?k] => destruct (bind c k) end; reflexivity.
Qed.

(** [generate] returns a blob for an object or an array whose canonical
    document can be encoded, and leaves the canonical document. *)
Lemma generate_object (data : value) :
  is_object data = true ->
  encodable data ->
  exists blob, generate data = (Return blob, canonical data).
Proof.
  intros Hobj (gz & Hgz). rewrite (generate_eq _ Hobj), Hgz. eauto.
Qed.

Lemma generate_canonical (data : value) : snd (generate data) = canonical data.
Proof.
  destruct (is_object data) eqn:Hobj.
  - rewrite (generate_eq _ Hobj). reflexivity.
  - destruct data; try discriminate; reflexivity.
Qed.

(** The blob that [generate] returns holds the encoding of the document it
    leaves. *)
Lemma generate_Return_encoded (data data' : value) (blob : Blob) :
  generate data = (Return blob, data') ->
  encoded data' = Return (bytes blob) /\ type blob = "application/gzip".
Proof.
  intros H.
  assert (Hobj : is_object data = true).
  { destruct data; simpl in H; try discriminate; reflexivity. }
  rewrite (generate_eq _ Hobj) in H.
  destruct (encoded (canonical data)) as [gz|e] eqn:Hgz; [|discriminate].
  injection H as <- <-. split; [exact Hgz|reflexivity].
Qed.

Lemma generate_Return (data data' : value) (blob : Blob) :
  generate data = (Return blob, data') -> is_object data = true /\ data' = canonical data.
Proof.
  intros H. pose proof (generate_canonical data) as Hc. rewrite H in Hc. simpl in Hc.
  split; [|assumption]. destruct data; simpl in H; try discriminate; reflexivity.
Qed.

(** [validate]: its checks, then the size of what [generate] returns. *)
Lemma validate_run (data : value) :
  validate data =
  match validate_checks data with
  | Return errors =>
      match generate data with
      | (Return blob, data') =>
          (Return (errors ++
                   when (65536 <? size blob)%Z "Total sticker size should not exceed 64 KB")%list,
           data')
      | (Throw e, data') => (Throw e, data')
      end
  | Throw e => (Throw e, data)
  end.
Proof.
  unfold validate, mbind, pure, mret.
  destruct (validate_checks data) as [errors|e]; [|reflexivity].
  destruct (generate data) as [[blob|e] data']; [|reflexivity].
  rewrite push_when. reflexivity.
Qed.

(** What a returning [validate] went through. *)
Lemma validate_Return (data data' : value) (errors : list IValidationError) :
  validate data = (Return errors, data') ->
  exists c_fr q c_dim c_ddd from_assets from_layers c_fonts c_chars blob,
    frame_rate_off data = Return c_fr /\
    duration data = Return q /\
    dimensions_off data = Return c_dim /\
    three_d data = Return c_ddd /\
    assets_errors data = Return from_assets /\
    layers_errors data = Return from_layers /\
    has_items "fonts" data = Return c_fonts /\
    has_items "chars" data = Return c_chars /\
    generate data = (Return blob, data') /\
    errors =
      (when c_fr "Frame rate must be exactly 30 or 60" ++
       when (greater q 3.0%float) "Should not be longer than 3 seconds" ++
       when c_dim "Dimensions should be exactly 512pxx512px" ++
       when c_ddd "Should not have 3D layers" ++
       from_assets ++ from_layers ++
       when c_fonts "Should not have fonts" ++
       when c_chars "Should not have glyph chars" ++
       when (65536 <? size blob)%Z "Total sticker size should not exceed 64 KB")%list.
Proof.
  rewrite validate_run, validate_checks_parts. unfold checks_by_parts. intros H.
  destruct (frame_rate_off data) as [c_fr|?]; simpl in H; [|discriminate].
  destruct (duration data) as [q|?]; simpl in H; [|discriminate].
  destruct (dimensions_off data) as [c_dim|?]; simpl in H; [|discriminate].
  destruct (three_d data) as [c_ddd|?]; simpl in H; [|discriminate].
  destruct (HasProperty "markers" data) as [?|?]; simpl in H; [|discriminate].
  destruct (assets_errors data) as [from_assets|?]; simpl in H; [|discriminate].
  destruct (layers_errors data) as [from_layers|?]; simpl in H; [|discriminate].
  destruct (has_items "fonts" data) as [c_fonts|?]; simpl in H; [|discriminate].
  destruct (has_items "chars" data) as [c_chars|?]; simpl in H; [|discriminate].
  destruct (generate data) as [[blob|?] d]; [|discriminate].
  injection H as <- <-.
  exists c_fr, q, c_dim, c_ddd, from_assets, from_layers, c_fonts, c_chars, blob.
  repeat (split; [reflexivity|]). rewrite <- !app_assoc. reflexivity.
Qed.

Lemma includes_app (m : string) (l1 l2 : list IValidationError) :
  includes m (l1 ++ l2) = includes m l1 || includes m l2.
Proof. apply existsb_app. Qed.

Lemma includes_when (m m' : string) (c : bool) :
  includes m (when c m') = c && String.eqb m' m.
Proof. destruct c; simpl; [apply orb_false_r|reflexivity]. Qed.

Lemma includes_none (m : string) (l : list IValidationError) :
  (forall e, In e l -> String.eqb (message e) m = false) -> includes m l = false.
Proof.
  induction l as [|e l IH]; intros H; simpl; [reflexivity|].
  rewrite (H e (or_introl eq_refl)). apply IH. intros x Hx. apply H. right; assumption.
Qed.

(** The block on the assets adds nothing but 'Assets must not have errors'. *)
Lemma assets_errors_message (data : value) (from_assets : list IValidationError) :
  assets_errors data = Return from_assets ->
  forall e, In e from_assets -> message e = "Assets must not have errors".
Proof.
  unfold assets_errors. intros H e He.
  destruct (has_array "assets" data) as [[|]|?]; simpl in H; try discriminate.
  - destruct (Get data "assets") as [assets|?]; simpl in H; [|discriminate].
    destruct (assets_loop assets) as [assetsErrors|?]; simpl in H; [|discriminate].
    injection H as <-. destruct (nonempty assetsErrors); simpl in He; [|contradiction].
    destruct He as [<-|[]]. reflexivity.
  - injection H as <-. contradiction.
Qed.

(** The block on the layers adds nothing but 'Layers have errors' and 'Should
    have atleast 1 layer'. *)
Lemma layers_errors_message (data : value) (from_layers : list IValidationError) :
  layers_errors data = Return from_layers ->
  forall e, In e from_layers ->
    message e = "Layers have errors" \/ message e = "Should have atleast 1 layer".
Proof.
  unfold layers_errors. intros H e He.
  destruct (has_array "layers" data) as [[|]|?]; simpl in H; try discriminate.
  - destruct (Get data "layers") as [layers|?]; simpl in H; [|discriminate].
    destruct (layers_loop layers) as [r|?]; simpl in H; [|discriminate].
    injection H as <-. apply repeat_spec in He. subst e. left; reflexivity.
  - injection H as <-. destruct He as [<-|[]]. right; reflexivity.
Qed.

(** Whether a returning [validate] includes the message [m] of a
    document-level check, when [m] is none of the messages of the blocks on
    the assets and the layers. *)
Lemma includes_document_level (m : string)
    (c_fr c_dur c_dim c_ddd c_fonts c_chars c_size : bool)
    (from_assets from_layers : list IValidationError) (data : value) :
  assets_errors data = Return from_assets ->
  layers_errors data = Return from_layers ->
  String.eqb "Assets must not have errors" m = false ->
  String.eqb "Layers have errors" m = false ->
  String.eqb "Should have atleast 1 layer" m = false ->
  includes m
    (when c_fr "Frame rate must be exactly 30 or 60" ++
     when c_dur "Should not be longer than 3 seconds" ++
     when c_dim "Dimensions should be exactly 512pxx512px" ++
     when c_ddd "Should not have 3D layers" ++
     from_assets ++ from_layers ++
     when c_fonts "Should not have fonts" ++
     when c_chars "Should not have glyph chars" ++
     when c_size "Total sticker size should not exceed 64 KB")%list =
  (c_fr && String.eqb "Frame rate must be exactly 30 or 60" m) ||
  (c_dur && String.eqb "Should not be longer than 3 seconds" m) ||
  (c_dim && String.eqb "Dimensions should be exactly 512pxx512px" m) ||
  (c_ddd && String.eqb "Should not have 3D layers" m) ||
  (c_fonts && String.eqb "Should not have fonts" m) ||
  (c_chars && String.eqb "Should not have glyph chars" m) ||
  (c_size && String.eqb "Total sticker size should not exceed 64 KB" m).
Proof.
  intros HA HL E1 E2 E3.
  rewrite !includes_app, !includes_when.
  rewrite (includes_none m from_assets), (includes_none m from_layers).
  - rewrite !orb_false_l, !orb_assoc. reflexivity.
  - intros e He. destruct (layers_errors_message _ _ HL e He) as [-> | ->]; assumption.
  - intros e He. rewrite (assets_errors_message _ _ HA e He). assumption.
Qed.

End Validation.

(** ** The messages [validate] can report *)

Section Vocabulary.
Context {rt : Runtime}.
Import TGSKit Checks Diagnostics WellFormed.

Variable p : string -> bool.
Hypothesis p_vocabulary : forall m, In m vocabulary -> p m = false.

Lemma reports_app (q : string -> bool) (l1 l2 : list IValidationError) :
  reports q (l1 ++ l2) = reports q l1 || reports q l2.
Proof. apply existsb_app. Qed.

Lemma any_message_diagnostic (q : string -> bool) (m : string) :
  any_message q (diagnostic m) = q m.
Proof. simpl. apply orb_false_r. Qed.

Lemma any_message_diagnostic_with (q : string -> bool) (m : string)
    (d : list IValidationError) :
  any_message q (diagnostic_with m d) = q m || reports q d.
Proof.
  reflexivity.
Qed.

Lemma reports_push (q : string -> bool) (errors : list IValidationError)
    (e : IValidationError) :
  reports q (push errors e) = reports q errors || any_message q e.
Proof. unfold push. rewrite reports_app. simpl. rewrite orb_false_r. reflexivity. Qed.

Lemma reports_repeat (q : string -> bool) (e : IValidationError) (n : nat) :
  any_message q e = false -> reports q (repeat e n) = false.
Proof.
  intros He. induction n as [|n IH]; simpl; [reflexivity|]. rewrite He, IH. reflexivity.
Qed.

(** Pushing a message of the vocabulary under a condition keeps a list free
    of [p]. *)
Lemma clean_push (errors : list IValidationError) (c : bool) (m : string) :
  In m vocabulary ->
  reports p errors = false ->
  reports p (if c then push errors (diagnostic m) else errors) = false.
Proof.
  intros Hm He. destruct c; [|assumption].
  rewrite reports_push, He, any_message_diagnostic. apply p_vocabulary, Hm.
Qed.

Lemma clean_push_with (errors d : list IValidationError) (m : string) :
  In m vocabulary ->
  reports p errors = false ->
  reports p d = false ->
  reports p (if nonempty d then push errors (diagnostic_with m d) else errors) = false.
Proof.
  intros Hm He Hd. destruct (nonempty d); [|assumption].
  rewrite reports_push, He, any_message_diagnostic_with, Hd, (p_vocabulary _ Hm).
  reflexivity.
Qed.

(** [checkItems_body] reports no message that satisfies [p] when its
    recursive call does not. *)
Lemma checkItems_body_clean
    (self : value -> value -> completion (list IValidationError))
    (items shapes : value) (errors : list IValidationError) :
  (forall it r, self it (VBoolean false) = Return r -> reports p r = false) ->
  checkItems_body self items shapes = Return errors ->
  reports p errors = false.
Proof.
  intros Hself. unfold checkItems_body.
  destruct (negb (nullish items)); [|intros H; injection H as <-; reflexivity].
  destruct items as [| | | | |l|]; simpl; try discriminate.
  intros Hloop.
  apply (forEach_from_invariant (fun e => reports p e = false) _ _)
    with (3 := Hloop); [|reflexivity].
  intros item i s s' _ Hs H.
  unbind H. unbind H. unbind H. unbind H. unbind H. unbind H. unbind H. unbind H.
  match type of H with
  | (if _ then _ else Return ?e) = _ =>
      assert (Hclean : reports p e = false)
        by (repeat apply clean_push; [simpl; tauto ..|assumption])
  end.
  destruct (strict_eq_true shapes).
  - unbind H. unbind H. injection H as <-.
    apply clean_push_with; [simpl; tauto|assumption|].
    eapply Hself; eassumption.
  - injection H as <-. assumption.
Qed.

Lemma checkItems_clean (items shapes : value) (errors : list IValidationError) :
  checkItems items shapes = Return errors -> reports p errors = false.
Proof.
  apply checkItems_body_clean. intros it r.
  apply checkItems_body_clean. intros it' r' H. injection H as <-. reflexivity.
Qed.

Lemma checkLayer_clean (layer : value) (errors : list IValidationError) :
  checkLayer layer = Return errors -> reports p errors = false.
Proof.
  unfold checkLayer. intros H. hide_messages.
  unbind H. unbind H. unbind H. unbind H. unbind H. unbind H. unbind H. unbind H.
  unbind H. unbind H. unbind H.
  match type of H with
  | (if _ then _ else Return ?e) = _ =>
      assert (Hclean : reports p e = false)
        by (repeat apply clean_push; [cbv; tauto ..|reflexivity])
  end.
  destruct a9.
  - unbind H. unbind H. injection H as <-.
    apply clean_push_with; [cbv; tauto|assumption|].
    eapply checkItems_clean; eassumption.
  - injection H as <-. assumption.
Qed.

(** [checkLayer] finds nothing in a list: it reads the properties of a layer
    off the list itself, which has none of them. *)
Lemma checkLayer_array (l : list value) : checkLayer (VArray l) = Return [].
Proof. reflexivity. Qed.

Lemma has_array_true (key : string) (v : value) :
  has_array key v = Return true -> exists l, Get v key = Return (VArray l).
Proof.
  intros H. apply and_then_Return in H as (x & Hx & H).
  destruct x; [|discriminate]. unbind H. injection H as H.
  destruct a; try discriminate. eauto.
Qed.

(** The loop over the assets hands each asset's list of layers to
    [checkLayer] as if it were one layer, so it collects nothing. *)
Lemma assets_loop_nil (assets : value) (assetsErrors : list IValidationError) :
  assets_loop assets = Return assetsErrors -> assetsErrors = [].
Proof.
  unfold assets_loop. destruct assets as [| | | | |l|]; simpl; try discriminate.
  intros Hloop.
  apply (forEach_from_invariant (fun e => e = []) _ _) with (3 := Hloop); [|reflexivity].
  intros asset i s s' _ -> H. unbind H. destruct a.
  - apply has_array_true in Ha as (layers & Hl). rewrite Hl in H. simpl in H.
    injection H as <-. reflexivity.
  - injection H as <-. reflexivity.
Qed.

Lemma assets_errors_nil (data : value) (from_assets : list IValidationError) :
  assets_errors data = Return from_assets -> from_assets = [].
Proof.
  unfold assets_errors. intros H. unbind H. destruct a.
  - unbind H. unbind H. apply assets_loop_nil in Ha1 as ->. injection H as <-. reflexivity.
  - injection H as <-. reflexivity.
Qed.

Lemma layers_loop_clean (layers : value) (r : list IValidationError * nat) :
  layers_loop layers = Return r -> reports p (fst r) = false.
Proof.
  unfold layers_loop. destruct layers as [| | | | |l|]; simpl; try discriminate.
  intros Hloop.
  apply (forEach_from_invariant (fun st => reports p (fst st) = false) _ _)
    with (3 := Hloop); [|reflexivity].
  intros layer i [layersErrors pushes] s' _ Hs H. simpl in Hs.
  unbind H. injection H as <-. simpl.
  apply clean_push_with; [simpl; tauto|assumption|].
  eapply checkLayer_clean; eassumption.
Qed.

Lemma layers_errors_clean (data : value) (from_layers : list IValidationError) :
  layers_errors data = Return from_layers -> reports p from_layers = false.
Proof.
  unfold layers_errors. intros H. unbind H. destruct a.
  - unbind H. unbind H. injection H as <-. apply reports_repeat.
    rewrite any_message_diagnostic_with, (layers_loop_clean _ _ Ha1).
    rewrite orb_false_r. apply p_vocabulary. simpl; tauto.
  - injection H as <-. simpl. rewrite !orb_false_r. apply p_vocabulary. simpl; tauto.
Qed.

Lemma reports_when (c : bool) (m : string) :
  In m vocabulary -> reports p (when c m) = false.
Proof.
  intros Hm. destruct c; [|reflexivity]. simpl. rewrite (p_vocabulary _ Hm). reflexivity.
Qed.

(** No diagnostic of a returning [validate], at any depth, has a message that
    the vocabulary does not have. *)
Lemma validate_clean (data data' : value) (errors : list IValidationError) :
  validate data = (Return errors, data') -> reports p errors = false.
Proof.
  intros H.
  destruct (validate_Return _ _ _ H)
    as (c_fr & q & c_dim & c_ddd & A & L & c_fonts & c_chars & blob &
        _ & _ & _ & _ & HA & HL & _ & _ & _ & ->).
  apply assets_errors_nil in HA as ->. apply layers_errors_clean in HL.
  rewrite !reports_app, HL, !reports_when by (simpl; tauto). reflexivity.
Qed.

End Vocabulary.

(** ** [validate] returns on well-formed documents *)

Section Totality.
Context {rt : Runtime}.
Import TGSKit Checks Diagnostics WellFormed.

Lemma coercible_ToString (v : value) :
  coercible v = true -> exists s, ToString v = Return s.
Proof.
  revert v. fix IH 1. intros v. destruct v as [| | | | |items|props]; simpl;
    try (intros _; eexists; reflexivity).
  - intros H.
    assert (Hparts : exists parts,
               (fix each (l : list value) : completion (list string) :=
                  match l with
                  | [] => Return []
                  | x :: rest =>
                      s <- (if nullish x then Return "" else ToString x) ;;
                      ss <- each rest ;;
                      Return (s :: ss)
                  end) items = Return parts).
    { induction items as [|x rest IHrest]; [eexists; reflexivity|].
      apply andb_prop in H as [Hx Hrest].
      destruct (IHrest Hrest) as (ss & ->).
      destruct (nullish x); simpl; [eexists; reflexivity|].
      destruct (IH x Hx) as (s & ->). simpl. eexists; reflexivity. }
    destruct Hparts as (parts & ->). simpl. eexists; reflexivity.
  - intros H. apply negb_true_iff in H. rewrite H. eexists; reflexivity.
Qed.

Lemma coercible_ToNumber (v : value) :
  coercible v = true -> exists n, ToNumber v = Return n.
Proof.
  intros H. destruct v; simpl; try (eexists; reflexivity);
    destruct (coercible_ToString _ H) as (s & Hs); simpl in Hs; rewrite Hs;
    eexists; reflexivity.
Qed.

Lemma loose_eq_number_total (v : value) (n : number) :
  coercible v = true -> exists b, loose_eq_number v n = Return b.
Proof.
  intros H. unfold loose_eq_number.
  destruct (coercible_ToNumber _ H) as (m & ->).
  destruct v; eexists; reflexivity.
Qed.

Lemma loose_neq_number_total (v : value) (n : number) :
  coercible v = true -> exists b, loose_neq_number v n = Return b.
Proof.
  intros H. unfold loose_neq_number.
  destruct (loose_eq_number_total v n H) as (b & ->). eexists; reflexivity.
Qed.

Lemma loose_eq_string_total (v : value) (s : string) :
  coercible v = true -> exists b, loose_eq_string v s = Return b.
Proof.
  intros H. destruct v; simpl; try (eexists; reflexivity);
    destruct (coercible_ToString _ H) as (t & Ht); simpl in Ht; rewrite Ht;
    eexists; reflexivity.
Qed.

Lemma Get_prop (v : value) (key : string) :
  nullish v = false -> Get v key = Return (prop key v).
Proof. destruct v; simpl; try discriminate; reflexivity. Qed.

Lemma is_object_not_nullish (v : value) : is_object v = true -> nullish v = false.
Proof. destruct v; simpl; try discriminate; reflexivity. Qed.

Lemma has_array_prop (key : string) (v : value) :
  is_object v = true -> has_array key v = Return (isArray (prop key v)).
Proof.
  destruct v; simpl; try discriminate; intros _; [reflexivity|].
  unfold has_array. simpl. destruct (assoc key props); reflexivity.
Qed.

Lemma has_items_total (key : string) (v : value) :
  is_object v = true -> exists b, has_items key v = Return b.
Proof.
  intros H. unfold has_items. rewrite (has_array_prop _ _ H).
  rewrite (Get_prop _ _ (is_object_not_nullish _ H)).
  destruct (isArray (prop key v)); simpl; eexists; reflexivity.
Qed.

Lemma isArray_items_of (v : value) : isArray v = true -> v = VArray (items_of v).
Proof. destruct v; simpl; try discriminate; reflexivity. Qed.

(** [checkItems] returns on a list of well-formed items of a group. *)
Lemma checkItems_leaf_total
    (self : value -> value -> completion (list IValidationError))
    (children : list value) :
  forallb wf_child children = true ->
  exists errors, checkItems_body self (VArray children) (VBoolean false) = Return errors.
Proof.
  intros H. unfold checkItems_body. simpl. apply forEach_from_total.
  intros child Hin i s. rewrite forallb_forall in H. specialize (H child Hin).
  unfold wf_child in H. apply andb_prop in H as [Hnull Hty].
  apply negb_true_iff in Hnull. rewrite !(Get_prop _ _ Hnull). simpl.
  destruct (loose_eq_string_total _ "rp" Hty) as (b1 & ->). simpl.
  destruct (loose_eq_string_total _ "sr" Hty) as (b2 & ->). simpl.
  destruct (loose_eq_string_total _ "mm" Hty) as (b3 & ->). simpl.
  destruct (loose_eq_string_total _ "gs" Hty) as (b4 & ->). simpl.
  eexists; reflexivity.
Qed.

(** [checkItems] returns on a list of well-formed items of a layer. *)
Lemma checkItems_root_total (shapes : list value) :
  forallb wf_item shapes = true ->
  exists errors, checkItems (VArray shapes) (VBoolean true) = Return errors.
Proof.
  intros H. unfold checkItems, checkItems_body at 1. simpl. apply forEach_from_total.
  intros item Hin i s. rewrite forallb_forall in H. specialize (H item Hin).
  unfold wf_item in H. apply andb_prop in H as [H Hit]. apply andb_prop in H as [Hnull Hty].
  apply negb_true_iff in Hnull. rewrite !(Get_prop _ _ Hnull). simpl.
  destruct (loose_eq_string_total _ "rp" Hty) as (b1 & ->). simpl.
  destruct (loose_eq_string_total _ "sr" Hty) as (b2 & ->). simpl.
  destruct (loose_eq_string_total _ "mm" Hty) as (b3 & ->). simpl.
  destruct (loose_eq_string_total _ "gs" Hty) as (b4 & ->). simpl.
  assert (Hleaf : exists itemErrors,
             checkItems_body (fun _ _ => Return []) (prop "it" item) (VBoolean false) =
             Return itemErrors).
  { apply orb_prop in Hit as [Hit|Hit].
    - unfold checkItems_body. rewrite Hit. eexists; reflexivity.
    - apply andb_prop in Hit as [Harr Hch]. rewrite (isArray_items_of _ Harr).
      apply checkItems_leaf_total. assumption. }
  destruct Hleaf as (itemErrors & ->). simpl. eexists; reflexivity.
Qed.

(** [checkLayer] returns on a well-formed layer. *)
Lemma checkLayer_total (layer : value) :
  wf_layer layer = true -> exists errors, checkLayer layer = Return errors.
Proof.
  unfold wf_layer. intros H.
  apply andb_prop in H as [H Hshapes]. apply andb_prop in H as [H Hsr].
  apply andb_prop in H as [Hobj Hddd].
  pose proof (is_object_not_nullish _ Hobj) as Hnull.
  unfold checkLayer. hide_messages.
  rewrite (has_array_prop _ _ Hobj), !(Get_prop _ _ Hnull).
  unfold and_then, or_else. simpl.
  destruct (loose_neq_number_total _ 0%float Hddd) as (b1 & ->).
  destruct (loose_neq_number_total _ 1%float Hsr) as (b2 & ->).
  destruct (negb (nullish (prop "ddd" layer))); simpl;
    destruct (negb (nullish (prop "sr" layer))); simpl;
    destruct (strict_eq_true (prop "hasMask" layer)); simpl;
    (destruct (isArray (prop "shapes" layer)) eqn:Harr; simpl;
     [ rewrite (isArray_items_of _ Harr);
       destruct (checkItems_root_total _ Hshapes) as (shapesErrors & ->); simpl
     | ]; eexists; reflexivity).
Qed.

(** The loop over the assets returns when every asset is an object. *)
Lemma assets_loop_total (assets : list value) :
  forallb is_object assets = true ->
  exists assetsErrors, assets_loop (VArray assets) = Return assetsErrors.
Proof.
  intros H. unfold assets_loop. simpl. apply forEach_from_total.
  intros asset Hin i s. rewrite forallb_forall in H. specialize (H asset Hin).
  rewrite (has_array_prop _ _ H), (Get_prop _ _ (is_object_not_nullish _ H)). simpl.
  destruct (isArray (prop "layers" asset)) eqn:Harr; simpl; [|eexists; reflexivity].
  rewrite (isArray_items_of _ Harr), checkLayer_array. simpl. eexists; reflexivity.
Qed.

(** The loop over the layers returns when every layer is well formed. *)
Lemma layers_loop_total (layers : list value) :
  forallb wf_layer layers = true ->
  exists r, layers_loop (VArray layers) = Return r.
Proof.
  intros H. unfold layers_loop. simpl. apply forEach_from_total.
  intros layer Hin i [layersErrors pushes]. rewrite forallb_forall in H.
  destruct (checkLayer_total _ (H layer Hin)) as (layerErrors & ->). simpl.
  eexists; reflexivity.
Qed.

(** The checks of [validate] return on a well-formed document. *)
Lemma validate_checks_total (data : value) :
  wf_document data = true -> exists errors, validate_checks data = Return errors.
Proof.
  unfold wf_document. intros H.
  apply andb_prop in H as [H Hlayers]. apply andb_prop in H as [H Hassets].
  apply andb_prop in H as [H Hddd]. apply andb_prop in H as [H Hh].
  apply andb_prop in H as [H Hw]. apply andb_prop in H as [H Hip].
  apply andb_prop in H as [H Hop]. apply andb_prop in H as [Hobj Hfr].
  pose proof (is_object_not_nullish _ Hobj) as Hnull.
  rewrite validate_checks_parts. unfold checks_by_parts.
  assert (H1 : exists c, frame_rate_off data = Return c).
  { unfold frame_rate_off, and_then. rewrite !(Get_prop _ _ Hnull). simpl.
    destruct (loose_neq_number_total _ 30%float Hfr) as (b1 & ->). simpl.
    destruct (loose_neq_number_total _ 60%float Hfr) as (b2 & ->).
    destruct b1; eexists; reflexivity. }
  assert (H2 : exists q, duration data = Return q).
  { unfold duration, minus, divide. rewrite !(Get_prop _ _ Hnull). simpl.
    destruct (coercible_ToNumber _ Hop) as (x & ->). simpl.
    destruct (coercible_ToNumber _ Hip) as (y & ->). simpl.
    destruct (coercible_ToNumber _ Hfr) as (z & ->). simpl. eexists; reflexivity. }
  assert (H3 : exists c, dimensions_off data = Return c).
  { unfold dimensions_off, or_else. rewrite !(Get_prop _ _ Hnull). simpl.
    destruct (loose_neq_number_total _ 512%float Hw) as (b1 & ->). simpl.
    destruct (loose_neq_number_total _ 512%float Hh) as (b2 & ->).
    destruct b1; eexists; reflexivity. }
  assert (H4 : exists c, three_d data = Return c).
  { unfold three_d, and_then. rewrite !(Get_prop _ _ Hnull). simpl.
    destruct (loose_neq_number_total _ 0%float Hddd) as (b1 & ->).
    destruct (negb (nullish (prop "ddd" data))); eexists; reflexivity. }
  assert (H5 : exists b, HasProperty "markers" data = Return b).
  { destruct data; simpl in Hobj; try discriminate; eexists; reflexivity. }
  assert (H6 : exists A, assets_errors data = Return A).
  { unfold assets_errors. rewrite (has_array_prop _ _ Hobj), (Get_prop _ _ Hnull). simpl.
    destruct (isArray (prop "assets" data)) eqn:Harr; [|eexists; reflexivity].
    rewrite (isArray_items_of _ Harr).
    destruct (assets_loop_total _ Hassets) as (assetsErrors & ->). simpl.
    eexists; reflexivity. }
  assert (H7 : exists L, layers_errors data = Return L).
  { unfold layers_errors. rewrite (has_array_prop _ _ Hobj), (Get_prop _ _ Hnull). simpl.
    destruct (isArray (prop "layers" data)) eqn:Harr; [|eexists; reflexivity].
    rewrite (isArray_items_of _ Harr).
    destruct (layers_loop_total _ Hlayers) as (r & ->). simpl.
    eexists; reflexivity. }
  destruct H1 as (c_fr & ->), H2 as (q & ->), H3 as (c_dim & ->), H4 as (c_ddd & ->),
    H5 as (b & ->), H6 as (A & ->), H7 as (L & ->).
  destruct (has_items_total "fonts" _ Hobj) as (c_fonts & ->).
  destruct (has_items_total "chars" _ Hobj) as (c_chars & ->).
  simpl. eexists; reflexivity.
Qed.

(** [validate] returns on a well-formed document that can be encoded, and
    leaves the canonical document. *)
Lemma validate_total (data : value) :
  wf_document data = true ->
  encodable data ->
  exists errors, validate data = (Return errors, canonical data).
Proof.
  intros Hwf Henc.
  destruct (validate_checks_total _ Hwf) as (errors0 & Hchecks).
  assert (Hobj : is_object data = true).
  { unfold wf_document in Hwf. repeat (apply andb_prop in Hwf as [Hwf _]). assumption. }
  destruct (generate_object _ Hobj Henc) as (blob & Hgen).
  eexists. rewrite validate_run, Hchecks, Hgen. reflexivity.
Qed.



End Totality.



(** A layer whose [shapes] is no list is well formed, and [validate] returns
    on it. *)
Lemma validate_skips_shapes_that_are_no_list :
  TGSKit.validate (rt := Fixture.host)
    (Fixture.document 0 90 [VObject [("ty", VNumber 4); ("shapes", VNumber 7)]]) =
  (Return [],
   Checks.canonical
     (Fixture.document 0 90 [VObject [("ty", VNumber 4); ("shapes", VNumber 7)]])).
Proof. reflexivity. Qed.

(** ** Frame rate, duration and size *)

Section DocumentLevel.
Context {rt : Runtime}.
Import TGSKit Checks Diagnostics WellFormed.

Lemma Return_inj {A} (a b : A) : Return a = Return b <-> a = b.
Proof. split; [intros H; injection H; trivial | intros ->; reflexivity]. Qed.

(** C2.  [validate] returns on every well-formed document that can be
    encoded, and whenever it returns, its diagnostics include 'Frame rate
    must be exactly 30 or 60' if and only if [fr != 30 && fr != 60]: for a
    Number [fr], if and only if it equals neither 30 nor 60. *)
Theorem validate_frame_rate (data : value) :
  (wf_document data = true -> encodable data ->
   exists errors, validate data = (Return errors, canonical data)) /\
  (forall errors data',
     validate data = (Return errors, data') ->
     exists fr,
       Get data "fr" = Return fr /\
       (includes frame_rate_message errors = true <->
        loose_eq_number fr 30%float = Return false /\
        loose_eq_number fr 60%float = Return false) /\
       (forall n, fr = VNumber n ->
        (includes frame_rate_message errors = true <->
         PrimFloat.eqb n 30%float = false /\ PrimFloat.eqb n 60%float = false))).
Proof.
  split; [apply validate_total|]. intros errors data' H.
  destruct (validate_Return _ _ _ H)
    as (c_fr & q & c_dim & c_ddd & A & L & c_fonts & c_chars & blob &
        Hfr & _ & _ & _ & HA & HL & _ & _ & _ & ->).
  rewrite (includes_document_level frame_rate_message _ _ _ _ _ _ _ _ _ _ HA HL)
    by reflexivity.
  cbn [frame_rate_message String.eqb Ascii.eqb Bool.eqb andb].
  rewrite !andb_false_r, !orb_false_r, andb_true_r.
  unfold frame_rate_off in Hfr.
  apply and_then_Return in Hfr as (x & H30 & Hx).
  unbind H30. rename a into fr. unfold loose_neq_number in H30. unbind H30.
  injection H30 as <-. rename a into b30.
  assert (Hiff : c_fr = true <->
                 loose_eq_number fr 30%float = Return false /\
                 loose_eq_number fr 60%float = Return false).
  { destruct b30; simpl in Hx.
    - subst c_fr. rewrite Ha0. split; [discriminate|]. intros [E _]; discriminate.
    - rewrite Ha in Hx. simpl in Hx. unfold loose_neq_number in Hx. unbind Hx.
      injection Hx as <-. rewrite Ha0, Ha1, !Return_inj.
      destruct a; simpl; intuition congruence. }
  exists fr. split; [assumption|]. split; [assumption|].
  intros n ->. rewrite Hiff. simpl. rewrite !Return_inj. reflexivity.
Qed.

(** C3.  [validate] returns on every well-formed document that can be
    encoded, and whenever it returns, its diagnostics include 'Should not be
    longer than 3 seconds' if and only if [(op - ip) / fr > 3.0], the
    difference and the quotient being those of binary64 Numbers.  With [op = 91], [ip = 1] and [fr = 30] the
    quotient is 3.0 and the diagnostic is absent; with [op = 92] it is
    present. *)
Theorem validate_duration (data : value) :
  (wf_document data = true -> encodable data ->
   exists errors, validate data = (Return errors, canonical data)) /\
  (forall errors data',
     validate data = (Return errors, data') ->
     (exists q, duration data = Return q /\
        (includes duration_message errors = true <-> PrimFloat.ltb 3.0 q = true)) /\
     (forall op ip fr,
        Get data "op" = Return (VNumber op) ->
        Get data "ip" = Return (VNumber ip) ->
        Get data "fr" = Return (VNumber fr) ->
        (includes duration_message errors = true <->
         PrimFloat.ltb 3.0 (PrimFloat.div (PrimFloat.sub op ip) fr) = true)) /\
     (Get data "op" = Return (VNumber 91) ->
      Get data "ip" = Return (VNumber 1) ->
      Get data "fr" = Return (VNumber 30) ->
      includes duration_message errors = false) /\
     (Get data "op" = Return (VNumber 92) ->
      Get data "ip" = Return (VNumber 1) ->
      Get data "fr" = Return (VNumber 30) ->
      includes duration_message errors = true)).
Proof.
  split; [apply validate_total|]. intros errors data' H.
  destruct (validate_Return _ _ _ H)
    as (c_fr & q & c_dim & c_ddd & A & L & c_fonts & c_chars & blob &
        _ & Hq & _ & _ & HA & HL & _ & _ & _ & ->).
  rewrite (includes_document_level duration_message _ _ _ _ _ _ _ _ _ _ HA HL)
    by reflexivity.
  cbn [duration_message String.eqb Ascii.eqb Bool.eqb andb].
  rewrite !andb_false_r, !orb_false_r, andb_true_r, orb_false_l.
  unfold greater.
  assert (Hnum : forall op ip fr,
             Get data "op" = Return (VNumber op) ->
             Get data "ip" = Return (VNumber ip) ->
             Get data "fr" = Return (VNumber fr) ->
             q = PrimFloat.div (PrimFloat.sub op ip) fr).
  { intros op ip fr Hop Hip Hf. unfold duration in Hq.
    rewrite Hop, Hip, Hf in Hq. simpl in Hq. injection Hq as <-. reflexivity. }
  split; [|split; [|split]].
  - exists q. split; [assumption|reflexivity].
  - intros op ip fr Hop Hip Hf. rewrite (Hnum _ _ _ Hop Hip Hf). reflexivity.
  - intros Hop Hip Hf. rewrite (Hnum _ _ _ Hop Hip Hf). reflexivity.
  - intros Hop Hip Hf. rewrite (Hnum _ _ _ Hop Hip Hf). reflexivity.
Qed.

(** C4.  [validate] returns on every well-formed document that can be
    encoded, and whenever it returns, its diagnostics include 'Total sticker
    size should not exceed 64 KB' if and only if the blob that [generate]
    returns for the document, the compressed JSON text of the canonical
    document, is larger than 65536 bytes; the other checks have no part in
    it. *)
Theorem validate_size_budget (data : value) :
  (wf_document data = true -> encodable data ->
   exists errors, validate data = (Return errors, canonical data)) /\
  (forall errors data',
     validate data = (Return errors, data') ->
     exists blob,
       generate data = (Return blob, data') /\
       encoded (canonical data) = Return (bytes blob) /\
       (includes size_message errors = true <-> (65536 < size blob)%Z)).
Proof.
  split; [apply validate_total|]. intros errors data' H.
  destruct (validate_Return _ _ _ H)
    as (c_fr & q & c_dim & c_ddd & A & L & c_fonts & c_chars & blob &
        _ & _ & _ & _ & HA & HL & _ & _ & Hgen & ->).
  exists blob. split; [assumption|]. split.
  - destruct (generate_Return_encoded _ _ _ Hgen) as [Hbytes _].
    destruct (generate_Return _ _ _ Hgen) as [_ Hleft]. rewrite Hleft in Hbytes.
    exact Hbytes.
  - rewrite (includes_document_level size_message _ _ _ _ _ _ _ _ _ _ HA HL)
      by reflexivity.
    cbn [size_message String.eqb Ascii.eqb Bool.eqb andb].
    rewrite !andb_false_r, !orb_false_l, andb_true_r.
    apply Z.ltb_lt.
Qed.

End DocumentLevel.

(** The witness of [validate_frame_rate]: the sticker of the fixture, at 30
    frames per second. *)
Lemma validate_frame_rate_witness :
  TGSKit.validate (rt := Fixture.host) Fixture.sticker =
    (Return [], Checks.canonical Fixture.sticker) /\
  exists fr,
    Get Fixture.sticker "fr" = Return fr /\
    (Diagnostics.includes Diagnostics.frame_rate_message [] = true <->
     loose_eq_number (rt := Fixture.host) fr 30%float = Return false /\
     loose_eq_number (rt := Fixture.host) fr 60%float = Return false) /\
    (forall n, fr = VNumber n ->
     (Diagnostics.includes Diagnostics.frame_rate_message [] = true <->
      PrimFloat.eqb n 30%float = false /\ PrimFloat.eqb n 60%float = false)).
Proof.
  split; [reflexivity|].
  apply (proj2 (validate_frame_rate (rt := Fixture.host) Fixture.sticker)
           [] (Checks.canonical Fixture.sticker)).
  reflexivity.
Defined.

(** The witness of [validate_duration]: a document of exactly 3 seconds
    ([op = 91], [ip = 1], [fr = 30]), which gets no diagnostic. *)
Lemma validate_duration_witness :
  TGSKit.validate (rt := Fixture.host) (Fixture.document 1 91 []) =
    (Return [], Checks.canonical (Fixture.document 1 91 [])) /\
  Diagnostics.includes Diagnostics.duration_message [] = false.
Proof.
  split; [reflexivity|].
  apply (proj2 (validate_duration (rt := Fixture.host) (Fixture.document 1 91 []))
           [] (Checks.canonical (Fixture.document 1 91 []))); reflexivity.
Defined.

(** The witness of [validate_size_budget]: the sticker of the fixture on a
    host whose blobs are 65537 bytes long gets the diagnostic, and nothing
    else. *)
Lemma validate_size_budget_witness :
  TGSKit.validate (rt := Fixture.host_of_size 65537) Fixture.sticker =
    (Return [TGSKit.diagnostic Diagnostics.size_message],
     Checks.canonical Fixture.sticker) /\
  exists blob,
    TGSKit.generate (rt := Fixture.host_of_size 65537) Fixture.sticker =
      (Return blob, Checks.canonical Fixture.sticker) /\
    Checks.encoded (rt := Fixture.host_of_size 65537)
      (Checks.canonical Fixture.sticker) = Return (TGSKit.bytes blob) /\
    (Diagnostics.includes Diagnostics.size_message
       [TGSKit.diagnostic Diagnostics.size_message] = true <->
     (65536 < TGSKit.size blob)%Z).
Proof.
  assert (H : TGSKit.validate (rt := Fixture.host_of_size 65537) Fixture.sticker =
              (Return [TGSKit.diagnostic Diagnostics.size_message],
               Checks.canonical Fixture.sticker)) by (vm_compute; reflexivity).
  split; [exact H|].
  exact (proj2 (validate_size_budget (rt := Fixture.host_of_size 65537) _) _ _ H).
Defined.

(** ** Markers *)

Section Markers.
Context {rt : Runtime}.
Import TGSKit Checks Diagnostics WellFormed.

(** C7, as the code has it.  The check on [markers] pushes nothing (its body
    is commented out): [validate] returns on every well-formed document that
    can be encoded, and whenever it returns, none of its diagnostics, at any
    depth, is about markers, whatever the document holds under [markers]. *)
Theorem validate_never_reports_markers (data : value) :
  (wf_document data = true -> encodable data ->
   exists errors, validate data = (Return errors, canonical data)) /\
  (forall errors data',
     validate data = (Return errors, data') -> reports about_markers errors = false).
Proof.
  split; [apply validate_total|]. intros errors data'.
  apply validate_clean. intros m Hm. simpl in Hm.
  repeat (destruct Hm as [<-|Hm]; [reflexivity|]). contradiction.
Qed.

End Markers.

(** The counterexample to C7 as stated: a document with a non-empty list of
    markers for which [validate] returns no diagnostic at all. *)
Lemma validate_accepts_markers :
  has_items "markers" Fixture.sticker_with_markers = Return true /\
  fst (TGSKit.validate (rt := Fixture.host) Fixture.sticker_with_markers) = Return [].
Proof. split; reflexivity. Qed.

(** The witness of [validate_never_reports_markers]: the same document. *)
Lemma validate_never_reports_markers_witness :
  TGSKit.validate (rt := Fixture.host) Fixture.sticker_with_markers =
    (Return [], Checks.canonical Fixture.sticker_with_markers) /\
  Diagnostics.reports Diagnostics.about_markers [] = false.
Proof.
  split; [reflexivity|].
  apply (proj2 (validate_never_reports_markers (rt := Fixture.host)
                  Fixture.sticker_with_markers)
           [] (Checks.canonical Fixture.sticker_with_markers)).
  reflexivity.
Defined.

(** ** Calling [validate] again *)

Section Again.
Context {rt : Runtime}.
Import TGSKit Checks Diagnostics WellFormed.

Lemma assoc_put_other (k k' : string) (v : value) (props : list (string * value)) :
  String.eqb k' k = false -> assoc k (put k' v props) = assoc k props.
Proof.
  intros Hk. induction props as [|[k0 x] props IH]; simpl.
  - rewrite Hk. reflexivity.
  - destruct (String.eqb k0 k') eqn:E0; simpl.
    + apply String.eqb_eq in E0. subst k0. rewrite Hk. reflexivity.
    + destruct (String.eqb k0 k); [reflexivity|assumption].
Qed.

Lemma assoc_put_same (k : string) (v : value) (props : list (string * value)) :
  assoc k (put k v props) = Some v.
Proof.
  induction props as [|[k0 x] props IH]; simpl.
  - rewrite String.eqb_refl. reflexivity.
  - destruct (String.eqb k0 k) eqn:E0; simpl; rewrite E0; [reflexivity|assumption].
Qed.

Lemma assoc_remove_other (k k' : string) (props : list (string * value)) :
  String.eqb k' k = false -> assoc k (remove k' props) = assoc k props.
Proof.
  intros Hk. induction props as [|[k0 x] props IH]; simpl; [reflexivity|].
  destruct (String.eqb k0 k') eqn:E0; simpl.
  - apply String.eqb_eq in E0. subst k0. rewrite Hk. assumption.
  - destruct (String.eqb k0 k); [reflexivity|assumption].
Qed.

Lemma assoc_remove_same (k : string) (props : list (string * value)) :
  assoc k (remove k props) = None.
Proof.
  induction props as [|[k0 x] props IH]; simpl; [reflexivity|].
  destruct (String.eqb k0 k) eqn:E0; simpl; [assumption|]. rewrite E0. assumption.
Qed.

Lemma put_present (k : string) (v : value) (props : list (string * value)) :
  assoc k props = Some v -> put k v props = props.
Proof.
  induction props as [|[k0 x] props IH]; simpl; [discriminate|].
  destruct (String.eqb k0 k).
  - intros H. injection H as ->. reflexivity.
  - intros H. rewrite (IH H). reflexivity.
Qed.

Lemma remove_absent (k : string) (props : list (string * value)) :
  assoc k props = None -> remove k props = props.
Proof.
  induction props as [|[k0 x] props IH]; simpl; [reflexivity|].
  destruct (String.eqb k0 k); simpl; [discriminate|].
  intros H. rewrite (IH H). reflexivity.
Qed.

(** The properties of the canonical document: [tgs] is 1, [markers], [fonts]
    and [chars] are gone, every other one is as it was. *)
Lemma assoc_canonical (k : string) (props : list (string * value)) :
  assoc k (remove "chars" (remove "fonts" (remove "markers"
             (put "tgs" (VNumber 1) props)))) =
  if String.eqb "chars" k then None
  else if String.eqb "fonts" k then None
  else if String.eqb "markers" k then None
  else if String.eqb "tgs" k then Some (VNumber 1)
  else assoc k props.
Proof.
  destruct (String.eqb "chars" k) eqn:E1.
  { apply String.eqb_eq in E1. subst k. apply assoc_remove_same. }
  rewrite (assoc_remove_other _ _ _ E1).
  destruct (String.eqb "fonts" k) eqn:E2.
  { apply String.eqb_eq in E2. subst k. apply assoc_remove_same. }
  rewrite (assoc_remove_other _ _ _ E2).
  destruct (String.eqb "markers" k) eqn:E3.
  { apply String.eqb_eq in E3. subst k. apply assoc_remove_same. }
  rewrite (assoc_remove_other _ _ _ E3).
  destruct (String.eqb "tgs" k) eqn:E4.
  { apply String.eqb_eq in E4. subst k. apply assoc_put_same. }
  apply assoc_put_other. assumption.
Qed.

(** [generate] finds nothing left to change in a canonical document. *)
Lemma canonical_idempotent (data : value) : canonical (canonical data) = canonical data.
Proof.
  destruct data as [| | | | | |props]; try reflexivity.
  cbv beta iota delta [canonical]. f_equal.
  set (c := remove "chars" (remove "fonts" (remove "markers" (put "tgs" (VNumber 1) props)))).
  rewrite (put_present "tgs" (VNumber 1) c) by (unfold c; rewrite assoc_canonical; reflexivity).
  rewrite (remove_absent "markers" c) by (unfold c; rewrite assoc_canonical; reflexivity).
  rewrite (remove_absent "fonts" c) by (unfold c; rewrite assoc_canonical; reflexivity).
  apply remove_absent. unfold c. rewrite assoc_canonical. reflexivity.
Qed.

Lemma Get_canonical (k : string) (props : list (string * value)) :
  String.eqb "chars" k = false -> String.eqb "fonts" k = false ->
  String.eqb "markers" k = false -> String.eqb "tgs" k = false ->
  Get (canonical (VObject props)) k = Get (VObject props) k.
Proof.
  intros E1 E2 E3 E4. simpl. rewrite assoc_canonical, E1, E2, E3, E4. reflexivity.
Qed.

Lemma HasProperty_canonical (k : string) (props : list (string * value)) :
  String.eqb "chars" k = false -> String.eqb "fonts" k = false ->
  String.eqb "markers" k = false -> String.eqb "tgs" k = false ->
  HasProperty k (canonical (VObject props)) = HasProperty k (VObject props).
Proof.
  intros E1 E2 E3 E4. simpl. rewrite assoc_canonical, E1, E2, E3, E4. reflexivity.
Qed.

Lemma has_array_canonical (k : string) (props : list (string * value)) :
  String.eqb "chars" k = false -> String.eqb "fonts" k = false ->
  String.eqb "markers" k = false -> String.eqb "tgs" k = false ->
  has_array k (canonical (VObject props)) = has_array k (VObject props).
Proof.
  intros E1 E2 E3 E4. unfold has_array.
  rewrite HasProperty_canonical, Get_canonical by assumption. reflexivity.
Qed.

(** The checks on a canonical document are those on the document it came
    from, with no fonts and no glyph chars to find. *)
Lemma checks_canonical (props : list (string * value)) :
  checks_by_parts (canonical (VObject props)) =
  (c_fr <- frame_rate_off (VObject props) ;;
   q <- duration (VObject props) ;;
   c_dim <- dimensions_off (VObject props) ;;
   c_ddd <- three_d (VObject props) ;;
   from_assets <- assets_errors (VObject props) ;;
   from_layers <- layers_errors (VObject props) ;;
   Return (when c_fr "Frame rate must be exactly 30 or 60" ++
           when (greater q 3.0%float) "Should not be longer than 3 seconds" ++
           when c_dim "Dimensions should be exactly 512pxx512px" ++
           when c_ddd "Should not have 3D layers" ++
           from_assets ++ from_layers)%list).
Proof.
  set (data := VObject props).
  assert (H1 : frame_rate_off (canonical data) = frame_rate_off data).
  { unfold frame_rate_off, data. rewrite !Get_canonical by reflexivity. reflexivity. }
  assert (H2 : duration (canonical data) = duration data).
  { unfold duration, data. rewrite !Get_canonical by reflexivity. reflexivity. }
  assert (H3 : dimensions_off (canonical data) = dimensions_off data).
  { unfold dimensions_off, data. rewrite !Get_canonical by reflexivity. reflexivity. }
  assert (H4 : three_d (canonical data) = three_d data).
  { unfold three_d, data. rewrite !Get_canonical by reflexivity. reflexivity. }
  assert (H5 : assets_errors (canonical data) = assets_errors data).
  { unfold assets_errors, data.
    rewrite has_array_canonical, Get_canonical by reflexivity. reflexivity. }
  assert (H6 : layers_errors (canonical data) = layers_errors data).
  { unfold layers_errors, data.
    rewrite has_array_canonical, Get_canonical by reflexivity. reflexivity. }
  assert (Hf : has_items "fonts" (canonical data) = Return false).
  { unfold has_items, has_array, and_then. simpl. rewrite assoc_canonical. reflexivity. }
  assert (Hc : has_items "chars" (canonical data) = Return false).
  { unfold has_items, has_array, and_then. simpl. rewrite assoc_canonical. reflexivity. }
  assert (Hm : HasProperty "markers" (canonical data) = Return false).
  { simpl. rewrite assoc_canonical. reflexivity. }
  unfold checks_by_parts. rewrite H1, H2, H3, H4, H5, H6, Hf, Hc, Hm.
  destruct (frame_rate_off data) as [c_fr|?]; simpl; [|reflexivity].
  destruct (duration data) as [q|?]; simpl; [|reflexivity].
  destruct (dimensions_off data) as [c_dim|?]; simpl; [|reflexivity].
  destruct (three_d data) as [c_ddd|?]; simpl; [|reflexivity].
  destruct (assets_errors data) as [A|?]; simpl; [|reflexivity].
  destruct (layers_errors data) as [L|?]; simpl; [|reflexivity].
  rewrite !app_nil_r. reflexivity.
Qed.

(** C8, as the code has it.  [validate] leaves the canonical document, on
    which every later call returns one and the same result and changes
    nothing.  That result is the result of the first call when the document
    had no non-empty [fonts] list and no non-empty [chars] list; the
    diagnostics on fonts and glyph chars of a first call are not repeated,
    since the first call stripped both lists. *)
Theorem validate_again (data data1 : value)
    (first : completion (list IValidationError)) :
  validate data = (first, data1) ->
  exists second,
    validate data1 = (second, data1) /\
    (has_items "fonts" data <> Return true ->
     has_items "chars" data <> Return true ->
     second = first).
Proof.
  rewrite validate_run. intros H.
  destruct (validate_checks data) as [errors|e] eqn:Hchecks.
  2:{ injection H as <- <-. exists (Throw e). rewrite validate_run, Hchecks. auto. }
  destruct (is_object data) eqn:Hobj.
  2:{ destruct data; try discriminate Hobj; simpl in H; injection H as <- <-;
        eexists; rewrite validate_run, Hchecks; split; reflexivity. }
  rewrite (generate_eq _ Hobj) in H.
  assert (Hgen : generate (canonical data) =
                 (match encoded (canonical data) with
                  | Return gzByteArray =>
                      Return {| bytes := gzByteArray; type := "application/gzip" |}
                  | Throw e => Throw e
                  end,
                  canonical data)).
  { rewrite generate_eq, canonical_idempotent; [reflexivity|].
    destruct data; try discriminate Hobj; reflexivity. }
  destruct data as [| | | | |l|props]; try discriminate Hobj.
  { change (canonical (VArray l)) with (VArray l) in *.
    exists first. split; [|reflexivity].
    destruct (encoded (VArray l)) as [gzByteArray|e] eqn:Henc;
      cbv beta iota in H; injection H as <- <-;
      rewrite validate_run, Hchecks, Hgen; reflexivity. }
  rewrite validate_checks_parts in Hchecks. unfold checks_by_parts in Hchecks.
  destruct (encoded (canonical (VObject props))) as [gzByteArray|e] eqn:Henc;
    cbv beta iota in H; injection H as <- <-;
    change (VObject (remove "chars" (remove "fonts" (remove "markers"
              (put "tgs" (VNumber 1) props))))) with (canonical (VObject props)) in *;
    rewrite validate_run, validate_checks_parts, checks_canonical, Hgen;
    (destruct (frame_rate_off (VObject props)) as [c_fr|?];
       cbn [bind] in Hchecks |- *; [|discriminate]);
    (destruct (duration (VObject props)) as [q|?];
       cbn [bind] in Hchecks |- *; [|discriminate]);
    (destruct (dimensions_off (VObject props)) as [c_dim|?];
       cbn [bind] in Hchecks |- *; [|discriminate]);
    (destruct (three_d (VObject props)) as [c_ddd|?];
       cbn [bind] in Hchecks |- *; [|discriminate]);
    (destruct (HasProperty "markers" (VObject props)) as [c_markers|?];
       cbn [bind] in Hchecks |- *; [|discriminate]);
    (destruct (assets_errors (VObject props)) as [A|?];
       cbn [bind] in Hchecks |- *; [|discriminate]);
    (destruct (layers_errors (VObject props)) as [L|?];
       cbn [bind] in Hchecks |- *; [|discriminate]);
    (destruct (has_items "fonts" (VObject props)) as [c_fonts|?] eqn:Hf;
       cbn [bind] in Hchecks |- *; [|discriminate]);
    (destruct (has_items "chars" (VObject props)) as [c_chars|?] eqn:Hc;
       cbn [bind] in Hchecks |- *; [|discriminate]);
    injection Hchecks as <-;
    (eexists; split; [reflexivity|]); intros Hfonts Hchars; [|reflexivity].
  destruct c_fonts; [contradiction Hfonts; reflexivity|].
  destruct c_chars; [contradiction Hchars; reflexivity|].
  cbn [when app]. rewrite !app_nil_r. reflexivity.
Qed.

End Again.

(** The counterexample to C8 as stated: the first call reports the glyph
    chars and strips them, so the second call returns another sequence. *)
Lemma validate_again_differs :
  fst (TGSKit.validate (rt := Fixture.host) Fixture.sticker_with_chars) =
    Return [TGSKit.diagnostic "Should not have glyph chars"] /\
  fst (TGSKit.validate (rt := Fixture.host)
         (snd (TGSKit.validate (rt := Fixture.host) Fixture.sticker_with_chars))) =
    Return [].
Proof. split; reflexivity. Qed.

(** The witness of [validate_again]: the sticker of the fixture, which has
    neither fonts nor glyph chars. *)
Lemma validate_again_witness :
  TGSKit.validate (rt := Fixture.host) Fixture.sticker =
    (Return [], Checks.canonical Fixture.sticker) /\
  exists second,
    TGSKit.validate (rt := Fixture.host) (Checks.canonical Fixture.sticker) =
      (second, Checks.canonical Fixture.sticker) /\
    (has_items "fonts" Fixture.sticker <> Return true ->
     has_items "chars" Fixture.sticker <> Return true ->
     second = Return []).
Proof.
  split; [reflexivity|].
  apply (validate_again (rt := Fixture.host) Fixture.sticker
           (Checks.canonical Fixture.sticker) (Return [])).
  reflexivity.
Defined.

(** ** How deep the shape items are checked *)

Section Depth.
Context {rt : Runtime}.
Import TGSKit Checks Diagnostics WellFormed.

Lemma forEach_from_same {S} (f g : value -> nat -> S -> completion S) (l : list value) :
  (forall x, In x l -> forall i s, f x i s = g x i s) ->
  forall i s, forEach_from i l f s = forEach_from i l g s.
Proof.
  intros H i s. rewrite <- (map_id l) at 1. apply forEach_from_ext. assumption.
Qed.

(** [checkItems_body] calls [self] on [false] only. *)
Lemma checkItems_body_ext
    (f g : value -> value -> completion (list IValidationError))
    (items shapes : value) :
  (forall it, f it (VBoolean false) = g it (VBoolean false)) ->
  checkItems_body f items shapes = checkItems_body g items shapes.
Proof.
  intros Hfg. unfold checkItems_body.
  destruct (negb (nullish items)); [|reflexivity].
  destruct items as [| | | | |l|]; try reflexivity. simpl.
  apply forEach_from_same. intros item _ i s.
  destruct (Get item "ty") as [ty|?]; simpl; [|reflexivity].
  destruct (loose_eq_string ty "rp") as [?|?]; simpl; [|reflexivity].
  destruct (loose_eq_string ty "sr") as [?|?]; simpl; [|reflexivity].
  destruct (loose_eq_string ty "mm") as [?|?]; simpl; [|reflexivity].
  destruct (loose_eq_string ty "gs") as [?|?]; simpl; [|reflexivity].
  destruct (strict_eq_true shapes); [|reflexivity].
  destruct (Get item "it") as [it|?]; simpl; [|reflexivity].
  rewrite Hfg. reflexivity.
Qed.

(** [checkItems_body] on [false] does not call [self] at all. *)
Lemma checkItems_body_leaf
    (f g : value -> value -> completion (list IValidationError)) (items : value) :
  checkItems_body f items (VBoolean false) = checkItems_body g items (VBoolean false).
Proof.
  unfold checkItems_body.
  destruct (negb (nullish items)); [|reflexivity].
  destruct items as [| | | | |l|]; try reflexivity.
Qed.

(** [checkItems] is the function its source defines: it satisfies the
    recursive equation of the method. *)
Lemma checkItems_unfold (items shapes : value) :
  checkItems items shapes = checkItems_body checkItems items shapes.
Proof.
  unfold checkItems. apply checkItems_body_ext. intros it.
  apply checkItems_body_leaf.
Qed.

Lemma assoc_update (k key : string) (f : value -> value) (props : list (string * value)) :
  assoc k (map (fun kv => if String.eqb (fst kv) key then (fst kv, f (snd kv)) else kv)
             props) =
  if String.eqb key k then option_map f (assoc k props) else assoc k props.
Proof.
  induction props as [|[k0 x] props IH]; simpl.
  - destruct (String.eqb key k); reflexivity.
  - destruct (String.eqb k0 key) eqn:E0; simpl.
    + apply String.eqb_eq in E0. subst k0.
      destruct (String.eqb key k) eqn:E; simpl; [reflexivity|exact IH].
    + destruct (String.eqb k0 k) eqn:E1; simpl.
      * apply String.eqb_eq in E1. subst k0.
        rewrite String.eqb_sym, E0. reflexivity.
      * exact IH.
Qed.

Lemma Get_update_other (k key : string) (f : value -> value) (v : value) :
  String.eqb key k = false -> Get (update key f v) k = Get v k.
Proof.
  intros E. destruct v; try reflexivity. simpl. rewrite assoc_update, E. reflexivity.
Qed.

(** Reading the updated property, for an [f] that leaves [undefined] as it
    is. *)
Lemma Get_update_same (key : string) (f : value -> value) (v : value) :
  f VUndefined = VUndefined ->
  Get (update key f v) key = (x <- Get v key ;; Return (f x)).
Proof.
  intros Hf. destruct v; simpl; try (rewrite Hf; reflexivity); try reflexivity.
  rewrite assoc_update, String.eqb_refl.
  destruct (assoc key props); simpl; [reflexivity|]. rewrite Hf. reflexivity.
Qed.

Lemma HasProperty_update (k key : string) (f : value -> value) (v : value) :
  HasProperty k (update key f v) = HasProperty k v.
Proof.
  destruct v; try reflexivity. simpl. rewrite assoc_update.
  destruct (String.eqb key k); [|reflexivity]. destruct (assoc k props); reflexivity.
Qed.

Lemma has_array_update_other (k key : string) (f : value -> value) (v : value) :
  String.eqb key k = false -> has_array k (update key f v) = has_array k v.
Proof.
  intros E. unfold has_array. rewrite HasProperty_update, Get_update_other by assumption.
  reflexivity.
Qed.

Lemma has_items_update_other (k key : string) (f : value -> value) (v : value) :
  String.eqb key k = false -> has_items k (update key f v) = has_items k v.
Proof.
  intros E. unfold has_items.
  rewrite has_array_update_other, Get_update_other by assumption. reflexivity.
Qed.

Lemma has_array_update_each (key : string) (f : value -> value) (v : value) :
  has_array key (update key (each f) v) = has_array key v.
Proof.
  unfold has_array. rewrite HasProperty_update, Get_update_same by reflexivity.
  destruct (HasProperty key v) as [[|]|?]; simpl; try reflexivity.
  destruct (Get v key) as [x|?]; simpl; [|reflexivity]. destruct x; reflexivity.
Qed.

(** The shape items of a group are checked on their [ty] alone: what they
    hold under [it] is not read. *)
Lemma checkItems_leaf_update (f : value -> value) (items : value) :
  checkItems (each (update "it" f) items) (VBoolean false) =
  checkItems items (VBoolean false).
Proof.
  unfold checkItems, checkItems_body.
  destruct items as [| | | | |l|]; try reflexivity. simpl.
  apply forEach_from_ext. intros child _ i s.
  rewrite !Get_update_other by reflexivity. reflexivity.
Qed.

Lemma checkItems_root_update (f : value -> value) (shapes : value) :
  checkItems (each (update "it" (each (update "it" f))) shapes) (VBoolean true) =
  checkItems shapes (VBoolean true).
Proof.
  rewrite !checkItems_unfold. unfold checkItems_body.
  destruct shapes as [| | | | |l|]; try reflexivity. simpl.
  apply forEach_from_ext. intros item _ i s.
  rewrite !Get_update_other by reflexivity.
  rewrite Get_update_same by reflexivity.
  destruct (Get item "ty") as [ty|?]; simpl; [|reflexivity].
  destruct (loose_eq_string ty "rp") as [?|?]; simpl; [|reflexivity].
  destruct (loose_eq_string ty "sr") as [?|?]; simpl; [|reflexivity].
  destruct (loose_eq_string ty "mm") as [?|?]; simpl; [|reflexivity].
  destruct (loose_eq_string ty "gs") as [?|?]; simpl; [|reflexivity].
  destruct (Get item "it") as [it|?]; simpl; [|reflexivity].
  rewrite checkItems_leaf_update. reflexivity.
Qed.

Lemma checkLayer_update (f : value -> value) (layer : value) :
  checkLayer (update "shapes" (each (update "it" (each (update "it" f)))) layer) =
  checkLayer layer.
Proof.
  unfold checkLayer. hide_messages.
  rewrite has_array_update_each, !Get_update_other by reflexivity.
  rewrite Get_update_same by reflexivity.
  destruct (and_then _ _) as [?|?]; simpl; [|reflexivity].
  destruct (and_then _ _) as [?|?]; simpl; [|reflexivity].
  destruct (Get layer "tm") as [?|?]; simpl; [|reflexivity].
  destruct (Get layer "ty") as [?|?]; simpl; [|reflexivity].
  destruct (or_else _ _) as [?|?]; simpl; [|reflexivity].
  destruct (Get layer "tt") as [?|?]; simpl; [|reflexivity].
  destruct (Get layer "ao") as [?|?]; simpl; [|reflexivity].
  destruct (Get layer "ef") as [?|?]; simpl; [|reflexivity].
  destruct (has_array "shapes" layer) as [[|]|?]; simpl; try reflexivity.
  destruct (Get layer "shapes") as [shapes|?]; simpl; [|reflexivity].
  rewrite checkItems_root_update. reflexivity.
Qed.

(** What lies under [layers[i].shapes[j].it[k].it] has no part in the checks
    of [validate]. *)
Lemma validate_checks_regraft (f : value -> value) (data : value) :
  validate_checks (regraft f data) = validate_checks data.
Proof.
  rewrite !validate_checks_parts. unfold checks_by_parts, regraft.
  set (inner := update "shapes" _).
  assert (H1 : frame_rate_off (update "layers" (each inner) data) = frame_rate_off data).
  { unfold frame_rate_off. rewrite !Get_update_other by reflexivity. reflexivity. }
  assert (H2 : duration (update "layers" (each inner) data) = duration data).
  { unfold duration. rewrite !Get_update_other by reflexivity. reflexivity. }
  assert (H3 : dimensions_off (update "layers" (each inner) data) = dimensions_off data).
  { unfold dimensions_off. rewrite !Get_update_other by reflexivity. reflexivity. }
  assert (H4 : three_d (update "layers" (each inner) data) = three_d data).
  { unfold three_d. rewrite !Get_update_other by reflexivity. reflexivity. }
  assert (H5 : assets_errors (update "layers" (each inner) data) = assets_errors data).
  { unfold assets_errors.
    rewrite has_array_update_other, Get_update_other by reflexivity. reflexivity. }
  assert (H6 : layers_errors (update "layers" (each inner) data) = layers_errors data).
  { unfold layers_errors. rewrite has_array_update_each, Get_update_same by reflexivity.
    destruct (has_array "layers" data) as [[|]|?]; simpl; try reflexivity.
    destruct (Get data "layers") as [layers|?]; simpl; [|reflexivity].
    replace (layers_loop (each inner layers)) with (layers_loop layers); [reflexivity|].
    unfold layers_loop. destruct layers as [| | | | |l|]; try reflexivity. simpl.
    symmetry. apply forEach_from_ext. intros layer _ i [layersErrors pushes].
    unfold inner. rewrite checkLayer_update. reflexivity. }
  rewrite H1, H2, H3, H4, H5, H6, HasProperty_update,
    !has_items_update_other by reflexivity.
  reflexivity.
Qed.

(** A loop reaches a property of its state that the callback establishes on
    some item and keeps on every item. *)
Lemma forEach_from_reaches {S} (Q : S -> Prop)
    (callback : value -> nat -> S -> completion S) (l : list value) (x : value) :
  In x l ->
  (forall i s s', callback x i s = Return s' -> Q s') ->
  (forall y i s s', Q s -> callback y i s = Return s' -> Q s') ->
  forall i s s', forEach_from i l callback s = Return s' -> Q s'.
Proof.
  intros Hin Hx Hkeep. induction l as [|y l IH]; [contradiction|].
  intros i s s' H. simpl in H. unbind H. destruct Hin as [->|Hin].
  - apply (forEach_from_invariant Q callback l) with (3 := H).
    + intros z j t t' _. apply Hkeep.
    + eapply Hx; eassumption.
  - eapply IH; eassumption.
Qed.

Lemma nonempty_push (errors : list IValidationError) (e : IValidationError) :
  nonempty (push errors e) = true.
Proof. destruct errors; reflexivity. Qed.

Lemma has_array_of_Get (key : string) (v : value) (l : list value) :
  Get v key = Return (VArray l) -> has_array key v = Return true.
Proof.
  destruct v; simpl; try discriminate. unfold has_array. simpl.
  destruct (assoc key props); [|discriminate]. intros H. injection H as ->. reflexivity.
Qed.

Lemma In_cond_push (e x : IValidationError) (errors : list IValidationError) (c : bool) :
  In e errors -> In e (if c then push errors x else errors).
Proof.
  intros H. destruct c; [|assumption]. apply in_or_app. left. assumption.
Qed.

Lemma In_pushed (x : IValidationError) (errors : list IValidationError) :
  In x (push errors x).
Proof. apply in_or_app. right. left. reflexivity. Qed.

Lemma In_nonempty {A} (x : A) (l : list A) : In x l -> nonempty l = true.
Proof. destruct l; [contradiction|reflexivity]. Qed.

(** The four comparisons of the type of an item add the message of a
    prohibited type. *)
Lemma In_shape_whens (errors : list IValidationError) (ty msg : string) :
  shape_message ty = Some msg ->
  In (diagnostic msg)
    ((((errors ++
        when (String.eqb ty "rp") "Composition should not include any Repeaters") ++
       when (String.eqb ty "sr") "Composition should not include any Star Shapes") ++
      when (String.eqb ty "mm") "Composition should not include any Merge Paths") ++
     when (String.eqb ty "gs") "Composition should not include any Gradient Strokes")%list.
Proof.
  unfold shape_message. intros Hmsg. rewrite !in_app_iff.
  destruct (String.eqb ty "rp");
    [injection Hmsg as <-; left; left; left; right; left; reflexivity|].
  destruct (String.eqb ty "sr");
    [injection Hmsg as <-; left; left; right; left; reflexivity|].
  destruct (String.eqb ty "mm");
    [injection Hmsg as <-; left; right; left; reflexivity|].
  destruct (String.eqb ty "gs");
    [injection Hmsg as <-; right; left; reflexivity|discriminate].
Qed.

Lemma In_whens (e : IValidationError) (errors : list IValidationError)
    (c1 c2 c3 c4 : bool) (m1 m2 m3 m4 : string) :
  In e errors ->
  In e ((((errors ++ when c1 m1) ++ when c2 m2) ++ when c3 m3) ++ when c4 m4)%list.
Proof. intros H. rewrite !in_app_iff. auto. Qed.

(** The items of a group ([shapes === false]): the diagnostic of one of a
    prohibited type is in what [checkItems] returns. *)
Lemma checkItems_leaf_holds
    (self : value -> value -> completion (list IValidationError))
    (children : list value) (child : value) (ty msg : string)
    (errors : list IValidationError) :
  checkItems_body self (VArray children) (VBoolean false) = Return errors ->
  In child children ->
  Get child "ty" = Return (VString ty) ->
  shape_message ty = Some msg ->
  In (diagnostic msg) errors.
Proof.
  unfold checkItems_body. cbn [nullish negb forEach strict_eq_true].
  intros Hloop Hin Hty Hmsg.
  apply (forEach_from_reaches (fun e => In (diagnostic msg) e) _ _ child Hin)
    with (3 := Hloop).
  - intros i s s' H. rewrite Hty in H. cbn [bind loose_eq_string] in H.
    injection H as <-. rewrite !push_when. apply In_shape_whens. assumption.
  - intros y i s s' Hs H.
    unbind H. unbind H. unbind H. unbind H. unbind H. unbind H. unbind H. unbind H.
    injection H as <-. rewrite !push_when. apply In_whens. assumption.
Qed.

(** The items of a layer ([shapes === true]): the diagnostic of one of a
    prohibited type is in what [checkItems] returns. *)
Lemma checkItems_root_holds (shapes : list value) (item : value) (ty msg : string)
    (errors : list IValidationError) :
  checkItems (VArray shapes) (VBoolean true) = Return errors ->
  In item shapes ->
  Get item "ty" = Return (VString ty) ->
  shape_message ty = Some msg ->
  In (diagnostic msg) errors.
Proof.
  unfold checkItems, checkItems_body at 1. cbn [nullish negb forEach strict_eq_true].
  intros Hloop Hin Hty Hmsg.
  apply (forEach_from_reaches (fun e => In (diagnostic msg) e) _ _ item Hin)
    with (3 := Hloop).
  - intros i s s' H. rewrite Hty in H. cbn [bind loose_eq_string] in H.
    unbind H. unbind H. injection H as <-.
    apply In_cond_push. rewrite !push_when. apply In_shape_whens. assumption.
  - intros y i s s' Hs H.
    unbind H. unbind H. unbind H. unbind H. unbind H. unbind H. unbind H. unbind H.
    unbind H. unbind H. injection H as <-.
    apply In_cond_push. rewrite !push_when. apply In_whens. assumption.
Qed.

(** The items of a layer ([shapes === true]): what [checkItems] finds in the
    [it] of one of them is, when there is any, the details of a 'Composition
    items should not have errors' entry of what it returns. *)
Lemma checkItems_root_holds_nested (shapes : list value) (item : value)
    (errors : list IValidationError) :
  checkItems (VArray shapes) (VBoolean true) = Return errors ->
  In item shapes ->
  exists it itemErrors,
    Get item "it" = Return it /\
    checkItems it (VBoolean false) = Return itemErrors /\
    (nonempty itemErrors = true ->
     In (diagnostic_with "Composition items should not have errors" itemErrors) errors).
Proof.
  rewrite checkItems_unfold. unfold checkItems_body.
  cbn [nullish negb forEach strict_eq_true]. intros Hloop Hin.
  apply (forEach_from_reaches
           (fun e => exists it itemErrors,
                Get item "it" = Return it /\
                checkItems it (VBoolean false) = Return itemErrors /\
                (nonempty itemErrors = true ->
                 In (diagnostic_with "Composition items should not have errors"
                       itemErrors) e))
           _ _ item Hin) with (3 := Hloop).
  - intros i s s' H.
    unbind H. unbind H. unbind H. unbind H. unbind H. unbind H. unbind H. unbind H.
    unbind H. unbind H. injection H as <-.
    exists a7, a8. split; [assumption|]. split; [assumption|].
    intros ->. apply In_pushed.
  - intros y i s s' (it & itemErrors & Hit & Hitem & Hs) H.
    exists it, itemErrors. split; [assumption|]. split; [assumption|].
    intros Hne. specialize (Hs Hne).
    unbind H. unbind H. unbind H. unbind H. unbind H. unbind H. unbind H. unbind H.
    unbind H. unbind H. injection H as <-.
    apply In_cond_push. rewrite !push_when. apply In_whens. assumption.
Qed.

(** What [checkItems] finds in the [shapes] of a layer is, when there is any,
    the details of a 'Composition shapes should not have errors' entry of what
    [checkLayer] returns. *)
Lemma checkLayer_holds_nested (layer : value) (shapes : list value)
    (errors : list IValidationError) :
  checkLayer layer = Return errors ->
  Get layer "shapes" = Return (VArray shapes) ->
  exists shapesErrors,
    checkItems (VArray shapes) (VBoolean true) = Return shapesErrors /\
    (nonempty shapesErrors = true ->
     In (diagnostic_with "Composition shapes should not have errors" shapesErrors)
       errors).
Proof.
  unfold checkLayer. intros H Hshapes. hide_messages.
  rewrite (has_array_of_Get _ _ _ Hshapes), Hshapes in H.
  unbind H. unbind H. unbind H. unbind H. unbind H. unbind H. unbind H. unbind H.
  unbind H. unbind H. simpl in H. unbind H. injection H as <-.
  eexists. split; [eassumption|]. intros ->. apply In_pushed.
Qed.

(** What [checkLayer] finds in a layer of the document is, when there is any,
    the details of a 'Layer ' entry of what the loop over the layers collects,
    and that loop pushes to [errors]. *)
Lemma layers_loop_holds_nested (layers : list value) (layer : value)
    (r : list IValidationError * nat) :
  layers_loop (VArray layers) = Return r ->
  In layer layers ->
  exists layerErrors,
    checkLayer layer = Return layerErrors /\
    (nonempty layerErrors = true ->
     In (diagnostic_with "Layer " layerErrors) (fst r) /\ 0 < snd r).
Proof.
  unfold layers_loop. cbn [forEach]. intros Hloop Hin.
  apply (forEach_from_reaches
           (fun st : list IValidationError * nat =>
              exists layerErrors,
                checkLayer layer = Return layerErrors /\
                (nonempty layerErrors = true ->
                 In (diagnostic_with "Layer " layerErrors) (fst st) /\ 0 < snd st))
           _ _ layer Hin) with (3 := Hloop).
  - intros i [layersErrors pushes] s' H. unbind H. injection H as <-.
    exists a. split; [assumption|]. intros Hne. rewrite Hne. cbn [fst snd].
    rewrite nonempty_push. split; [apply In_pushed|lia].
  - intros y i [layersErrors pushes] s' (layerErrors & Hlayer & Hs) H.
    exists layerErrors. split; [assumption|]. intros Hne.
    destruct (Hs Hne) as [Hin' Hpos]. cbn [fst snd] in Hin', Hpos.
    unbind H. injection H as <-. cbn [fst snd].
    split; [apply In_cond_push; assumption|].
    match goal with |- 0 < (if ?c then _ else _) => destruct c end; lia.
Qed.

(** What [checkLayer] finds in a layer of the document is, when there is any,
    in what a returning [validate] returns: as the details of a 'Layer '
    entry, itself in the details of a 'Layers have errors' entry. *)
Lemma validate_holds_nested (data data' : value)
    (errors : list IValidationError) (layers : list value) (layer : value) :
  validate data = (Return errors, data') ->
  Get data "layers" = Return (VArray layers) ->
  In layer layers ->
  exists layerErrors,
    checkLayer layer = Return layerErrors /\
    (nonempty layerErrors = true ->
     exists all,
       In (diagnostic_with "Layers have errors" all) errors /\
       In (diagnostic_with "Layer " layerErrors) all).
Proof.
  intros H Hlayers Hin.
  destruct (validate_Return _ _ _ H)
    as (c_fr & dq & c_dim & c_ddd & A & L & c_fonts & c_chars & blob &
        _ & _ & _ & _ & _ & HL & _ & _ & _ & ->).
  unfold layers_errors in HL.
  rewrite (has_array_of_Get _ _ _ Hlayers), Hlayers in HL. cbn [bind] in HL.
  unbind HL. injection HL as <-.
  destruct (layers_loop_holds_nested _ _ _ Ha Hin) as (layerErrors & Hlayer & Hnest).
  exists layerErrors. split; [assumption|]. intros Hne.
  destruct (Hnest Hne) as [Hin' Hpos].
  exists (fst a). split; [|assumption].
  do 5 (apply in_or_app; right). apply in_or_app; left.
  destruct (snd a) as [|n]; [lia|]. left. reflexivity.
Qed.

(** An asset's layers are handed to [checkLayer] as a list, and a list has
    none of the properties of a layer: what the layers of an asset hold has
    no part in the checks of [validate]. *)
Lemma validate_checks_relayer (f : value -> value) (data : value) :
  validate_checks (relayer f data) = validate_checks data.
Proof.
  rewrite !validate_checks_parts. unfold checks_by_parts, relayer.
  set (inner := update "layers" (each f)).
  assert (H1 : frame_rate_off (update "assets" (each inner) data) = frame_rate_off data).
  { unfold frame_rate_off. rewrite !Get_update_other by reflexivity. reflexivity. }
  assert (H2 : duration (update "assets" (each inner) data) = duration data).
  { unfold duration. rewrite !Get_update_other by reflexivity. reflexivity. }
  assert (H3 : dimensions_off (update "assets" (each inner) data) = dimensions_off data).
  { unfold dimensions_off. rewrite !Get_update_other by reflexivity. reflexivity. }
  assert (H4 : three_d (update "assets" (each inner) data) = three_d data).
  { unfold three_d. rewrite !Get_update_other by reflexivity. reflexivity. }
  assert (H5 : layers_errors (update "assets" (each inner) data) = layers_errors data).
  { unfold layers_errors.
    rewrite has_array_update_other, Get_update_other by reflexivity. reflexivity. }
  assert (H6 : assets_errors (update "assets" (each inner) data) = assets_errors data).
  { unfold assets_errors. rewrite has_array_update_each, Get_update_same by reflexivity.
    destruct (has_array "assets" data) as [[|]|?]; cbn [bind]; try reflexivity.
    destruct (Get data "assets") as [assets|?]; cbn [bind]; [|reflexivity].
    replace (assets_loop (each inner assets)) with (assets_loop assets); [reflexivity|].
    unfold assets_loop. destruct assets as [| | | | |l|]; try reflexivity.
    cbn [each forEach]. symmetry. apply forEach_from_ext. intros asset _ i s.
    unfold inner. rewrite has_array_update_each, Get_update_same by reflexivity.
    destruct (has_array "layers" asset) as [[|]|?] eqn:Harr; cbn [bind]; try reflexivity.
    apply has_array_true in Harr as (ls & ->). cbn [bind each].
    rewrite !checkLayer_array. reflexivity. }
  rewrite H1, H2, H3, H4, H5, H6, HasProperty_update,
    !has_items_update_other by reflexivity.
  reflexivity.
Qed.

(** C5, as the code has it.  [checkItems] calls itself on the [it] of the
    items of a layer's [shapes], and on nothing below; and [validate] checks
    the layers of the document's [layers] list, not those of an asset.  So
    when [validate] returns, a shape item of a prohibited type in a layer of
    the document is reported when it is an item of the layer's [shapes]
    ([shapes[j]]): its diagnostic is in the details of the layer's
    'Composition shapes should not have errors' entry; and also when it is an
    item of the [it] of one of them ([shapes[j].it[k]]): its diagnostic is in
    the details of a 'Composition items should not have errors' entry, itself
    in the details of that entry of the layer.  What lies under the [it] of
    the latter ([shapes[j].it[k].it] and below) is never read: putting
    anything there leaves every check of [validate] as it was.  And so does
    putting anything in the place of a layer of an asset: no shape item there
    is reported. *)
Theorem checkItems_one_level :
  (forall data data' errors layers layer shapes item ty msg,
     validate data = (Return errors, data') ->
     Get data "layers" = Return (VArray layers) -> In layer layers ->
     Get layer "shapes" = Return (VArray shapes) -> In item shapes ->
     Get item "ty" = Return (VString ty) ->
     shape_message ty = Some msg ->
     exists all layerErrors shapesErrors,
       In (diagnostic_with "Layers have errors" all) errors /\
       In (diagnostic_with "Layer " layerErrors) all /\
       In (diagnostic_with "Composition shapes should not have errors" shapesErrors)
         layerErrors /\
       In (diagnostic msg) shapesErrors) /\
  (forall data data' errors layers layer shapes item children child ty msg,
     validate data = (Return errors, data') ->
     Get data "layers" = Return (VArray layers) -> In layer layers ->
     Get layer "shapes" = Return (VArray shapes) -> In item shapes ->
     Get item "it" = Return (VArray children) -> In child children ->
     Get child "ty" = Return (VString ty) ->
     shape_message ty = Some msg ->
     exists all layerErrors shapesErrors itemErrors,
       In (diagnostic_with "Layers have errors" all) errors /\
       In (diagnostic_with "Layer " layerErrors) all /\
       In (diagnostic_with "Composition shapes should not have errors" shapesErrors)
         layerErrors /\
       In (diagnostic_with "Composition items should not have errors" itemErrors)
         shapesErrors /\
       In (diagnostic msg) itemErrors) /\
  (forall f data, validate_checks (regraft f data) = validate_checks data) /\
  (forall f data, validate_checks (relayer f data) = validate_checks data).
Proof.
  split; [|split; [|split]].
  - intros data data' errors layers layer shapes item ty msg
      H Hlayers Hlayer Hshapes Hitem Hty Hmsg.
    destruct (validate_holds_nested _ _ _ _ _ H Hlayers Hlayer)
      as (layerErrors & HcheckLayer & Hnest1).
    destruct (checkLayer_holds_nested _ _ _ HcheckLayer Hshapes)
      as (shapesErrors & HcheckItems & Hnest2).
    pose proof (checkItems_root_holds _ _ _ _ _ HcheckItems Hitem Hty Hmsg) as Hflag.
    pose proof (Hnest2 (In_nonempty _ _ Hflag)) as Hin2.
    destruct (Hnest1 (In_nonempty _ _ Hin2)) as (all & Hin0 & Hin1).
    exists all, layerErrors, shapesErrors. auto.
  - intros data data' errors layers layer shapes item children child ty msg
      H Hlayers Hlayer Hshapes Hitem Hit Hchild Hty Hmsg.
    destruct (validate_holds_nested _ _ _ _ _ H Hlayers Hlayer)
      as (layerErrors & HcheckLayer & Hnest1).
    destruct (checkLayer_holds_nested _ _ _ HcheckLayer Hshapes)
      as (shapesErrors & HcheckItems & Hnest2).
    destruct (checkItems_root_holds_nested _ _ _ HcheckItems Hitem)
      as (it & itemErrors & Hit' & Hleaf & Hnest3).
    rewrite Hit in Hit'. injection Hit' as <-.
    assert (Hflag : In (diagnostic msg) itemErrors)
      by (eapply checkItems_leaf_holds; eassumption).
    pose proof (Hnest3 (In_nonempty _ _ Hflag)) as Hin3.
    pose proof (Hnest2 (In_nonempty _ _ Hin3)) as Hin2.
    destruct (Hnest1 (In_nonempty _ _ Hin2)) as (all & Hin0 & Hin1).
    exists all, layerErrors, shapesErrors, itemErrors. auto.
  - apply validate_checks_regraft.
  - apply validate_checks_relayer.
Qed.

End Depth.

(** The counterexample to C5 as stated: a repeater at [shapes[0].it[0]] is
    flagged. *)
Lemma validate_flags_group_item :
  fst (TGSKit.validate (rt := Fixture.host)
         (Fixture.document 0 90
            [Fixture.shape_layer [Fixture.group [Fixture.shape "rp"]]])) =
  Return
    [TGSKit.diagnostic_with "Layers have errors"
       [TGSKit.diagnostic_with "Layer "
          [TGSKit.diagnostic_with "Composition shapes should not have errors"
             [TGSKit.diagnostic_with "Composition items should not have errors"
                [TGSKit.diagnostic "Composition should not include any Repeaters"]]]]].
Proof. reflexivity. Qed.

(** The witness of [checkItems_one_level]: the repeater at [shapes[0].it[0]]
    of a layer of the document is reported, nested under 'Composition items
    should not have errors'; the one at [shapes[0].it[0].it[0]] is not, and
    neither is the one in a layer of an asset. *)
Lemma checkItems_one_level_witness :
  TGSKit.validate (rt := Fixture.host)
    (Fixture.document 0 90 [Fixture.shape_layer [Fixture.group [Fixture.shape "rp"]]]) =
    (Return
       [TGSKit.diagnostic_with "Layers have errors"
          [TGSKit.diagnostic_with "Layer "
             [TGSKit.diagnostic_with "Composition shapes should not have errors"
                [TGSKit.diagnostic_with "Composition items should not have errors"
                   [TGSKit.diagnostic "Composition should not include any Repeaters"]]]]],
     Checks.canonical
       (Fixture.document 0 90
          [Fixture.shape_layer [Fixture.group [Fixture.shape "rp"]]])) /\
  (exists all layerErrors shapesErrors itemErrors,
     In (TGSKit.diagnostic_with "Layers have errors" all)
       [TGSKit.diagnostic_with "Layers have errors"
          [TGSKit.diagnostic_with "Layer "
             [TGSKit.diagnostic_with "Composition shapes should not have errors"
                [TGSKit.diagnostic_with "Composition items should not have errors"
                   [TGSKit.diagnostic "Composition should not include any Repeaters"]]]]] /\
     In (TGSKit.diagnostic_with "Layer " layerErrors) all /\
     In (TGSKit.diagnostic_with "Composition shapes should not have errors" shapesErrors)
       layerErrors /\
     In (TGSKit.diagnostic_with "Composition items should not have errors" itemErrors)
       shapesErrors /\
     In (TGSKit.diagnostic "Composition should not include any Repeaters") itemErrors) /\
  TGSKit.validate_checks (rt := Fixture.host)
    (Fixture.document 0 90
       [Fixture.shape_layer [Fixture.group [Fixture.group [Fixture.shape "rp"]]]]) =
  Return [] /\
  TGSKit.validate_checks (rt := Fixture.host)
    (Fixture.document_with_asset_layers
       [Fixture.shape_layer [Fixture.group [Fixture.shape "rp"]]]) =
  Return [].
Proof.
  assert (H : TGSKit.validate (rt := Fixture.host)
                (Fixture.document 0 90
                   [Fixture.shape_layer [Fixture.group [Fixture.shape "rp"]]]) =
              (Return
                 [TGSKit.diagnostic_with "Layers have errors"
                    [TGSKit.diagnostic_with "Layer "
                       [TGSKit.diagnostic_with "Composition shapes should not have errors"
                          [TGSKit.diagnostic_with "Composition items should not have errors"
                             [TGSKit.diagnostic
                                "Composition should not include any Repeaters"]]]]],
               Checks.canonical
                 (Fixture.document 0 90
                    [Fixture.shape_layer [Fixture.group [Fixture.shape "rp"]]])))
    by (vm_compute; reflexivity).
  split; [exact H|]. split; [|split].
  - apply (proj1 (proj2 (checkItems_one_level (rt := Fixture.host)))
             _ _ _
             [Fixture.shape_layer [Fixture.group [Fixture.shape "rp"]]]
             (Fixture.shape_layer [Fixture.group [Fixture.shape "rp"]])
             [Fixture.group [Fixture.shape "rp"]]
             (Fixture.group [Fixture.shape "rp"])
             [Fixture.shape "rp"]
             (Fixture.shape "rp")
             "rp" _ H);
      first [reflexivity | left; reflexivity].
  - change (Fixture.document 0 90
              [Fixture.shape_layer [Fixture.group [Fixture.group [Fixture.shape "rp"]]]])
      with (WellFormed.regraft (fun _ => VArray [Fixture.shape "rp"])
              (Fixture.document 0 90
                 [Fixture.shape_layer
                    [Fixture.group
                       [VObject [("ty", VString "gr"); ("it", VUndefined)]]]])).
    rewrite (proj1 (proj2 (proj2 (checkItems_one_level (rt := Fixture.host))))).
    reflexivity.
  - change (Fixture.document_with_asset_layers
              [Fixture.shape_layer [Fixture.group [Fixture.shape "rp"]]])
      with (WellFormed.relayer
              (fun _ => Fixture.shape_layer [Fixture.group [Fixture.shape "rp"]])
              (Fixture.document_with_asset_layers [VNull])).
    rewrite (proj2 (proj2 (proj2 (checkItems_one_level (rt := Fixture.host))))).
    reflexivity.
Defined.

(** ** The flat diagnostics and the findings on layers *)

Section Flat.
Context {rt : Runtime}.
Import TGSKitFlat.

Lemma In_push (P : string -> Prop) (errors : list string) (c : bool) (m : string) :
  P m -> (forall x, In x errors -> P x) ->
  forall x, In x (if c then push errors m else errors) -> P x.
Proof.
  intros Hm He x Hx. destruct c; [|auto]. unfold push in Hx.
  apply in_app_or in Hx as [Hx|[<-|[]]]; auto.
Qed.

(** Whatever [checkLayer] finds, [validate] returns messages of its
    document-level checks only: the arrays that [errors.concat] builds are
    dropped. *)
Lemma flat_validate_messages (data : value) (errors : list string) :
  validate data = Return errors ->
  forall m, In m errors -> In m flat_document_messages.
Proof.
  unfold validate. intros H.
  unbind H. unbind H. unbind H. unbind H. unbind H. unbind H. unbind H. unbind H.
  unbind H. unbind H. unbind H. unbind H. injection H as <-.
  match type of Ha8 with
  | (if _ then _ else Return ?e) = _ =>
      assert (H0 : forall m, In m e -> In m flat_document_messages)
        by (repeat apply In_push; simpl; tauto)
  end.
  assert (H1 : forall m, In m a8 -> In m flat_document_messages).
  { destruct a7.
    - unbind Ha8. destruct a7; try discriminate. simpl in Ha8.
      apply (forEach_from_invariant
               (fun e => forall m, In m e -> In m flat_document_messages) _ _)
        with (3 := Ha8); [|assumption].
      intros asset i s s' _ Hs H. unbind H. unbind H. injection H as <-. assumption.
    - injection Ha8 as <-. assumption. }
  destruct a9.
  - unbind Ha10. destruct a9; try discriminate. simpl in Ha10.
    apply (forEach_from_invariant
             (fun e => forall m, In m e -> In m flat_document_messages) _ _)
      with (3 := Ha10); [|assumption].
    intros layer i s s' _ Hs H. unbind H. injection H as <-. assumption.
  - injection Ha10 as <-.
    apply (In_push (fun m => In m flat_document_messages) a8 true);
      [simpl; tauto|assumption].
Qed.

(** C6 on [src/TGSKit.ts]: on every host, [checkLayer] finds the solid layer,
    and [validate] returns no diagnostic for the document that holds it. *)
Theorem flat_validate_drops_layer_findings :
  checkLayer Fixture.solid_layer =
    Return ["Composition should not include any Solids"] /\
  validate (Fixture.document 0 90 [Fixture.solid_layer]) = Return [].
Proof. split; reflexivity. Qed.

End Flat.

(** The class with nested diagnostics reports the solid layer of a document,
    and misses the one of an asset: the loop over the assets hands the list
    of layers to [checkLayer]. *)
Lemma validate_misses_asset_layers :
  fst (TGSKit.validate (rt := Fixture.host)
         (Fixture.document 0 90 [Fixture.solid_layer])) =
    Return
      [TGSKit.diagnostic_with "Layers have errors"
         [TGSKit.diagnostic_with "Layer "
            [TGSKit.diagnostic "Composition should not include any Solids"]]] /\
  fst (TGSKit.validate (rt := Fixture.host) Fixture.document_with_solid_asset) =
    Return [].
Proof. split; reflexivity. Qed.

(** ** The counterexamples on any host *)

(** The counterexamples above run on the host of the fixture.  They do not
    depend on it: the checks that decide them read Numbers and literal
    strings only, and come before the blob is generated. *)
Section AnyHost.
Context {rt : Runtime}.
Import TGSKit.

Lemma validate_throws_on_any_host :
  validate (Fixture.document 0 90 [VNull]) =
    (Throw TypeError, Fixture.document 0 90 [VNull]) /\
  validate
    (Fixture.document 0 90
       [Fixture.shape_layer [VObject [("ty", VString "gr"); ("it", VObject [])]]]) =
    (Throw TypeError,
     Fixture.document 0 90
       [Fixture.shape_layer [VObject [("ty", VString "gr"); ("it", VObject [])]]]).
Proof. split; reflexivity. Qed.

Lemma validate_flags_group_item_on_any_host :
  validate_checks
    (Fixture.document 0 90 [Fixture.shape_layer [Fixture.group [Fixture.shape "rp"]]]) =
  Return
    [diagnostic_with "Layers have errors"
       [diagnostic_with "Layer "
          [diagnostic_with "Composition shapes should not have errors"
             [diagnostic_with "Composition items should not have errors"
                [diagnostic "Composition should not include any Repeaters"]]]]].
Proof. reflexivity. Qed.

Lemma validate_accepts_markers_on_any_host :
  validate_checks Fixture.sticker_with_markers = Return [].
Proof. reflexivity. Qed.

Lemma validate_again_differs_on_any_host :
  validate_checks Fixture.sticker_with_chars =
    Return [diagnostic "Should not have glyph chars"] /\
  validate_checks (Checks.canonical Fixture.sticker_with_chars) = Return [].
Proof. split; reflexivity. Qed.

End AnyHost.

(** * Further properties *)

(** ** The other document-level checks *)

Section DocumentChecks.
Context {rt : Runtime}.
Import TGSKit Checks Diagnostics WellFormed.

(** A returning [validate] ran on an object or an array. *)
Lemma validate_Return_object (data data' : value) (errors : list IValidationError) :
  validate data = (Return errors, data') ->
  is_object data = true /\ data' = canonical data.
Proof.
  intros H.
  destruct (validate_Return _ _ _ H)
    as (c_fr & q & c_dim & c_ddd & A & L & c_fonts & c_chars & blob &
        _ & _ & _ & _ & _ & _ & _ & _ & Hgen & _).
  eapply generate_Return. eassumption.
Qed.

(** [validate] includes 'Dimensions should be exactly 512pxx512px' if and only
    if [w != 512 || h != 512]: for Numbers, when one of them differs from 512;
    and always when [w] or [h] is missing. *)
Theorem validate_dimensions (data data' : value) (errors : list IValidationError) :
  validate data = (Return errors, data') ->
  (forall w h,
     Get data "w" = Return (VNumber w) ->
     Get data "h" = Return (VNumber h) ->
     (includes dimensions_message errors = true <->
      PrimFloat.eqb w 512%float = false \/ PrimFloat.eqb h 512%float = false)) /\
  (Get data "w" = Return VUndefined \/ Get data "h" = Return VUndefined ->
   includes dimensions_message errors = true).
Proof.
  intros H.
  destruct (validate_Return _ _ _ H)
    as (c_fr & q & c_dim & c_ddd & A & L & c_fonts & c_chars & blob &
        _ & _ & Hdim & _ & HA & HL & _ & _ & _ & ->).
  rewrite (includes_document_level dimensions_message _ _ _ _ _ _ _ _ _ _ HA HL)
    by reflexivity.
  cbn [dimensions_message String.eqb Ascii.eqb Bool.eqb andb].
  rewrite !andb_false_r, !orb_false_r, andb_true_r, orb_false_l.
  unfold dimensions_off, or_else, loose_neq_number in Hdim. split.
  - intros w h Hw Hh. rewrite Hw, Hh in Hdim. simpl in Hdim.
    destruct (PrimFloat.eqb w 512); simpl in Hdim; injection Hdim as <-.
    + destruct (PrimFloat.eqb h 512); simpl; intuition congruence.
    + intuition congruence.
  - intros [Hw|Hh].
    + rewrite Hw in Hdim. simpl in Hdim. injection Hdim as <-. reflexivity.
    + rewrite Hh in Hdim. simpl in Hdim.
      destruct (bind (Get data "w") _) as [[|]|]; simpl in Hdim;
        congruence.
Qed.

(** [validate] includes 'Should not have 3D layers' if and only if
    [ddd != null && ddd != 0]: never when [ddd] is missing or [null], and for
    a Number when it is not 0. *)
Theorem validate_three_d (data data' : value) (errors : list IValidationError)
    (ddd : value) :
  validate data = (Return errors, data') ->
  Get data "ddd" = Return ddd ->
  (includes "Should not have 3D layers" errors = true <->
   nullish ddd = false /\ loose_eq_number ddd 0%float = Return false) /\
  (forall n, ddd = VNumber n ->
   (includes "Should not have 3D layers" errors = true <->
    PrimFloat.eqb n 0%float = false)).
Proof.
  intros H Hddd.
  destruct (validate_Return _ _ _ H)
    as (c_fr & q & c_dim & c_ddd & A & L & c_fonts & c_chars & blob &
        _ & _ & _ & H3 & HA & HL & _ & _ & _ & ->).
  rewrite (includes_document_level "Should not have 3D layers"
             _ _ _ _ _ _ _ _ _ _ HA HL) by reflexivity.
  cbn [String.eqb Ascii.eqb Bool.eqb andb].
  rewrite !andb_false_r, !orb_false_r, andb_true_r, orb_false_l.
  unfold three_d, and_then, loose_neq_number in H3. rewrite Hddd in H3. simpl in H3.
  assert (Hiff : c_ddd = true <->
                 nullish ddd = false /\ loose_eq_number ddd 0%float = Return false).
  { destruct (nullish ddd); simpl in H3.
    - injection H3 as <-. intuition congruence.
    - destruct (loose_eq_number ddd 0) as [b|]; simpl in H3; [|discriminate].
      injection H3 as <-. destruct b; simpl; intuition congruence. }
  split; [exact Hiff|].
  intros n ->. rewrite Hiff. simpl. rewrite Return_inj. intuition.
Qed.

Lemma has_items_true (key : string) (data : value) (c : bool) :
  has_items key data = Return c ->
  (c = true <-> exists x l, Get data key = Return (VArray (x :: l))).
Proof.
  unfold has_items, has_array, and_then. intros H.
  destruct (HasProperty key data) as [has|] eqn:Hhas; simpl in H; [|discriminate].
  destruct data; simpl in Hhas; try discriminate.
  - injection Hhas as <-. simpl in H. injection H as <-.
    split; [discriminate|]. intros (x & l & Hx). discriminate.
  - injection Hhas as <-. simpl in *.
    destruct (assoc key props) as [v|]; simpl in H.
    + destruct v as [| | | | |[|x l]|]; simpl in H; injection H as <-;
        split; try discriminate; try (intros (y & l' & Hy); discriminate);
        try reflexivity.
      intros _. eauto.
    + injection H as <-. split; [discriminate|]. intros (x & l & Hx). discriminate.
Qed.

(** [validate] includes 'Should not have fonts' if and only if [fonts] is a
    list with an item, and 'Should not have glyph chars' if and only if
    [chars] is one: an empty list, and a [fonts] or [chars] that is no list
    (as the [{list: [...]}] object of a Bodymovin export), pass. *)
Theorem validate_fonts_chars (data data' : value) (errors : list IValidationError) :
  validate data = (Return errors, data') ->
  (includes "Should not have fonts" errors = true <->
   exists x l, Get data "fonts" = Return (VArray (x :: l))) /\
  (includes "Should not have glyph chars" errors = true <->
   exists x l, Get data "chars" = Return (VArray (x :: l))).
Proof.
  intros H.
  destruct (validate_Return _ _ _ H)
    as (c_fr & q & c_dim & c_ddd & A & L & c_fonts & c_chars & blob &
        _ & _ & _ & _ & HA & HL & Hf & Hc & _ & ->).
  rewrite (includes_document_level "Should not have fonts"
             _ _ _ _ _ _ _ _ _ _ HA HL) by reflexivity.
  rewrite (includes_document_level "Should not have glyph chars"
             _ _ _ _ _ _ _ _ _ _ HA HL) by reflexivity.
  cbn [String.eqb Ascii.eqb Bool.eqb andb].
  rewrite !andb_false_r, !orb_false_r, !andb_true_r, !orb_false_l.
  split; [apply (has_items_true _ _ _ Hf) | apply (has_items_true _ _ _ Hc)].
Qed.

(** [validate] includes 'Should have atleast 1 layer' if and only if [layers]
    is no list.  An empty list of layers passes: it gets neither this
    diagnostic nor 'Layers have errors'. *)
Theorem validate_layers_list (data data' : value) (errors : list IValidationError) :
  validate data = (Return errors, data') ->
  (includes layers_message errors = true <->
   forall layers, Get data "layers" <> Return (VArray layers)) /\
  (Get data "layers" = Return (VArray []) ->
   includes layers_message errors = false /\
   includes "Layers have errors" errors = false).
Proof.
  intros H.
  destruct (validate_Return _ _ _ H)
    as (c_fr & q & c_dim & c_ddd & A & L & c_fonts & c_chars & blob &
        _ & _ & _ & _ & HA & HL & _ & _ & _ & ->).
  apply assets_errors_nil in HA as ->.
  assert (Hwhen : forall m c m', String.eqb m' m = false -> includes m (when c m') = false).
  { intros m c m' E. rewrite includes_when, E. apply andb_false_r. }
  assert (Hsum : forall m,
             String.eqb "Frame rate must be exactly 30 or 60" m = false ->
             String.eqb "Should not be longer than 3 seconds" m = false ->
             String.eqb "Dimensions should be exactly 512pxx512px" m = false ->
             String.eqb "Should not have 3D layers" m = false ->
             String.eqb "Should not have fonts" m = false ->
             String.eqb "Should not have glyph chars" m = false ->
             String.eqb "Total sticker size should not exceed 64 KB" m = false ->
             includes m
               (when c_fr "Frame rate must be exactly 30 or 60" ++
                when (greater q 3) "Should not be longer than 3 seconds" ++
                when c_dim "Dimensions should be exactly 512pxx512px" ++
                when c_ddd "Should not have 3D layers" ++
                [] ++ L ++
                when c_fonts "Should not have fonts" ++
                when c_chars "Should not have glyph chars" ++
                when (65536 <? size blob)%Z
                  "Total sticker size should not exceed 64 KB") =
             includes m L).
  { intros m E1 E2 E3 E4 E5 E6 E7. rewrite !includes_app, !Hwhen by assumption.
    simpl. rewrite !orb_false_r. reflexivity. }
  rewrite !Hsum by reflexivity.
  unfold layers_errors in HL.
  destruct (has_array "layers" data) as [[|]|] eqn:Harr; cbn [bind] in HL;
    [| |discriminate HL].
  - apply has_array_true in Harr as (layers & Hl). rewrite Hl in HL. cbn [bind] in HL.
    destruct (layers_loop (VArray layers)) as [r|] eqn:Hloop; cbn [bind] in HL;
      [|discriminate HL].
    injection HL as <-.
    assert (Hno : forall m, String.eqb "Layers have errors" m = false ->
              includes m (repeat (diagnostic_with "Layers have errors" (fst r)) (snd r))
              = false).
    { intros m E. apply includes_none. intros e He. apply repeat_spec in He.
      subst e. exact E. }
    split.
    + rewrite Hno by reflexivity. split; [discriminate|].
      intros Hnone. destruct (Hnone _ Hl).
    + intros Hempty. rewrite Hl in Hempty. injection Hempty as ->.
      unfold layers_loop in Hloop. simpl in Hloop. injection Hloop as <-.
      split; reflexivity.
  - injection HL as <-. split.
    + split; [|reflexivity]. intros _ layers Hl.
      rewrite (has_array_of_Get _ _ _ Hl) in Harr. discriminate.
    + intros Hl. rewrite (has_array_of_Get _ _ _ Hl) in Harr. discriminate.
Qed.

(** [validate] reports nothing about the assets: neither 'Assets must not
    have errors' nor, at any depth, a message 'Asset ... has errors'.  (The
    loop over the assets hands each asset's list of layers to [checkLayer],
    which reads the properties of a layer off the list and finds none.) *)
Theorem validate_never_reports_assets (data data' : value)
    (errors : list IValidationError) :
  validate data = (Return errors, data') ->
  includes "Assets must not have errors" errors = false /\
  reports (String.prefix "Asset ") errors = false.
Proof.
  intros H. split.
  - destruct (validate_Return _ _ _ H)
      as (c_fr & q & c_dim & c_ddd & A & L & c_fonts & c_chars & blob &
          _ & _ & _ & _ & HA & HL & _ & _ & _ & ->).
    apply assets_errors_nil in HA as ->.
    rewrite !includes_app, !includes_when. simpl.
    rewrite !andb_false_r, !orb_false_r. simpl.
    apply includes_none. intros e He.
    destruct (layers_errors_message _ _ HL e He) as [-> | ->]; reflexivity.
  - apply (validate_clean (String.prefix "Asset ")) with (2 := H).
    intros m Hm. simpl in Hm.
    repeat (destruct Hm as [<-|Hm]; [reflexivity|]). contradiction.
Qed.

End DocumentChecks.

(** ** The rules on a layer *)

Section LayerRules.
Context {rt : Runtime}.
Import TGSKit Checks Diagnostics WellFormed Findings.


(** What a returning [checkLayer] returns: the messages of the rules that
    the layer breaks, in the order of the checks, then what was found in its
    shapes. *)
Lemma checkLayer_Return (layer : value) (errors : list IValidationError) :
  checkLayer layer = Return errors ->
  exists c_ddd c_sr from_shapes,
    (c_ddd = true <->
     nullish (prop "ddd" layer) = false /\
     loose_eq_number (prop "ddd" layer) 0%float = Return false) /\
    (c_sr = true <->
     nullish (prop "sr" layer) = false /\
     loose_eq_number (prop "sr" layer) 1%float = Return false) /\
    (forall e, In e from_shapes ->
       message e = "Composition shapes should not have errors") /\
    errors =
      (when c_ddd "Composition should not include any 3D Layers" ++
       when c_sr "Composition should not include any Time Stretching" ++
       when (negb (nullish (prop "tm" layer)))
         "Composition should not include any Time Remapping" ++
       when (strict_eq_number (prop "ty" layer) 1%float)
         "Composition should not include any Solids" ++
       when (strict_eq_number (prop "ty" layer) 2%float)
         "Composition should not include any Images" ++
       when (strict_eq_number (prop "ty" layer) 5%float)
         "Composition should not include any Texts" ++
       when (strict_eq_true (prop "hasMask" layer) ||
             negb (nullish (prop "masksProperties" layer)))
         "Composition should not include any Masks" ++
       when (negb (nullish (prop "tt" layer)))
         "Composition should not include any Mattes" ++
       when (strict_eq_number (prop "ao" layer) 1%float)
         "Composition should not include any Auto-Oriented Layers" ++
       when (negb (nullish (prop "ef" layer)))
         "Composition should not include any Layer Effects" ++
       from_shapes)%list.
Proof.
  intros H.
  assert (Hnull : nullish layer = false).
  { unfold checkLayer, and_then in H.
    destruct layer; try reflexivity; simpl in H; discriminate. }
  unfold checkLayer in H. hide_messages. rewrite !(Get_prop _ _ Hnull) in H.
  unfold and_then, or_else, loose_neq_number in H. cbn [bind] in H.
  assert (Hcond : forall v n (c : bool),
             (if negb (nullish v)
              then b <- loose_eq_number v n ;; Return (negb b)
              else Return false) = Return c ->
             (c = true <-> nullish v = false /\ loose_eq_number v n = Return false)).
  { intros v n c Hc. destruct (nullish v); simpl in Hc.
    - injection Hc as <-. intuition congruence.
    - destruct (loose_eq_number v n) as [b|]; simpl in Hc; [|discriminate].
      injection Hc as <-. destruct b; simpl; intuition congruence. }
  destruct (if negb (nullish (prop "ddd" layer)) then _ else _) as [c_ddd|] eqn:Hddd;
    cbn [bind] in H; [|discriminate H].
  destruct (if negb (nullish (prop "sr" layer)) then _ else _) as [c_sr|] eqn:Hsr;
    cbn [bind] in H; [|discriminate H].
  assert (Hmask : (if strict_eq_true (prop "hasMask" layer)
                   then Return true
                   else Return (negb (nullish (prop "masksProperties" layer)))) =
                  Return (strict_eq_true (prop "hasMask" layer) ||
                          negb (nullish (prop "masksProperties" layer)))).
  { destruct (strict_eq_true (prop "hasMask" layer)); reflexivity. }
  rewrite Hmask in H. cbn [bind] in H.
  destruct (has_array "shapes" layer) as [c|] eqn:Harr; cbn [bind] in H;
    [|discriminate H].
  rewrite !push_when in H.
  exists c_ddd, c_sr.
  destruct c.
  - destruct (checkItems (prop "shapes" layer) (VBoolean true)) as [shapesErrors|];
      cbn [bind] in H; [|discriminate H].
    injection H as <-.
    exists (if nonempty shapesErrors
            then [diagnostic_with "Composition shapes should not have errors" shapesErrors]
            else []).
    split; [exact (Hcond _ _ _ Hddd)|]. split; [exact (Hcond _ _ _ Hsr)|]. split.
    + intros e He. destruct (nonempty shapesErrors); [|contradiction].
      destruct He as [<-|[]]. reflexivity.
    + destruct (nonempty shapesErrors); unfold push; rewrite <- ?app_assoc;
        rewrite ?app_nil_r; reflexivity.
  - injection H as <-. exists [].
    split; [exact (Hcond _ _ _ Hddd)|]. split; [exact (Hcond _ _ _ Hsr)|]. split.
    + intros e [].
    + rewrite <- ?app_assoc, ?app_nil_r. reflexivity.
Qed.

(** The rules of [checkLayer], one by one: a returning [checkLayer] includes
    the message of a rule if and only if the layer breaks it.  The layer type
    and [ao] are compared strictly (a [ty] of ['1'] passes), [ddd] and [sr]
    loosely, and [tm], [tt], [ef] and [masksProperties] only have to be
    present. *)
Theorem checkLayer_rules (layer : value) (errors : list IValidationError) :
  checkLayer layer = Return errors ->
  (includes "Composition should not include any 3D Layers" errors = true <->
   nullish (prop "ddd" layer) = false /\
   loose_eq_number (prop "ddd" layer) 0%float = Return false) /\
  (includes "Composition should not include any Time Stretching" errors = true <->
   nullish (prop "sr" layer) = false /\
   loose_eq_number (prop "sr" layer) 1%float = Return false) /\
  (includes "Composition should not include any Time Remapping" errors = true <->
   nullish (prop "tm" layer) = false) /\
  (includes "Composition should not include any Solids" errors = true <->
   strict_eq_number (prop "ty" layer) 1%float = true) /\
  (includes "Composition should not include any Images" errors = true <->
   strict_eq_number (prop "ty" layer) 2%float = true) /\
  (includes "Composition should not include any Texts" errors = true <->
   strict_eq_number (prop "ty" layer) 5%float = true) /\
  (includes "Composition should not include any Masks" errors = true <->
   strict_eq_true (prop "hasMask" layer) = true \/
   nullish (prop "masksProperties" layer) = false) /\
  (includes "Composition should not include any Mattes" errors = true <->
   nullish (prop "tt" layer) = false) /\
  (includes "Composition should not include any Auto-Oriented Layers" errors = true <->
   strict_eq_number (prop "ao" layer) 1%float = true) /\
  (includes "Composition should not include any Layer Effects" errors = true <->
   nullish (prop "ef" layer) = false).
Proof.
  intros H.
  destruct (checkLayer_Return _ _ H)
    as (c_ddd & c_sr & from_shapes & Hddd & Hsr & Hshapes & ->).
  assert (Hs : forall m,
             String.eqb "Composition shapes should not have errors" m = false ->
             includes m from_shapes = false).
  { intros m E. apply includes_none. intros e He. rewrite (Hshapes e He). exact E. }
  repeat match goal with |- _ /\ _ => split end;
    rewrite !includes_app, !includes_when, !Hs by reflexivity;
    cbn [String.eqb Ascii.eqb Bool.eqb andb];
    rewrite ?andb_false_r, ?andb_true_r, ?orb_false_r, ?orb_false_l;
    rewrite <- ?Hddd, <- ?Hsr, ?orb_true_iff, ?negb_true_iff;
    reflexivity.
Qed.

End LayerRules.

(** ** The loop over the layers *)

Section LayersLoop.
Context {rt : Runtime}.
Import TGSKit Checks Diagnostics WellFormed Findings.

Lemma check_all_In (layers : list value) (rs : list (list IValidationError))
    (layer : value) :
  check_all layers = Return rs ->
  In layer layers ->
  exists r, checkLayer layer = Return r /\ In r rs.
Proof.
  revert rs. induction layers as [|l layers IH]; intros rs H Hin; [contradiction|].
  simpl in H. unbind H. unbind H. injection H as <-.
  destruct Hin as [->|Hin].
  - exists a. split; [assumption|left; reflexivity].
  - destruct (IH _ Ha0 Hin) as (r & Hr & Hrs). exists r. split; [assumption|].
    right; assumption.
Qed.

Lemma check_all_clean (layers : list value) (rs : list (list IValidationError)) :
  check_all layers = Return rs ->
  (from_first_finding rs = [] <->
   forall layer, In layer layers -> checkLayer layer = Return []).
Proof.
  revert rs. induction layers as [|l layers IH]; intros rs H; simpl in H.
  - injection H as <-. simpl. split; [intros _ layer []|reflexivity].
  - unbind H. unbind H. injection H as <-. simpl.
    destruct a as [|e r]; simpl.
    + rewrite (IH _ Ha0). split.
      * intros Hall layer [<-|Hin]; [assumption|auto].
      * intros Hall layer Hin. apply Hall. right; assumption.
    + split; [discriminate|]. intros Hall.
      rewrite (Hall l (or_introl eq_refl)) in Ha. discriminate.
Qed.

(** The loop over the layers, from any state [(layersErrors, pushes)]. *)
Lemma layers_loop_from (layers : list value) (i : nat)
    (acc : list IValidationError) (n : nat) :
  forEach_from i layers
    (fun layer (_ : nat) '(layersErrors, pushes) =>
       layerErrors <- checkLayer layer ;;
       let layersErrors :=
         if nonempty layerErrors
         then push layersErrors (diagnostic_with "Layer " layerErrors)
         else layersErrors in
       Return (layersErrors, if nonempty layersErrors then S pushes else pushes))
    (acc, n) =
  (rs <- check_all layers ;;
   Return ((acc ++ collected rs)%list,
           if nonempty acc then n + List.length rs
           else n + List.length (from_first_finding rs))).
Proof.
  revert i acc n. induction layers as [|l layers IH]; intros i acc n; simpl.
  - unfold collected. simpl. rewrite app_nil_r, Nat.add_0_r.
    destruct (nonempty acc); reflexivity.
  - destruct (checkLayer l) as [r|e]; simpl; [|reflexivity].
    rewrite IH. destruct (check_all layers) as [rs|e]; simpl; [|reflexivity].
    unfold collected. destruct r as [|x r]; simpl.
    + destruct (nonempty acc); simpl; [|reflexivity].
      rewrite Nat.add_succ_r. reflexivity.
    + rewrite nonempty_push. unfold push. rewrite <- app_assoc. simpl.
      rewrite Nat.add_succ_r. destruct (nonempty acc); reflexivity.
Qed.

(** The loop over the layers ends with the findings of all layers, and with
    one push to [errors] for each layer from the first one with findings
    on. *)
Lemma layers_loop_spec (layers : list value) :
  layers_loop (VArray layers) =
  (rs <- check_all layers ;;
   Return (collected rs, List.length (from_first_finding rs))).
Proof.
  unfold layers_loop. simpl. rewrite layers_loop_from.
  destruct (check_all layers); reflexivity.
Qed.

(** What the block on the layers adds to [errors] for a list of layers. *)
Lemma layers_errors_spec (data : value) (layers : list value)
    (from_layers : list IValidationError) :
  layers_errors data = Return from_layers ->
  Get data "layers" = Return (VArray layers) ->
  exists rs,
    check_all layers = Return rs /\
    from_layers =
      repeat (diagnostic_with "Layers have errors" (collected rs))
        (List.length (from_first_finding rs)).
Proof.
  unfold layers_errors. intros H Hl.
  rewrite (has_array_of_Get _ _ _ Hl), Hl in H. cbn [bind] in H.
  rewrite layers_loop_spec in H.
  destruct (check_all layers) as [rs|]; cbn [bind] in H; [|discriminate H].
  injection H as <-. exists rs. split; reflexivity.
Qed.

Lemma filter_when (m m' : string) (c : bool) :
  String.eqb m' m = false ->
  filter (fun e => String.eqb (message e) m) (when c m') = [].
Proof. intros E. destruct c; simpl; [rewrite E|]; reflexivity. Qed.

Lemma filter_repeat_same (m : string) (d : list IValidationError) (n : nat) :
  filter (fun e => String.eqb (message e) m) (repeat (diagnostic_with m d) n) =
  repeat (diagnostic_with m d) n.
Proof.
  induction n as [|n IH]; simpl; [reflexivity|].
  rewrite String.eqb_refl, IH. reflexivity.
Qed.

(** [validate] pushes 'Layers have errors' inside its loop over the layers:
    the returned sequence holds one such entry for each layer from the first
    layer with findings on (and none when no layer has findings), all of them
    with the same details, the findings of all layers. *)
Theorem validate_repeats_layers_entry (data data' : value)
    (errors : list IValidationError) (layers : list value) :
  validate data = (Return errors, data') ->
  Get data "layers" = Return (VArray layers) ->
  exists rs,
    check_all layers = Return rs /\
    filter (fun e => String.eqb (message e) "Layers have errors") errors =
    repeat (diagnostic_with "Layers have errors" (collected rs))
      (List.length (from_first_finding rs)).
Proof.
  intros H Hl.
  destruct (validate_Return _ _ _ H)
    as (c_fr & q & c_dim & c_ddd & A & L & c_fonts & c_chars & blob &
        _ & _ & _ & _ & HA & HL & _ & _ & _ & ->).
  apply assets_errors_nil in HA as ->.
  destruct (layers_errors_spec _ _ _ HL Hl) as (rs & Hrs & ->).
  exists rs. split; [assumption|].
  rewrite !filter_app, !filter_when by reflexivity.
  rewrite filter_repeat_same. simpl. apply app_nil_r.
Qed.

(** What [checkLayer] finds on a layer of the document is returned by
    [validate], two levels down: in the details of a 'Layer ' entry, itself
    in the details of a 'Layers have errors' entry. *)
Theorem validate_reports_layer_findings (data data' : value)
    (errors : list IValidationError) (layers : list value) (layer : value) :
  validate data = (Return errors, data') ->
  Get data "layers" = Return (VArray layers) ->
  In layer layers ->
  exists layerErrors,
    checkLayer layer = Return layerErrors /\
    (nonempty layerErrors = true ->
     exists all,
       In (diagnostic_with "Layers have errors" all) errors /\
       In (diagnostic_with "Layer " layerErrors) all).
Proof.
  intros H Hl Hin.
  destruct (validate_Return _ _ _ H)
    as (c_fr & q & c_dim & c_ddd & A & L & c_fonts & c_chars & blob &
        _ & _ & _ & _ & _ & HL & _ & _ & _ & ->).
  destruct (layers_errors_spec _ _ _ HL Hl) as (rs & Hrs & ->).
  destruct (check_all_In _ _ _ Hrs Hin) as (r & Hr & Hrin).
  exists r. split; [assumption|]. intros Hne.
  exists (collected rs). split.
  - do 5 (apply in_or_app; right). apply in_or_app; left.
    assert (Hfirst : from_first_finding rs <> []).
    { clear - Hrin Hne. induction rs as [|r0 rs IH]; [contradiction|]. simpl.
      destruct (nonempty r0) eqn:E; [discriminate|].
      destruct Hrin as [->|Hrin]; [congruence|auto]. }
    destruct (from_first_finding rs); [congruence|]. left; reflexivity.
  - unfold collected. apply in_map, filter_In. split; assumption.
Qed.

(** When [validate] returns no diagnostic: the document-level conditions are
    all false, [layers] is a list (possibly empty) on whose every layer
    [checkLayer] finds nothing, and the blob is at most 65536 bytes long. *)
Theorem validate_accepts (data data' : value) (errors : list IValidationError) :
  validate data = (Return errors, data') ->
  (errors = [] <->
   frame_rate_off data = Return false /\
   (exists q, duration data = Return q /\ PrimFloat.ltb 3.0 q = false) /\
   dimensions_off data = Return false /\
   three_d data = Return false /\
   (exists layers,
      Get data "layers" = Return (VArray layers) /\
      forall layer, In layer layers -> checkLayer layer = Return []) /\
   has_items "fonts" data = Return false /\
   has_items "chars" data = Return false /\
   (exists blob, generate data = (Return blob, data') /\ (size blob <= 65536)%Z)).
Proof.
  intros H.
  destruct (validate_Return _ _ _ H)
    as (c_fr & q & c_dim & c_ddd & A & L & c_fonts & c_chars & blob &
        Hfr & Hq & Hdim & Hddd & HA & HL & Hf & Hc & Hgen & ->).
  apply assets_errors_nil in HA as ->.
  rewrite Hfr, Hq, Hdim, Hddd, Hf, Hc, Hgen. unfold greater.
  assert (Hlayers : L = [] <->
            exists layers,
              Get data "layers" = Return (VArray layers) /\
              forall layer, In layer layers -> checkLayer layer = Return []).
  { unfold layers_errors in HL.
    destruct (has_array "layers" data) as [[|]|] eqn:Harr; cbn [bind] in HL;
      [| |discriminate HL].
    - apply has_array_true in Harr as (layers & Hl).
      assert (HL' : layers_errors data = Return L).
      { unfold layers_errors. rewrite (has_array_of_Get _ _ _ Hl). exact HL. }
      destruct (layers_errors_spec _ _ _ HL' Hl) as (rs & Hrs & ->).
      split.
      + intros E. exists layers. split; [assumption|].
        apply (check_all_clean _ _ Hrs).
        destruct (from_first_finding rs); [reflexivity|discriminate].
      + intros (layers' & Hl' & Hall). rewrite Hl in Hl'. injection Hl' as <-.
        apply (check_all_clean _ _ Hrs) in Hall. rewrite Hall. reflexivity.
    - injection HL as <-. split; [discriminate|].
      intros (layers & Hl & _). rewrite (has_array_of_Get _ _ _ Hl) in Harr.
      discriminate. }
  rewrite <- Hlayers. split.
  - intros E.
    destruct c_fr; [discriminate|]. simpl in E.
    destruct (PrimFloat.ltb 3 q) eqn:Hlt; [discriminate|]. simpl in E.
    destruct c_dim; [discriminate|]. destruct c_ddd; [discriminate|]. simpl in E.
    apply app_eq_nil in E as [-> E].
    destruct c_fonts; [discriminate|]. destruct c_chars; [discriminate|]. simpl in E.
    destruct (65536 <? size blob)%Z eqn:Hsz; [discriminate|].
    apply Z.ltb_ge in Hsz. repeat split; eauto.
  - intros (E1 & (q' & E2 & Hlt) & E3 & E4 & -> & E5 & E6 & (blob' & E7 & Hsz)).
    injection E1 as ->. injection E2 as <-. injection E3 as ->. injection E4 as ->.
    injection E5 as ->. injection E6 as ->. injection E7 as <-.
    rewrite Hlt. apply Z.ltb_ge in Hsz. rewrite Hsz. reflexivity.
Qed.

End LayersLoop.

(** ** What [checkItems] returns on typed shape items *)

Section ShapeItems.
Context {rt : Runtime}.
Import TGSKit Checks Diagnostics WellFormed Findings.

(** A loop whose callback appends [f x] for the item [x] appends them all. *)
Lemma forEach_from_flat_map {E} (f : value -> list E)
    (callback : value -> nat -> list E -> completion (list E)) (l : list value) :
  (forall x, In x l -> forall i s, callback x i s = Return (s ++ f x)%list) ->
  forall i s, forEach_from i l callback s = Return (s ++ flat_map f l)%list.
Proof.
  induction l as [|x l IH]; intros Hcb i s; simpl.
  - rewrite app_nil_r. reflexivity.
  - rewrite (Hcb x (or_introl eq_refl)). simpl.
    rewrite IH by (intros y Hy; apply Hcb; right; assumption).
    rewrite <- app_assoc. reflexivity.
Qed.

(** The four comparisons of the type of an item add its flag. *)
Lemma flag_whens (errors : list IValidationError) (item : value) (ty : string) :
  prop "ty" item = VString ty ->
  ((((errors ++
      when (String.eqb ty "rp") "Composition should not include any Repeaters") ++
     when (String.eqb ty "sr") "Composition should not include any Star Shapes") ++
    when (String.eqb ty "mm") "Composition should not include any Merge Paths") ++
   when (String.eqb ty "gs") "Composition should not include any Gradient Strokes")%list =
  (errors ++ flag item)%list.
Proof.
  intros Hty. unfold flag, shape_message. rewrite Hty.
  destruct (String.eqb ty "rp") eqn:E1.
  { apply String.eqb_eq in E1. subst ty. simpl. rewrite !app_nil_r. reflexivity. }
  destruct (String.eqb ty "sr") eqn:E2.
  { apply String.eqb_eq in E2. subst ty. simpl. rewrite !app_nil_r. reflexivity. }
  destruct (String.eqb ty "mm") eqn:E3.
  { apply String.eqb_eq in E3. subst ty. simpl. rewrite !app_nil_r. reflexivity. }
  destruct (String.eqb ty "gs") eqn:E4.
  { apply String.eqb_eq in E4. subst ty. simpl. rewrite !app_nil_r. reflexivity. }
  simpl. rewrite !app_nil_r. reflexivity.
Qed.

Lemma typed_inv (item : value) :
  typed item = true -> nullish item = false /\ exists ty, prop "ty" item = VString ty.
Proof.
  unfold typed. intros H. apply andb_prop in H as [Hn Hty].
  apply negb_true_iff in Hn. split; [assumption|].
  destruct (prop "ty" item); try discriminate. eauto.
Qed.

(** On the typed items of a group, [checkItems] returns their flags. *)
Lemma checkItems_group
    (self : value -> value -> completion (list IValidationError))
    (children : list value) :
  forallb typed children = true ->
  checkItems_body self (VArray children) (VBoolean false) =
  Return (flat_map flag children).
Proof.
  intros H. unfold checkItems_body. cbn [nullish negb forEach].
  apply (forEach_from_flat_map flag). intros child Hin i s.
  rewrite forallb_forall in H.
  destruct (typed_inv _ (H child Hin)) as (Hn & ty & Hty).
  rewrite !(Get_prop _ _ Hn), Hty. cbn [bind loose_eq_string strict_eq_true].
  rewrite !push_when. f_equal. apply flag_whens. assumption.
Qed.

(** On the shape items of the format, [checkItems] returns exactly one
    diagnostic for each item of a prohibited type, in the order of the items,
    and, after the flag of an item of [shapes], one 'Composition items should
    not have errors' entry with the flags of the items of its [it], when
    there are any.  Items of another type, and groups without flagged items,
    add nothing. *)
Theorem checkItems_flags_exactly (shapes : list value) :
  forallb typed_item shapes = true ->
  checkItems (VArray shapes) (VBoolean true) = Return (flat_map flag_item shapes).
Proof.
  intros H. unfold checkItems, checkItems_body at 1. cbn [nullish negb forEach].
  apply (forEach_from_flat_map flag_item). intros item Hin i s.
  rewrite forallb_forall in H. specialize (H item Hin).
  unfold typed_item in H. apply andb_prop in H as [Htyped Hit].
  destruct (typed_inv _ Htyped) as (Hn & ty & Hty).
  rewrite !(Get_prop _ _ Hn), Hty. cbn [bind loose_eq_string strict_eq_true].
  assert (Hnested : checkItems_body (fun _ _ => Return []) (prop "it" item)
                      (VBoolean false) =
                    Return (flat_map flag (items_of (prop "it" item)))).
  { apply orb_prop in Hit as [Hnull|Harr].
    - destruct (prop "it" item); try discriminate; reflexivity.
    - apply andb_prop in Harr as [Harr Hch].
      rewrite (isArray_items_of _ Harr) at 1. apply checkItems_group. assumption. }
  rewrite Hnested. cbn [bind]. rewrite !push_when, (flag_whens s item ty Hty).
  unfold flag_item. f_equal.
  destruct (flat_map flag (items_of (prop "it" item))) as [|e found]; simpl.
  - rewrite app_nil_r. reflexivity.
  - unfold push. rewrite <- app_assoc. reflexivity.
Qed.

End ShapeItems.

(** ** What [generate] and [validate] do to the document *)

Section SideEffects.
Context {rt : Runtime}.
Import TGSKit Checks Diagnostics WellFormed Findings.

Lemma canonical_props (props : list (string * value)) (k : string) :
  Get (canonical (VObject props)) k =
  Return (if String.eqb "chars" k then VUndefined
          else if String.eqb "fonts" k then VUndefined
          else if String.eqb "markers" k then VUndefined
          else if String.eqb "tgs" k then VNumber 1
          else prop k (VObject props)) /\
  HasProperty k (canonical (VObject props)) =
  Return (if String.eqb "chars" k then false
          else if String.eqb "fonts" k then false
          else if String.eqb "markers" k then false
          else if String.eqb "tgs" k then true
          else has_own k props).
Proof.
  cbn [Get HasProperty canonical]. rewrite assoc_canonical. unfold has_own, prop.
  destruct (String.eqb "chars" k); [split; reflexivity|].
  destruct (String.eqb "fonts" k); [split; reflexivity|].
  destruct (String.eqb "markers" k); [split; reflexivity|].
  destruct (String.eqb "tgs" k); split; reflexivity.
Qed.

(** A [validate] that returns has changed the document it was called on:
    [tgs] is 1, [markers], [fonts] and [chars] are deleted, and every other
    property is as it was. *)
Theorem validate_strips_the_document (data data' : value)
    (errors : list IValidationError) (props : list (string * value)) :
  validate data = (Return errors, data') ->
  data = VObject props ->
  Get data' "tgs" = Return (VNumber 1) /\
  HasProperty "markers" data' = Return false /\
  HasProperty "fonts" data' = Return false /\
  HasProperty "chars" data' = Return false /\
  (forall k, k <> "tgs" -> k <> "markers" -> k <> "fonts" -> k <> "chars" ->
     Get data' k = Get data k /\ HasProperty k data' = HasProperty k data).
Proof.
  intros H ->. destruct (validate_Return_object _ _ _ H) as [_ ->].
  repeat split; try apply canonical_props.
  - destruct (canonical_props props k) as [-> _].
    rewrite !(proj2 (String.eqb_neq _ _)) by congruence. reflexivity.
  - destruct (canonical_props props k) as [_ ->].
    rewrite !(proj2 (String.eqb_neq _ _)) by congruence. reflexivity.
Qed.

(** [generate] called again on the document it left returns the same blob and
    leaves the same document; the blob is the compressed JSON text of that
    document, typed [application/gzip]. *)
Theorem generate_twice (data data' : value) (blob : Blob) :
  generate data = (Return blob, data') ->
  generate data' = (Return blob, data') /\
  encoded data' = Return (bytes blob) /\
  type blob = "application/gzip".
Proof.
  intros H. destruct (generate_Return_encoded _ _ _ H) as [Henc Htype].
  destruct (generate_Return _ _ _ H) as [Hobj ->].
  assert (Hobj' : is_object (canonical data) = true).
  { destruct data; try discriminate; reflexivity. }
  rewrite (generate_eq _ Hobj'), canonical_idempotent, Henc.
  destruct blob as [gzByteArray t]. cbn [bytes type] in *. subst t.
  repeat split.
Qed.

Lemma only_Return {A} (a : A) : only_TypeError (Return a).
Proof. intros e H. discriminate. Qed.

Lemma only_Throw {A} : only_TypeError (@Throw A TypeError).
Proof. intros e H. injection H as <-. reflexivity. Qed.

Lemma only_bind {A B} (c : completion A) (k : A -> completion B) :
  only_TypeError c -> (forall a, only_TypeError (k a)) -> only_TypeError (bind c k).
Proof.
  intros Hc Hk e H. destruct c as [a|e']; simpl in H.
  - exact (Hk a e H).
  - injection H as <-. apply Hc. reflexivity.
Qed.

Lemma only_Get (v : value) (k : string) : only_TypeError (Get v k).
Proof. destruct v; simpl; first [apply only_Return | apply only_Throw]. Qed.

Lemma only_HasProperty (k : string) (v : value) : only_TypeError (HasProperty k v).
Proof. destruct v; simpl; first [apply only_Return | apply only_Throw]. Qed.

Lemma only_ToString (v : value) : only_TypeError (ToString v).
Proof.
  revert v. fix IH 1. intros v. destruct v as [| | | | |items|props]; simpl;
    try apply only_Return.
  - apply only_bind; [|intros; apply only_Return].
    induction items as [|x rest IHrest]; [apply only_Return|].
    apply only_bind.
    + destruct (nullish x); [apply only_Return|apply IH].
    + intros s. apply only_bind; [exact IHrest|intros; apply only_Return].
  - destruct (has_own "toString" props); [apply only_Throw|apply only_Return].
Qed.

Lemma only_ToNumber (v : value) : only_TypeError (ToNumber v).
Proof.
  destruct v; cbv beta iota delta [ToNumber]; try apply only_Return;
    (apply only_bind; [apply only_ToString|intros; apply only_Return]).
Qed.

Lemma only_loose_eq_number (v : value) (n : number) :
  only_TypeError (loose_eq_number v n).
Proof.
  unfold loose_eq_number.
  destruct v; try apply only_Return;
    (apply only_bind; [apply only_ToNumber|intros; apply only_Return]).
Qed.

Lemma only_loose_neq_number (v : value) (n : number) :
  only_TypeError (loose_neq_number v n).
Proof.
  apply only_bind; [apply only_loose_eq_number|intros; apply only_Return].
Qed.

Lemma only_loose_eq_string (v : value) (s : string) :
  only_TypeError (loose_eq_string v s).
Proof.
  destruct v; cbv beta iota delta [loose_eq_string]; try apply only_Return;
    (apply only_bind; [apply only_ToString|intros; apply only_Return]).
Qed.

Lemma only_and_then (a b : completion bool) :
  only_TypeError a -> only_TypeError b -> only_TypeError (and_then a b).
Proof.
  intros Ha Hb. apply only_bind; [assumption|]. intros [|]; [assumption|apply only_Return].
Qed.

Lemma only_or_else (a b : completion bool) :
  only_TypeError a -> only_TypeError b -> only_TypeError (or_else a b).
Proof.
  intros Ha Hb. apply only_bind; [assumption|]. intros [|]; [apply only_Return|assumption].
Qed.

Lemma only_has_array (k : string) (v : value) : only_TypeError (has_array k v).
Proof.
  apply only_and_then; [apply only_HasProperty|].
  apply only_bind; [apply only_Get|intros; apply only_Return].
Qed.

Lemma only_has_items (k : string) (v : value) : only_TypeError (has_items k v).
Proof.
  apply only_and_then; [apply only_has_array|].
  apply only_bind; [apply only_Get|intros; apply only_Return].
Qed.

Lemma only_forEach {S} (arr : value)
    (callback : value -> nat -> S -> completion S) (s : S) :
  (forall x i t, only_TypeError (callback x i t)) ->
  only_TypeError (forEach arr callback s).
Proof.
  intros Hcb. destruct arr as [| | | | |l|]; simpl; try apply only_Throw.
  generalize 0 as i. revert s. induction l as [|x l IH]; intros s i; simpl.
  - apply only_Return.
  - apply only_bind; [apply Hcb|]. intros t. apply IH.
Qed.

Create HintDb only_TypeError.

#[local] Hint Resolve only_Return only_Throw only_Get only_HasProperty only_ToString
  only_ToNumber only_loose_eq_number only_loose_neq_number only_loose_eq_string
  only_has_array only_has_items : only_TypeError.

(** Takes an evaluation apart, down to the operations that are known to
    throw nothing but a [TypeError]. *)
Ltac only_type_errors :=
  repeat first
    [ solve [auto 1 with only_TypeError nocore]
    | apply only_and_then
    | apply only_or_else
    | apply only_forEach; intros
    | apply only_bind; [|intros]
    | match goal with
      | |- only_TypeError (if ?c then _ else _) => destruct c
      | |- only_TypeError (let '(_, _) := ?p in _) => destruct p
      end ].

Lemma only_checkItems_body
    (self : value -> value -> completion (list IValidationError))
    (items shapes : value) :
  (forall it s, only_TypeError (self it s)) ->
  only_TypeError (checkItems_body self items shapes).
Proof.
  intros Hself. unfold checkItems_body. only_type_errors.
Qed.

Lemma only_checkItems (items shapes : value) :
  only_TypeError (checkItems items shapes).
Proof.
  apply only_checkItems_body. intros it s.
  apply only_checkItems_body. intros it' s'. apply only_Return.
Qed.

#[local] Hint Resolve only_checkItems : only_TypeError.

Lemma only_checkLayer (layer : value) : only_TypeError (checkLayer layer).
Proof. unfold checkLayer. hide_messages. only_type_errors. Qed.

Lemma only_minus (a b : value) : only_TypeError (minus a b).
Proof. unfold minus. only_type_errors. Qed.

Lemma only_divide (a : number) (b : value) : only_TypeError (divide a b).
Proof. unfold divide. only_type_errors. Qed.

#[local] Hint Resolve only_checkLayer only_minus only_divide : only_TypeError.


Lemma only_flat_checkItems_body
    (self : value -> value -> completion (list string)) (items shapes : value) :
  (forall it s, only_TypeError (self it s)) ->
  only_TypeError (TGSKitFlat.checkItems_body self items shapes).
Proof.
  intros Hself. unfold TGSKitFlat.checkItems_body. only_type_errors.
Qed.

Lemma only_flat_checkItems (items shapes : value) :
  only_TypeError (TGSKitFlat.checkItems items shapes).
Proof.
  apply only_flat_checkItems_body. intros it s.
  apply only_flat_checkItems_body. intros it' s'. apply only_Return.
Qed.

#[local] Hint Resolve only_flat_checkItems : only_TypeError.

Lemma only_flat_checkLayer (layer : value) :
  only_TypeError (TGSKitFlat.checkLayer layer).
Proof. unfold TGSKitFlat.checkLayer. only_type_errors. Qed.

#[local] Hint Resolve only_flat_checkLayer : only_TypeError.



(** [_data] stays what [typeof] calls an object: [load], [validate] and
    [generate] leave it one when they find it one, as the [{}] of a new
    instance is.  ([null] is one too.) *)
Theorem data_stays_an_object (data : value) :
  typeof data = "object" ->
  (forall src, typeof (data_after (load src data)) = "object") /\
  typeof (snd (validate data)) = "object" /\
  typeof (snd (generate data)) = "object".
Proof.
  intros Hdata.
  assert (Hstore : forall reqs src, typeof (data_after (store reqs src data)) = "object").
  { intros reqs src. unfold store.
    destruct (String.eqb (typeof src) "object") eqn:E; simpl; [|assumption].
    apply String.eqb_eq. assumption. }
  assert (Hcanon : typeof (canonical data) = "object").
  { destruct data; try discriminate; reflexivity. }
  split; [|split].
  - intros src. unfold load. destruct src; try apply Hstore.
    destruct (parseURL _) as [url|]; [|apply Hstore].
    destruct (fetchPath url); [apply Hstore|assumption|assumption].
  - rewrite validate_run. destruct (validate_checks data); [|assumption].
    pose proof (generate_canonical data) as Hg.
    destruct (generate data) as [[blob|e] d]; simpl in *; subst d; assumption.
  - rewrite generate_canonical. assumption.
Qed.

End SideEffects.

(** ** What [load] comes to *)

Section Outcomes.
Context {rt : Runtime}.
Import TGSKit Checks WellFormed.

Lemma store_outcomes (reqs : list string) (src data : value) :
  requests (store reqs src data) = reqs /\
  match outcome (store reqs src data) with
  | Fulfilled v => typeof v = "object" /\ data_after (store reqs src data) = v
  | Rejected e =>
      e = Error "Given resource could not be loaded or is invalid." /\
      data_after (store reqs src data) = data
  | Pending => False
  end.
Proof.
  unfold store. destruct (String.eqb (typeof src) "object") eqn:E; simpl.
  - apply String.eqb_eq in E. auto.
  - auto.
Qed.

(** What [load] comes to, whatever it is given.  It requests at most one URL,
    and none for a source that is no string.  When its promise is fulfilled,
    the value is what [typeof] calls an object and is the new [_data].  When
    it is rejected, the error is one of the two of [load] (the error of
    [fetchPath] is replaced) and [_data] is as it was.  It stays pending only
    when the request it made is never done with status 200, and [_data] is
    then as it was. *)
Theorem load_outcomes (src data : value) :
  match outcome (load src data) with
  | Fulfilled v => typeof v = "object" /\ data_after (load src data) = v
  | Rejected e =>
      data_after (load src data) = data /\
      (e = Error "Given resource could not be loaded or is invalid." \/
       e = Error "Error loading remote resource." /\
       exists url, requests (load src data) = [url])
  | Pending =>
      data_after (load src data) = data /\
      exists url, requests (load src data) = [url] /\ XMLHttpRequest_GET url = None
  end /\
  List.length (requests (load src data)) <= 1 /\
  (typeof src <> "string" -> requests (load src data) = []).
Proof.
  assert (Hstore : forall reqs s,
             List.length reqs <= 1 ->
             match outcome (store reqs s data) with
             | Fulfilled v => typeof v = "object" /\ data_after (store reqs s data) = v
             | Rejected e =>
                 data_after (store reqs s data) = data /\
                 (e = Error "Given resource could not be loaded or is invalid." \/
                  e = Error "Error loading remote resource." /\
                  exists url, requests (store reqs s data) = [url])
             | Pending =>
                 data_after (store reqs s data) = data /\
                 exists url, requests (store reqs s data) = [url] /\
                             XMLHttpRequest_GET url = None
             end /\
             List.length (requests (store reqs s data)) <= 1).
  { intros reqs s Hreqs. destruct (store_outcomes reqs s data) as [-> H].
    split; [|assumption].
    destruct (outcome (store reqs s data)); [assumption| |contradiction].
    destruct H as [-> ->]. auto. }
  assert (Hother : forall s,
             match outcome (store [] s data) with
             | Fulfilled v => typeof v = "object" /\ data_after (store [] s data) = v
             | Rejected e =>
                 data_after (store [] s data) = data /\
                 (e = Error "Given resource could not be loaded or is invalid." \/
                  e = Error "Error loading remote resource." /\
                  exists url, requests (store [] s data) = [url])
             | Pending =>
                 data_after (store [] s data) = data /\
                 exists url, requests (store [] s data) = [url] /\
                             XMLHttpRequest_GET url = None
             end /\
             List.length (requests (store [] s data)) <= 1 /\
             requests (store [] s data) = []).
  { intros s. destruct (Hstore [] s (Nat.le_0_l 1)) as [H1 H2].
    split; [exact H1|]. split; [exact H2|]. apply (store_outcomes [] s data). }
  destruct src as [| |b|n|text|items|props];
    try (match goal with
         | |- context [typeof ?s <> _] => destruct (Hother s) as (H1 & H2 & H3)
         end;
         split; [exact H1|]; split; [exact H2|]; intros _; exact H3).
  unfold load.
  set (s := if negb (strict_eq_false (parseJSON text)) then parseJSON text
            else VString text).
  destruct (parseURL s) as [url|].
  - split; [|split; [|intros H; exfalso; apply H; reflexivity]].
    + unfold fetchPath.
      destruct (XMLHttpRequest_GET url) as [response|] eqn:Hget.
      * destruct (JSON_parse (string_of_list_byte response)) as [json|].
        { apply (Hstore [url] json). simpl; lia. }
        destruct (pako_inflate response) as [inflated|err].
        { destruct (JSON_parse inflated) as [json|].
          - apply (Hstore [url] json). simpl; lia.
          - simpl. eauto. }
        simpl. eauto.
      * simpl. eauto.
    + destruct (fetchPath url) as [fetched| |]; simpl; try lia.
      destruct (store_outcomes [url] fetched data) as [-> _]. simpl; lia.
  - destruct (Hstore [] s (Nat.le_0_l 1)) as [H1 H2].
    split; [exact H1|]. split; [exact H2|].
    intros H; exfalso; apply H; reflexivity.
Qed.

(** [load] reads back what [generate] wrote.  On a host that serves at [url]
    the blob that [generate] returned, where the blob is no JSON text as it
    is, and where inflating and parsing undo the compression and the
    serialization of the document, [load] of that URL requests it once and
    fulfils with the document as [generate] left it, which becomes
    [_data]. *)
Theorem load_reads_what_generate_wrote (data data' before : value) (blob : Blob)
    (text url json : string) :
  generate data = (Return blob, data') ->
  JSON_parse text = None ->
  new_URL text = Some url ->
  XMLHttpRequest_GET url = Some (bytes blob) ->
  JSON_parse (string_of_list_byte (bytes blob)) = None ->
  JSON_stringify data' = Return json ->
  (forall gzByteArray,
     pako_gzip json = Return gzByteArray -> pako_inflate gzByteArray = Return json) ->
  JSON_parse json = Some data' ->
  load (VString text) before =
  {| requests := [url]; outcome := Fulfilled data'; data_after := data' |}.
Proof.
  intros Hgen Htext Hurl Hget Hraw Hjson Hinflate Hparse.
  destruct (generate_Return_encoded _ _ _ Hgen) as [Henc _].
  unfold encoded in Henc. rewrite Hjson in Henc. cbn [bind] in Henc.
  apply Hinflate in Henc as Hback.
  destruct (generate_Return _ _ _ Hgen) as [Hobj ->].
  assert (Hty : typeof (canonical data) = "object").
  { destruct data; try discriminate; reflexivity. }
  unfold load, parseJSON. rewrite Htext. cbn [strict_eq_false negb].
  rewrite parseURL_string, Hurl. unfold fetchPath.
  rewrite Hget, Hraw, Hback, Hparse.
  unfold store. rewrite Hty. reflexivity.
Qed.

End Outcomes.

(** The witness of [load_reads_what_generate_wrote]: the sticker of the
    fixture, generated and loaded on the host that serves it. *)
Lemma load_reads_what_generate_wrote_witness :
  TGSKit.generate (rt := Served.host) Fixture.sticker =
    (Return {| TGSKit.bytes := Served.packed; TGSKit.type := "application/gzip" |},
     Checks.canonical Fixture.sticker) /\
  TGSKit.load (rt := Served.host) (VString Fixture.sticker_url) empty_object =
  {| TGSKit.requests := [Fixture.sticker_url];
     TGSKit.outcome := TGSKit.Fulfilled (Checks.canonical Fixture.sticker);
     TGSKit.data_after := Checks.canonical Fixture.sticker |}.
Proof.
  split; [reflexivity|].
  apply (load_reads_what_generate_wrote (rt := Served.host) Fixture.sticker
           (Checks.canonical Fixture.sticker) empty_object
           {| TGSKit.bytes := Served.packed; TGSKit.type := "application/gzip" |}
           Fixture.sticker_url Fixture.sticker_url Served.text);
    first [reflexivity | intros; reflexivity].
Defined.

(** ** The class of [src/TGSKit.ts] *)

Section FlatVariant.
Context {rt : Runtime}.
Import TGSKitFlat Checks WellFormed Findings.

Lemma flat_push_said (errors : list string) (c : bool) (m : string) :
  (if c then push errors m else errors) = (errors ++ said c m)%list.
Proof. destruct c; simpl; [reflexivity|symmetry; apply app_nil_r]. Qed.

(** A loop whose callback hands back the state it got ends in the state it
    started in. *)
Lemma forEach_from_keeps {S} (callback : value -> nat -> S -> completion S)
    (l : list value) :
  (forall x i s s', callback x i s = Return s' -> s' = s) ->
  forall i s s', forEach_from i l callback s = Return s' -> s' = s.
Proof.
  intros Hcb i s s' H.
  apply (forEach_from_invariant (fun t => t = s) callback l) with (3 := H);
    [|reflexivity].
  intros x j t t' _ -> Ht. exact (Hcb _ _ _ _ Ht).
Qed.

(** What the [validate] of [src/TGSKit.ts] returns: the messages of its five
    document-level checks, in their order, and nothing else.  The frame rate,
    the fonts and the glyph chars are not checked; 'Must not have markers'
    is returned exactly when the document has a [markers] key; and what
    [checkLayer] finds on the layers and on the assets is not returned. *)
Theorem flat_validate_returns (data : value) (errors : list string) :
  validate data = Return errors ->
  exists q c_dim c_ddd c_markers c_layers,
    duration data = Return q /\
    dimensions_off data = Return c_dim /\
    three_d data = Return c_ddd /\
    HasProperty "markers" data = Return c_markers /\
    has_array "layers" data = Return c_layers /\
    errors =
      (said (greater q 3.0%float) "Longer than 3 seconds" ++
       said c_dim "Dimensions should be exactly 512pxx512px" ++
       said c_ddd "Must not have 3D layers" ++
       said c_markers "Must not have markers" ++
       said (negb c_layers) "Must have atleast 1 layer")%list.
Proof.
  unfold validate. intros H.
  apply bind_Return in H as (op & Hop & H).
  apply bind_Return in H as (ip & Hip & H).
  apply bind_Return in H as (d & Hd & H).
  apply bind_Return in H as (fr & Hfr & H).
  apply bind_Return in H as (q & Hq & H).
  apply bind_Return in H as (c_dim & Hdim & H).
  apply bind_Return in H as (c_ddd & Hddd & H).
  apply bind_Return in H as (c_markers & Hmarkers & H).
  apply bind_Return in H as (c_assets & Hassets & H).
  apply bind_Return in H as (errors1 & Herrors1 & H).
  apply bind_Return in H as (c_layers & Hlayers & H).
  apply bind_Return in H as (errors2 & Herrors2 & H).
  cbv beta in *. injection H as <-.
  exists q, c_dim, c_ddd, c_markers, c_layers.
  split. { unfold duration. rewrite Hop; cbn [bind]. rewrite Hip; cbn [bind].
           rewrite Hd; cbn [bind]. rewrite Hfr; cbn [bind]. exact Hq. }
  split; [exact Hdim|]. split; [exact Hddd|]. split; [exact Hmarkers|].
  split; [exact Hlayers|].
  rewrite !flat_push_said in Herrors1. cbn [app] in Herrors1.
  assert (E1 : errors1 =
               (((said (greater q 3.0%float) "Longer than 3 seconds" ++
                  said c_dim "Dimensions should be exactly 512pxx512px") ++
                 said c_ddd "Must not have 3D layers") ++
                said c_markers "Must not have markers")%list).
  { destruct c_assets.
    - apply bind_Return in Herrors1 as (assets & _ & Hloop).
      destruct assets; try discriminate Hloop.
      apply (forEach_from_keeps _ _) with (2 := Hloop).
      intros asset i s s' Hcb.
      apply bind_Return in Hcb as (layers & _ & Hcb).
      apply bind_Return in Hcb as (assetErrors & _ & Hcb).
      injection Hcb as <-. reflexivity.
    - injection Herrors1 as <-. reflexivity. }
  assert (E2 : errors2 = (errors1 ++ said (negb c_layers) "Must have atleast 1 layer")%list).
  { destruct c_layers.
    - apply bind_Return in Herrors2 as (layers & _ & Hloop).
      destruct layers; try discriminate Hloop.
      rewrite app_nil_r.
      apply (forEach_from_keeps _ _) with (2 := Hloop).
      intros layer i s s' Hcb.
      apply bind_Return in Hcb as (layerErrors & _ & Hcb).
      injection Hcb as <-. reflexivity.
    - injection Herrors2 as <-. reflexivity. }
  rewrite E2, E1, <- !app_assoc. reflexivity.
Qed.


End FlatVariant.

(** The witness of [flat_validate_returns]: the sticker with two markers, which
    gets 'Must not have markers' and nothing else. *)
Lemma flat_validate_returns_witness :
  TGSKitFlat.validate (rt := Fixture.host) Fixture.sticker_with_markers =
    Return ["Must not have markers"] /\
  exists q c_dim c_ddd c_markers c_layers,
    Checks.duration (rt := Fixture.host) Fixture.sticker_with_markers = Return q /\
    Checks.dimensions_off (rt := Fixture.host) Fixture.sticker_with_markers =
      Return c_dim /\
    Checks.three_d (rt := Fixture.host) Fixture.sticker_with_markers = Return c_ddd /\
    HasProperty "markers" Fixture.sticker_with_markers = Return c_markers /\
    has_array "layers" Fixture.sticker_with_markers = Return c_layers /\
    ["Must not have markers"] =
      (Findings.said (greater q 3.0%float) "Longer than 3 seconds" ++
       Findings.said c_dim "Dimensions should be exactly 512pxx512px" ++
       Findings.said c_ddd "Must not have 3D layers" ++
       Findings.said c_markers "Must not have markers" ++
       Findings.said (negb c_layers) "Must have atleast 1 layer")%list.
Proof.
  split; [reflexivity|].
  apply (flat_validate_returns (rt := Fixture.host) Fixture.sticker_with_markers).
  reflexivity.
Defined.


(** ** The encoder of [src/TGSKit.ts] *)

Section FlatEncoder.
Context {rt : Runtime}.
Import TGSKitFlatEncoder.

(** The [generate] of [src/TGSKit.ts] marks the document and strips nothing:
    [tgs] is 1 and every other property, [markers], [fonts] and [chars]
    among them, is as it was.  What it returns is the compressed JSON text of
    the document it leaves, and a second call returns the same. *)
Theorem flat_generate_marks_only (data data' : value) (gz : list Byte.byte)
    (props : list (string * value)) :
  generate data = (Return gz, data') ->
  data = VObject props ->
  Checks.encoded data' = Return gz /\
  Get data' "tgs" = Return (VNumber 1) /\
  (forall k, k <> "tgs" ->
     Get data' k = Get data k /\ HasProperty k data' = HasProperty k data) /\
  generate data' = (Return gz, data').
Proof.
  intros H ->. cbv beta iota delta [generate] in H. cbv zeta in H.
  injection H as Hgz <-.
  split; [exact Hgz|]. split; [|split].
  - cbn [Get]. rewrite assoc_put_same. reflexivity.
  - intros k Hk. cbn [Get HasProperty].
    rewrite assoc_put_other by (apply String.eqb_neq; congruence).
    split; reflexivity.
  - cbv beta iota delta [generate]. cbv zeta.
    rewrite (put_present "tgs" (VNumber 1) (put "tgs" (VNumber 1) props))
      by apply assoc_put_same.
    rewrite Hgz. reflexivity.
Qed.

End FlatEncoder.

(** The witness of [flat_generate_marks_only]: the sticker with two markers
    keeps them. *)
Lemma flat_generate_marks_only_witness :
  exists data',
    TGSKitFlatEncoder.generate (rt := Fixture.host) Fixture.sticker_with_markers =
      (Return [], data') /\
    Get data' "tgs" = Return (VNumber 1) /\
    HasProperty "markers" data' = Return true.
Proof.
  eexists. split; [reflexivity|].
  match goal with
  | |- Get ?d _ = _ /\ _ =>
      destruct (flat_generate_marks_only (rt := Fixture.host)
                  Fixture.sticker_with_markers d [] _ eq_refl eq_refl)
        as (_ & Htgs & Hkeeps & _)
  end.
  split; [exact Htgs|].
  rewrite (proj2 (Hkeeps "markers" ltac:(discriminate))). reflexivity.
Defined.

(** ** Witnesses *)

(** The witness of [validate_dimensions]: the sticker of the fixture, 512 by
    512. *)
Lemma validate_dimensions_witness :
  TGSKit.validate (rt := Fixture.host) Fixture.sticker =
    (Return [], Checks.canonical Fixture.sticker) /\
  (Diagnostics.includes Diagnostics.dimensions_message [] = true <->
   PrimFloat.eqb 512 512 = false \/ PrimFloat.eqb 512 512 = false).
Proof.
  split; [reflexivity|].
  apply (proj1 (validate_dimensions (rt := Fixture.host) Fixture.sticker
                  (Checks.canonical Fixture.sticker) [] eq_refl));
    reflexivity.
Defined.

(** The witness of [validate_three_d]: the sticker of the fixture, whose
    [ddd] is 0. *)
Lemma validate_three_d_witness :
  TGSKit.validate (rt := Fixture.host) Fixture.sticker =
    (Return [], Checks.canonical Fixture.sticker) /\
  Get Fixture.sticker "ddd" = Return (VNumber 0) /\
  (Diagnostics.includes "Should not have 3D layers" [] = true <->
   PrimFloat.eqb 0 0 = false).
Proof.
  split; [reflexivity|]. split; [reflexivity|].
  apply (proj2 (validate_three_d (rt := Fixture.host) Fixture.sticker
                  (Checks.canonical Fixture.sticker) [] (VNumber 0) eq_refl eq_refl)).
  reflexivity.
Defined.

(** The witness of [validate_fonts_chars]: the sticker with a glyph char. *)
Lemma validate_fonts_chars_witness :
  TGSKit.validate (rt := Fixture.host) Fixture.sticker_with_chars =
    (Return [TGSKit.diagnostic "Should not have glyph chars"],
     Checks.canonical Fixture.sticker_with_chars) /\
  exists x l, Get Fixture.sticker_with_chars "chars" = Return (VArray (x :: l)).
Proof.
  split; [reflexivity|].
  apply (proj2 (validate_fonts_chars (rt := Fixture.host) Fixture.sticker_with_chars
                  (Checks.canonical Fixture.sticker_with_chars)
                  [TGSKit.diagnostic "Should not have glyph chars"] eq_refl)).
  reflexivity.
Defined.

(** The witness of [validate_layers_list]: a document with an empty list of
    layers. *)
Lemma validate_layers_list_witness :
  TGSKit.validate (rt := Fixture.host) (Fixture.document 0 90 []) =
    (Return [], Checks.canonical (Fixture.document 0 90 [])) /\
  Diagnostics.includes Diagnostics.layers_message [] = false /\
  Diagnostics.includes "Layers have errors" [] = false.
Proof.
  split; [reflexivity|].
  apply (proj2 (validate_layers_list (rt := Fixture.host) (Fixture.document 0 90 [])
                  (Checks.canonical (Fixture.document 0 90 [])) [] eq_refl)).
  reflexivity.
Defined.

(** The witness of [validate_never_reports_assets]: the document with a solid
    layer inside a precomposition. *)
Lemma validate_never_reports_assets_witness :
  TGSKit.validate (rt := Fixture.host) Fixture.document_with_solid_asset =
    (Return [], Checks.canonical Fixture.document_with_solid_asset) /\
  Diagnostics.includes "Assets must not have errors" [] = false /\
  Diagnostics.reports (String.prefix "Asset ") [] = false.
Proof.
  split; [reflexivity|].
  apply (validate_never_reports_assets (rt := Fixture.host)
           Fixture.document_with_solid_asset
           (Checks.canonical Fixture.document_with_solid_asset) []).
  reflexivity.
Defined.

(** The witness of [checkLayer_rules]: a layer with a matte that is
    auto-oriented and whose type is the string ['1'], which is no solid. *)
Lemma checkLayer_rules_witness :
  TGSKit.checkLayer (rt := Fixture.host)
    (VObject [("ty", VString "1"); ("ao", VNumber 1); ("tt", VNumber 1)]) =
    Return [TGSKit.diagnostic "Composition should not include any Mattes";
            TGSKit.diagnostic "Composition should not include any Auto-Oriented Layers"] /\
  Diagnostics.includes "Composition should not include any Solids"
    [TGSKit.diagnostic "Composition should not include any Mattes";
     TGSKit.diagnostic "Composition should not include any Auto-Oriented Layers"] = false.
Proof.
  split; [reflexivity|].
  destruct (checkLayer_rules (rt := Fixture.host)
              (VObject [("ty", VString "1"); ("ao", VNumber 1); ("tt", VNumber 1)])
              [TGSKit.diagnostic "Composition should not include any Mattes";
               TGSKit.diagnostic "Composition should not include any Auto-Oriented Layers"]
              eq_refl) as (_ & _ & _ & Hsolid & _).
  apply not_true_is_false. intros H. apply Hsolid in H. discriminate H.
Defined.

(** The witness of [validate_repeats_layers_entry]: three layers, the second
    a solid, give two entries. *)
Lemma validate_repeats_layers_entry_witness :
  TGSKit.validate (rt := Fixture.host)
    (Fixture.document 0 90
       [Fixture.shape_layer []; Fixture.solid_layer; Fixture.shape_layer []]) =
    (Return
       [TGSKit.diagnostic_with "Layers have errors"
          [TGSKit.diagnostic_with "Layer "
             [TGSKit.diagnostic "Composition should not include any Solids"]];
        TGSKit.diagnostic_with "Layers have errors"
          [TGSKit.diagnostic_with "Layer "
             [TGSKit.diagnostic "Composition should not include any Solids"]]],
     Checks.canonical
       (Fixture.document 0 90
          [Fixture.shape_layer []; Fixture.solid_layer; Fixture.shape_layer []])) /\
  exists rs,
    Findings.check_all (rt := Fixture.host)
      [Fixture.shape_layer []; Fixture.solid_layer; Fixture.shape_layer []] = Return rs /\
    filter (fun e => String.eqb (TGSKit.message e) "Layers have errors")
      [TGSKit.diagnostic_with "Layers have errors"
         [TGSKit.diagnostic_with "Layer "
            [TGSKit.diagnostic "Composition should not include any Solids"]];
       TGSKit.diagnostic_with "Layers have errors"
         [TGSKit.diagnostic_with "Layer "
            [TGSKit.diagnostic "Composition should not include any Solids"]]] =
    repeat (TGSKit.diagnostic_with "Layers have errors" (Findings.collected rs))
      (List.length (Findings.from_first_finding rs)).
Proof.
  assert (H : TGSKit.validate (rt := Fixture.host)
                (Fixture.document 0 90
                   [Fixture.shape_layer []; Fixture.solid_layer; Fixture.shape_layer []]) =
              (Return
                 [TGSKit.diagnostic_with "Layers have errors"
                    [TGSKit.diagnostic_with "Layer "
                       [TGSKit.diagnostic "Composition should not include any Solids"]];
                  TGSKit.diagnostic_with "Layers have errors"
                    [TGSKit.diagnostic_with "Layer "
                       [TGSKit.diagnostic "Composition should not include any Solids"]]],
               Checks.canonical
                 (Fixture.document 0 90
                    [Fixture.shape_layer []; Fixture.solid_layer; Fixture.shape_layer []])))
    by (vm_compute; reflexivity).
  split; [exact H|].
  exact (validate_repeats_layers_entry (rt := Fixture.host) _ _ _
           [Fixture.shape_layer []; Fixture.solid_layer; Fixture.shape_layer []]
           H eq_refl).
Defined.

(** The witness of [validate_reports_layer_findings]: a document whose one
    layer is a solid. *)
Lemma validate_reports_layer_findings_witness :
  TGSKit.validate (rt := Fixture.host) (Fixture.document 0 90 [Fixture.solid_layer]) =
    (Return
       [TGSKit.diagnostic_with "Layers have errors"
          [TGSKit.diagnostic_with "Layer "
             [TGSKit.diagnostic "Composition should not include any Solids"]]],
     Checks.canonical (Fixture.document 0 90 [Fixture.solid_layer])) /\
  exists layerErrors,
    TGSKit.checkLayer (rt := Fixture.host) Fixture.solid_layer = Return layerErrors /\
    (TGSKit.nonempty layerErrors = true ->
     exists all,
       In (TGSKit.diagnostic_with "Layers have errors" all)
         [TGSKit.diagnostic_with "Layers have errors"
            [TGSKit.diagnostic_with "Layer "
               [TGSKit.diagnostic "Composition should not include any Solids"]]] /\
       In (TGSKit.diagnostic_with "Layer " layerErrors) all).
Proof.
  assert (H : TGSKit.validate (rt := Fixture.host)
                (Fixture.document 0 90 [Fixture.solid_layer]) =
              (Return
                 [TGSKit.diagnostic_with "Layers have errors"
                    [TGSKit.diagnostic_with "Layer "
                       [TGSKit.diagnostic "Composition should not include any Solids"]]],
               Checks.canonical (Fixture.document 0 90 [Fixture.solid_layer])))
    by (vm_compute; reflexivity).
  split; [exact H|].
  exact (validate_reports_layer_findings (rt := Fixture.host) _ _ _
           [Fixture.solid_layer] Fixture.solid_layer H eq_refl (or_introl eq_refl)).
Defined.

(** The witness of [validate_accepts]: the sticker of the fixture. *)
Lemma validate_accepts_witness :
  TGSKit.validate (rt := Fixture.host) Fixture.sticker =
    (Return [], Checks.canonical Fixture.sticker) /\
  Checks.frame_rate_off (rt := Fixture.host) Fixture.sticker = Return false /\
  Checks.dimensions_off (rt := Fixture.host) Fixture.sticker = Return false.
Proof.
  split; [reflexivity|].
  destruct (proj1 (validate_accepts (rt := Fixture.host) Fixture.sticker
                     (Checks.canonical Fixture.sticker) [] eq_refl) eq_refl)
    as (Hfr & _ & Hdim & _).
  split; [exact Hfr|exact Hdim].
Defined.

(** The witness of [checkItems_flags_exactly]: a group that holds a repeater
    and an ellipse, then a star. *)
Lemma checkItems_flags_exactly_witness :
  TGSKit.checkItems (rt := Fixture.host)
    (VArray [Fixture.group [Fixture.shape "rp"; Fixture.shape "el"]; Fixture.shape "sr"])
    (VBoolean true) =
  Return
    [TGSKit.diagnostic_with "Composition items should not have errors"
       [TGSKit.diagnostic "Composition should not include any Repeaters"];
     TGSKit.diagnostic "Composition should not include any Star Shapes"].
Proof.
  apply (checkItems_flags_exactly (rt := Fixture.host)
           [Fixture.group [Fixture.shape "rp"; Fixture.shape "el"]; Fixture.shape "sr"]).
  reflexivity.
Defined.

(** The witness of [validate_strips_the_document]: the sticker with two
    markers loses them. *)
Lemma validate_strips_the_document_witness :
  TGSKit.validate (rt := Fixture.host) Fixture.sticker_with_markers =
    (Return [], Checks.canonical Fixture.sticker_with_markers) /\
  HasProperty "markers" Fixture.sticker_with_markers = Return true /\
  HasProperty "markers" (Checks.canonical Fixture.sticker_with_markers) = Return false /\
  Get (Checks.canonical Fixture.sticker_with_markers) "tgs" = Return (VNumber 1).
Proof.
  assert (H : TGSKit.validate (rt := Fixture.host) Fixture.sticker_with_markers =
              (Return [], Checks.canonical Fixture.sticker_with_markers))
    by (vm_compute; reflexivity).
  split; [exact H|]. split; [reflexivity|].
  destruct (validate_strips_the_document (rt := Fixture.host) _ _ _ _ H eq_refl)
    as (Htgs & Hmarkers & _).
  split; [exact Hmarkers|exact Htgs].
Defined.

(** The witness of [generate_twice]: the sticker of the fixture. *)
Lemma generate_twice_witness :
  exists blob,
    TGSKit.generate (rt := Fixture.host) Fixture.sticker =
      (Return blob, Checks.canonical Fixture.sticker) /\
    TGSKit.generate (rt := Fixture.host) (Checks.canonical Fixture.sticker) =
      (Return blob, Checks.canonical Fixture.sticker).
Proof.
  eexists. split; [reflexivity|].
  apply (generate_twice (rt := Fixture.host) Fixture.sticker). reflexivity.
Defined.


(** The witness of [data_stays_an_object]: the [{}] of a new instance. *)
Lemma data_stays_an_object_witness :
  typeof empty_object = "object" /\
  typeof (TGSKit.data_after
            (TGSKit.load (rt := Fixture.host) (VString "false") empty_object)) = "object" /\
  typeof (snd (TGSKit.validate (rt := Fixture.host) empty_object)) = "object" /\
  typeof (snd (TGSKit.generate (rt := Fixture.host) empty_object)) = "object".
Proof.
  split; [reflexivity|].
  destruct (data_stays_an_object (rt := Fixture.host) empty_object eq_refl)
    as (Hload & Hvalidate & Hgenerate).
  split; [apply Hload|]. split; [exact Hvalidate|exact Hgenerate].
Defined.
